(** * suggest-jsdoc: the diff locator, the syntax scanner and the run loop

    A shallow embedding of [src/scripts/suggest-jsdoc.cjs].

    Strings are [string]; on ASCII text one [ascii] is one UTF-16 code
    unit, which is the domain on which the index arithmetic and the regular
    expressions below are exact.  Numbers that the script keeps in JS
    numbers are [Z] (line counters, which can go below zero) or [nat]
    (positions, counts); the model is exact below 2^53. *)

From Stdlib Require Import ZArith Ascii String List Bool Lia.
From stdpp Require Import base option gmap strings list pretty.

Local Open Scope string_scope.
Local Open Scope Z_scope.

(** ** Built-ins of the host language *)

Module Js.

(** The result of a call that may throw; [Throw] carries [error.message]. *)
Inductive outcome (A : Type) : Type :=
| Ret (a : A)
| Throw (message : string).
Arguments Ret {A} a.
Arguments Throw {A} message.

(** [s.startsWith(p)] *)
Fixpoint startsWith (s p : string) {struct p} : bool :=
  match p with
  | EmptyString => true
  | String c p' =>
      match s with
      | EmptyString => false
      | String d s' => if Ascii.eqb c d then startsWith s' p' else false
      end
  end.

(** [s.split(sep)] for a one-character separator: n separators give
    n+1 pieces, and the empty string gives one empty piece. *)
Fixpoint split (sep : ascii) (s : string) : list string :=
  match s with
  | EmptyString => [EmptyString]
  | String c s' =>
      if Ascii.eqb c sep then EmptyString :: split sep s'
      else match split sep s' with
           | piece :: pieces => String c piece :: pieces
           | [] => [String c EmptyString]
           end
  end.

Definition newline : ascii := ascii_of_nat 10.
Definition carriageReturn : ascii := ascii_of_nat 13.

Fixpoint dropStr (n : nat) (s : string) : string :=
  match n, s with
  | O, _ => s
  | S n', String _ s' => dropStr n' s'
  | S _, EmptyString => EmptyString
  end.

Fixpoint takeStr (n : nat) (s : string) : string :=
  match n, s with
  | S n', String c s' => String c (takeStr n' s')
  | _, _ => EmptyString
  end.

(** [s.substring(a, b)]: the arguments are swapped when [a > b] and
    clamped to the length of [s]. *)
Definition substring (s : string) (a b : nat) : string :=
  if (a <=? b)%nat then takeStr (b - a) (dropStr a s)
  else takeStr (a - b) (dropStr b s).

(** [s.substring(a)] *)
Definition substringFrom (s : string) (a : nat) : string := dropStr a s.

(** [\d] *)
Definition isDigit (c : ascii) : bool :=
  let n := nat_of_ascii c in (48 <=? n)%nat && (n <=? 57)%nat.

Definition digitVal (c : ascii) : Z := Z.of_nat (nat_of_ascii c) - 48.

Fixpoint parseDigits (acc : Z) (s : string) : Z :=
  match s with
  | EmptyString => acc
  | String c s' => parseDigits (acc * 10 + digitVal c) s'
  end.

(** [parseInt(s, 10)] on a capture of [\d+]. *)
Definition parseInt (s : string) : Z := parseDigits 0 s.

(** Line terminators of the regular expression engine ([^] under the
    [m] flag, and the characters [.] refuses), among ASCII characters. *)
Definition isLineTerminator (c : ascii) : bool :=
  Ascii.eqb c newline || Ascii.eqb c carriageReturn.

(** White space removed by [s.trim()], among ASCII characters. *)
Definition isWhiteSpace (c : ascii) : bool :=
  let n := nat_of_ascii c in
  ((9 <=? n)%nat && (n <=? 13)%nat) || (n =? 32)%nat.

Fixpoint trimStart (s : string) : string :=
  match s with
  | String c s' => if isWhiteSpace c then trimStart s' else s
  | EmptyString => EmptyString
  end.

Fixpoint trimEnd (s : string) : string :=
  match s with
  | EmptyString => EmptyString
  | String c s' =>
      match trimEnd s' with
      | EmptyString => if isWhiteSpace c then EmptyString else String c EmptyString
      | t => String c t
      end
  end.

(** [s.trim()] *)
Definition trim (s : string) : string := trimEnd (trimStart s).

(** Truthiness of a string: only the empty string is falsy. *)
Definition truthy (s : string) : bool :=
  match s with EmptyString => false | _ => true end.

(** The text of a line feed and of a double quote. *)
Definition nl : string := String newline EmptyString.
Definition quote : string := String (ascii_of_nat 34) EmptyString.

(** [lines.join(sep)] *)
Fixpoint join (sep : string) (l : list string) : string :=
  match l with
  | [] => EmptyString
  | [x] => x
  | x :: rest => x +:+ sep +:+ join sep rest
  end.

End Js.

(** ** Diff Locator: [getDiffPositions] *)

Module DiffLocator.
Import Js.

(** The locals of the loop: [lineMap], [currentPosition], [leftLine]
    and [rightLine]. *)
Record WalkState : Type := mkWalk {
  lineMap : gmap Z nat;
  currentPosition : nat;
  leftLine : Z;
  rightLine : Z
}.

Definition initial : WalkState :=
  {| lineMap := ∅; currentPosition := 0; leftLine := 0; rightLine := 0 |}.

(** *** The hunk header pattern [/@@ -(\d+),\d+ \+(\d+),\d+ @@/]

    Every [\d+] of the pattern is followed by a literal that is not a
    digit, so a backtracking matcher succeeds at a position exactly when
    the longest run of digits is followed by that literal: giving digits
    back leaves a digit where the literal is wanted. *)

(** The longest prefix of digits and what follows it. *)
Fixpoint spanDigits (s : string) : string * string :=
  match s with
  | String c s' =>
      if isDigit c then let '(d, r) := spanDigits s' in (String c d, r)
      else (EmptyString, s)
  | EmptyString => (EmptyString, EmptyString)
  end.

(** [\d+] *)
Definition digits1 (s : string) : option (string * string) :=
  match spanDigits s with
  | (EmptyString, _) => None
  | (d, r) => Some (d, r)
  end.

(** A literal of the pattern: what follows it in [s], if it is there. *)
Fixpoint expect (lit s : string) : option string :=
  match lit with
  | EmptyString => Some s
  | String c lit' =>
      match s with
      | String d s' => if Ascii.eqb c d then expect lit' s' else None
      | EmptyString => None
      end
  end.

(** The pattern at the start of [s]: the two captures. *)
Definition hunkHeaderAt (s : string) : option (string * string) :=
  r0 ← expect "@@ -" s;
  '(a, r1) ← digits1 r0;
  r2 ← expect "," r1;
  '(_, r3) ← digits1 r2;
  r4 ← expect " +" r3;
  '(c, r5) ← digits1 r4;
  r6 ← expect "," r5;
  '(_, r7) ← digits1 r6;
  _ ← expect " @@" r7;
  Some (a, c).

(** [line.match(...)]: the pattern is not anchored, the leftmost
    position where it matches wins. *)
Fixpoint hunkHeaderMatch (s : string) : option (string * string) :=
  match hunkHeaderAt s with
  | Some m => Some m
  | None =>
      match s with
      | String _ s' => hunkHeaderMatch s'
      | EmptyString => None
      end
  end.

(** *** One turn of [for (const line of lines)] *)

Definition classify (st : WalkState) (line : string) : WalkState :=
  if startsWith line "@@" then
    match hunkHeaderMatch line with
    | Some (a, c) =>
        {| lineMap := lineMap st; currentPosition := currentPosition st;
           leftLine := parseInt a - 1; rightLine := parseInt c - 1 |}
    | None => st
    end
  else if startsWith line "-" then
    {| lineMap := lineMap st; currentPosition := currentPosition st;
       leftLine := leftLine st + 1; rightLine := rightLine st |}
  else if startsWith line "+" then
    {| lineMap := <[rightLine st + 1 := currentPosition st]> (lineMap st);
       currentPosition := currentPosition st;
       leftLine := leftLine st; rightLine := rightLine st + 1 |}
  else if negb (startsWith line "diff") && negb (startsWith line "index")
          && negb (startsWith line "---") && negb (startsWith line "+++") then
    {| lineMap := <[rightLine st + 1 := currentPosition st]> (lineMap st);
       currentPosition := currentPosition st;
       leftLine := leftLine st + 1; rightLine := rightLine st + 1 |}
  else st.

Definition step (st : WalkState) (line : string) : WalkState :=
  let st' := classify st line in
  {| lineMap := lineMap st'; currentPosition := S (currentPosition st');
     leftLine := leftLine st'; rightLine := rightLine st' |}.

Definition walkFrom (st : WalkState) (lines : list string) : WalkState :=
  fold_left step lines st.

(** The loop over the lines of the file's segment. *)
Definition walk (lines : list string) : WalkState := walkFrom initial lines.

(** *** The file pattern and the file's segment

    [new RegExp(`^diff --git a/${p} b/${p}`, 'm')] where [p] is the path
    with every [/] escaped and nothing else: a [.] of the path is the
    wildcard of the pattern.  Paths made of [.] and of characters that
    stand for themselves are modelled here; a path with another operator
    of the pattern language is left to the host engine, which may refuse
    the pattern (a SyntaxError). *)

Inductive atom : Type :=
| Lit (c : ascii)
| AnyChar.

Definition isSyntaxCharacter (c : ascii) : bool :=
  existsb (Ascii.eqb c) (list_ascii_of_string "^$\.*+?()[]{}|").

Fixpoint pathAtoms (p : string) : option (list atom) :=
  match p with
  | EmptyString => Some []
  | String c p' =>
      rest ← pathAtoms p';
      if Ascii.eqb c "." then Some (AnyChar :: rest)
      else if isSyntaxCharacter c then None
      else Some (Lit c :: rest)
  end.

Definition literal (s : string) : list atom := map Lit (list_ascii_of_string s).

Definition filePattern (filePath : string) : option (list atom) :=
  p ← pathAtoms filePath;
  Some (literal "diff --git a/" ++ p ++ literal " b/" ++ p)%list.

(** The atoms at the start of [s]. *)
Fixpoint matchAtoms (pat : list atom) (s : string) : bool :=
  match pat with
  | [] => true
  | a :: pat' =>
      match s with
      | EmptyString => false
      | String d s' =>
          match a with
          | Lit c => Ascii.eqb c d && matchAtoms pat' s'
          | AnyChar => negb (isLineTerminator d) && matchAtoms pat' s'
          end
      end
  end.

(** [s.match(/^.../m)]: the index of the leftmost line start where
    [matches] holds; [i] is the index of [s] in the whole text and
    [atStart] says whether a line starts there. *)
Fixpoint searchLineStart (matches : string -> bool) (atStart : bool)
    (s : string) (i : nat) : option nat :=
  if atStart && matches s then Some i
  else match s with
       | EmptyString => None
       | String c s' => searchLineStart matches (isLineTerminator c) s' (S i)
       end.

Section Host.
(** The host engine on a pattern source outside the modelled fragment:
    the index of the match, none, or a refusal. *)
Variable hostRegExp : string -> string -> outcome (option nat).

(** [diff.match(filePattern)]: [fileMatch.index], if any. *)
Definition fileMatch (diff filePath : string) : outcome (option nat) :=
  match filePattern filePath with
  | Some pat => Ret (searchLineStart (matchAtoms pat) true diff 0)
  | None => hostRegExp filePath diff
  end.

(** [fileDiff], from [fileStartIndex]. *)
Definition fileDiff (diff : string) (fileStartIndex : nat) : string :=
  let nextFileDiff :=
    searchLineStart (fun s => startsWith s "diff --git") true
      (substringFrom diff (fileStartIndex + 1)) 0 in
  let fileEndIndex :=
    match nextFileDiff with
    | Some index => (fileStartIndex + 1 + index)%nat
    | None => String.length diff
    end in
  substring diff fileStartIndex fileEndIndex.

(** The body of [getDiffPositions] once the diff text is there. *)
Definition positionsOfDiff (diff filePath : string) : outcome (gmap Z nat) :=
  match fileMatch diff filePath with
  | Throw e => Throw e
  | Ret None => Ret ∅
  | Ret (Some fileStartIndex) =>
      Ret (lineMap (walk (split newline (fileDiff diff fileStartIndex))))
  end.
End Host.

End DiffLocator.

(** ** Syntax Scanner: the visitors of [detectFunctions] *)

(** The syntax tree of the parser, with the properties the visitors read.
    A node has no [parent] property: only the paths of the traversal know
    the parent of a node.  [children] holds the child nodes in the order
    in which [traverse] visits them, which is the order of the visitor keys
    of the type of the node; the nodes that the visitors read as [id],
    [key] and [init] are child nodes too, and stand in [children] at their
    place. *)
Module Ast.

Inductive commentType : Type := CommentBlock | CommentLine.

Record comment : Type := mkComment {
  ctype : commentType;
  cvalue : string
}.

#[local] Unset Elimination Schemes.
Inductive node : Type := mkNode {
  type : string;
  start : nat;
  end_ : nat;
  line : nat;                              (* loc.start.line *)
  leadingComments : option (list comment);
  name : option string;                    (* of an Identifier *)
  value : option string;                   (* of a StringLiteral *)
  id : option node;
  key : option node;
  init : option node;
  children : list node                     (* in the order of the visitor keys *)
}.
#[local] Set Elimination Schemes.

End Ast.

Module SyntaxScanner.
Import Js.

(** An entry of [functions]. *)
Record CallableUnit : Type := mkUnit {
  name : string;
  startIndex : nat;
  content : string;
  type : string;
  startLine : nat;
  lineContent : string
}.

(** [cs && cs.some(c => c.type === 'CommentBlock' && c.value.startsWith('*'))] *)
Definition someJSDoc (cs : option (list Ast.comment)) : bool :=
  match cs with
  | Some l =>
      existsb (fun c =>
        match Ast.ctype c with
        | Ast.CommentBlock => startsWith (Ast.cvalue c) "*"
        | Ast.CommentLine => false
        end) l
  | None => false
  end.

(** [n.name], as a truthy value. *)
Definition truthyName (n : option Ast.node) : option string :=
  match n with
  | Some i =>
      match Ast.name i with
      | Some s => if truthy s then Some s else None
      | None => None
      end
  | None => None
  end.

(** [node.key.type === 'StringLiteral' && node.key.value] *)
Definition stringLiteralValue (n : option Ast.node) : option string :=
  match n with
  | Some k =>
      if String.eqb (Ast.type k) "StringLiteral" then
        match Ast.value k with
        | Some s => if truthy s then Some s else None
        | None => None
        end
      else None
  | None => None
  end.

(** [fileContent.split('\n')[line - 1] || ''] *)
Definition lineAt (fileContent : string) (line : nat) : string :=
  match line with
  | O => EmptyString
  | S i => nth i (split newline fileContent) EmptyString
  end.

Definition unitOf (fileContent : string) (n : Ast.node) (nm kind : string)
    : CallableUnit :=
  {| name := nm;
     startIndex := Ast.start n;
     content := substring fileContent (Ast.start n) (Ast.end_ n);
     type := kind;
     startLine := Ast.line n;
     lineContent := lineAt fileContent (Ast.line n) |}.

(** [path.parent.parent]: [path.parent] is a node, and a node has no
    such property. *)
Definition parentOfNode (n : Ast.node) : option Ast.node := None.

Definition FunctionDeclaration (fileContent : string)
    (node : Ast.node) (parent : option Ast.node) : list CallableUnit :=
  match truthyName (Ast.id node) with
  | Some nm =>
      let hasJSDoc :=
        match parent with
        | Some p => someJSDoc (Ast.leadingComments p)
        | None => false
        end in
      if negb hasJSDoc then [unitOf fileContent node nm "function"] else []
  | None => []
  end.

Definition isFunctionInit (init : option Ast.node) : bool :=
  match init with
  | Some i =>
      String.eqb (Ast.type i) "FunctionExpression"
      || String.eqb (Ast.type i) "ArrowFunctionExpression"
  | None => false
  end.

Definition VariableDeclarator (fileContent : string)
    (node : Ast.node) (parent : option Ast.node) : list CallableUnit :=
  match truthyName (Ast.id node) with
  | Some nm =>
      if isFunctionInit (Ast.init node) then
        let hasJSDoc :=
          match parent with
          | Some p =>
              match parentOfNode p with
              | Some pp => someJSDoc (Ast.leadingComments pp)
              | None => false
              end
          | None => false
          end in
        if negb hasJSDoc then [unitOf fileContent node nm "function"] else []
      else []
  | None => []
  end.

Definition ClassMethod (fileContent : string)
    (node : Ast.node) : list CallableUnit :=
  match truthyName (Ast.key node) with
  | Some nm =>
      let hasJSDoc := someJSDoc (Ast.leadingComments node) in
      if negb hasJSDoc then [unitOf fileContent node nm "method"] else []
  | None => []
  end.

Definition ObjectMethod (fileContent : string)
    (node : Ast.node) : list CallableUnit :=
  let nm :=
    match truthyName (Ast.key node) with
    | Some s => Some s
    | None => stringLiteralValue (Ast.key node)
    end in
  match nm with
  | Some nm =>
      let hasJSDoc := someJSDoc (Ast.leadingComments node) in
      if negb hasJSDoc then [unitOf fileContent node nm "method"] else []
  | None => []
  end.

(** The visitor that [traverse] calls when it enters [node]. *)
Definition enter (fileContent : string) (node : Ast.node)
    (parent : option Ast.node) : list CallableUnit :=
  if String.eqb (Ast.type node) "FunctionDeclaration" then
    FunctionDeclaration fileContent node parent
  else if String.eqb (Ast.type node) "VariableDeclarator" then
    VariableDeclarator fileContent node parent
  else if String.eqb (Ast.type node) "ClassMethod" then
    ClassMethod fileContent node
  else if String.eqb (Ast.type node) "ObjectMethod" then
    ObjectMethod fileContent node
  else [].

(** The walk of [traverse]: depth first, a node before its children, the
    children in their order. *)
Fixpoint visit (fileContent : string) (parent : option Ast.node)
    (node : Ast.node) : list CallableUnit :=
  match node with
  | Ast.mkNode _ _ _ _ _ _ _ _ _ _ children =>
      (enter fileContent node parent
       ++ flat_map (visit fileContent (Some node)) children)%list
  end.

(** [functions] after [traverse(ast, ...)] has walked the tree.  Whether
    [traverse] walks the tree or throws is not in the hands of the
    visitors: it builds the scopes of the tree before it calls one of
    them, and throws when it cannot (a name declared twice); that is the
    [traverseThrows] of the host, which [detectFunctions] asks. *)
Definition traverse (fileContent : string) (ast : Ast.node) : list CallableUnit :=
  visit fileContent None ast.

End SyntaxScanner.

(** ** Orchestrator: the run, with its effects *)

Module Orchestrator.
Import Js.

(** [stats] *)
Record Stats : Type := mkStats {
  totalFiles : nat;
  totalFunctions : nat;
  totalSuggestions : nat;
  suggestedFiles : list (string * nat)      (* path, suggestionsCount *)
}.

Record Suggestion : Type := mkSuggestion {
  filePath : string;
  position : nat;
  jsdocComment : string;
  lineContent : string;
  functionName : string
}.

(** A comment of a review request. *)
Record ReviewComment : Type := mkReviewComment {
  path : string;
  commentPosition : nat;
  body : string
}.

Inductive LogEntry : Type :=
| ConsoleLog (text : string)
| ConsoleError (text : string)
| ConsoleErrorWith (text : string) (error : string).

(** What a run changes: the statistics, the console, the requests sent
    to the review API with their fate, the files written and the exit
    code; [clock] counts the calls made to the outside. *)
Record World : Type := mkWorld {
  stats : Stats;
  console : list LogEntry;
  clock : nat;
  reviews : list (list ReviewComment * bool);
  written : list (string * string);
  exitCode : option nat
}.

Definition initialStats : Stats :=
  {| totalFiles := 0; totalFunctions := 0; totalSuggestions := 0;
     suggestedFiles := [] |}.

Definition initialWorld : World :=
  {| stats := initialStats; console := []; clock := 0; reviews := [];
     written := []; exitCode := None |}.

(** The outside of the script.  A call made to the outside is answered
    from the number of calls made before it and from its arguments, so
    that two calls with the same arguments may be answered differently. *)
Record Host : Type := mkHost {
  envFiles : option string;                               (* process.env.files *)
  globSync : nat -> outcome (list string);
  readFileSync : nat -> string -> outcome string;
  parse : string -> outcome Ast.node;                     (* parser.parse *)
  (* the error with which traverse gives up on a tree, if it does *)
  traverseThrows : Ast.node -> option string;
  pullsGet : nat -> outcome string;                       (* response.data *)
  regExp : string -> string -> outcome (option nat);
  (* the completion for a function name, its text and the file path,
     which determine the request *)
  chatCompletion : nat -> string -> string -> string -> outcome string;
  createReview : nat -> list ReviewComment -> outcome unit;
  writeFileSync : nat -> string -> string -> outcome unit
}.

(** *** Computations that change the world and may throw *)

Definition M (A : Type) : Type := World -> outcome A * World.

Definition ret {A : Type} (a : A) : M A := fun w => (Ret a, w).

Definition bind {A B : Type} (m : M A) (k : A -> M B) : M B :=
  fun w =>
    match m w with
    | (Ret a, w') => k a w'
    | (Throw e, w') => (Throw e, w')
    end.

(** [try { body } catch (error) { handler }] *)
Definition tryCatch {A : Type} (body : M A) (handler : string -> M A) : M A :=
  fun w =>
    match body w with
    | (Ret a, w') => (Ret a, w')
    | (Throw e, w') => handler e w'
    end.

Declare Scope run_scope.
Delimit Scope run_scope with run.
Notation "x <- m ;; k" := (bind m (fun x => k))
  (at level 100, m at next level, right associativity) : run_scope.
Notation "m ;; k" := (bind m (fun _ => k))
  (at level 100, right associativity) : run_scope.
Local Open Scope run_scope.

Definition getStats : M Stats := fun w => (Ret (stats w), w).

Definition setStats (s : Stats) : M unit :=
  fun w =>
    (Ret tt,
     {| stats := s; console := console w; clock := clock w;
        reviews := reviews w; written := written w; exitCode := exitCode w |}).

Definition emit (e : LogEntry) : M unit :=
  fun w =>
    (Ret tt,
     {| stats := stats w; console := (console w ++ [e])%list; clock := clock w;
        reviews := reviews w; written := written w; exitCode := exitCode w |}).

Definition tick (w : World) : World :=
  {| stats := stats w; console := console w; clock := S (clock w);
     reviews := reviews w; written := written w; exitCode := exitCode w |}.

(** A call to the outside. *)
Definition call {A : Type} (f : nat -> outcome A) : M A :=
  fun w => (f (clock w), tick w).

(** A call to the outside that does not wait for anything. *)
Definition pure {A : Type} (r : outcome A) : M A := fun w => (r, w).

(** [octokit.pulls.createReview]: the request is sent, accepted or not. *)
Definition sendReview (h : Host) (comments : list ReviewComment) : M unit :=
  fun w =>
    let r := createReview h (clock w) comments in
    (r,
     {| stats := stats w; console := console w; clock := S (clock w);
        reviews := (reviews w
                    ++ [(comments, match r with Ret _ => true | Throw _ => false end)])%list;
        written := written w; exitCode := exitCode w |}).

(** [fs.writeFileSync]: the file is there unless the call throws. *)
Definition writeFile (h : Host) (file text : string) : M unit :=
  fun w =>
    let r := writeFileSync h (clock w) file text in
    (r,
     {| stats := stats w; console := console w; clock := S (clock w);
        reviews := reviews w;
        written := match r with
                   | Ret _ => (written w ++ [(file, text)])%list
                   | Throw _ => written w
                   end;
        exitCode := exitCode w |}).

(** [process.exit(code)] *)
Definition exit (code : nat) : M unit :=
  fun w =>
    (Ret tt,
     {| stats := stats w; console := console w; clock := clock w;
        reviews := reviews w; written := written w; exitCode := Some code |}).

Section Run.
Variable h : Host.

(** The options given to the parser are the same for every file: the
    plugin that the test on the extension would add is in the list from
    the start.  The call of [traverse] is inside the [try]: when it
    throws, the units pushed so far are lost with [functions] and the
    handler returns the empty sequence. *)
Definition detectFunctions (filePath : string)
    : M (list SyntaxScanner.CallableUnit) :=
  tryCatch
    (fileContent <- call (fun t => readFileSync h t filePath) ;;
     ast <- pure (parse h fileContent) ;;
     functions <- pure (match traverseThrows h ast with
                        | Some message => Throw message
                        | None => Ret (SyntaxScanner.traverse fileContent ast)
                        end) ;;
     ret functions)
    (fun message =>
       emit (ConsoleError
               ("Error detecting functions in " +:+ filePath +:+ ": " +:+ message)) ;;
       ret []).

(** The comment, or [None] for [null]. *)
Definition generateJSDocComment (functionName functionContent filePath : string)
    : M (option string) :=
  tryCatch
    (text <- call (fun t => chatCompletion h t functionName functionContent filePath) ;;
     ret (Some (trim text)))
    (fun error =>
       emit (ConsoleErrorWith
               ("Error generating JSDoc for function " +:+ functionName +:+ ":")
               error) ;;
       ret None).

Definition getDiffPositions (filePath : string) : M (gmap Z nat) :=
  tryCatch
    (diff <- call (pullsGet h) ;;
     fileMatch <- pure (DiffLocator.fileMatch (regExp h) diff filePath) ;;
     match fileMatch with
     | None =>
         emit (ConsoleLog ("No diff found for file: " +:+ filePath)) ;;
         ret ∅
     | Some fileStartIndex =>
         ret (DiffLocator.lineMap
                (DiffLocator.walk
                   (split newline (DiffLocator.fileDiff diff fileStartIndex))))
     end)
    (fun error =>
       emit (ConsoleErrorWith
               ("Error getting diff positions for " +:+ filePath +:+ ":") error) ;;
       ret ∅).

Definition commentOf (suggestion : Suggestion) : ReviewComment :=
  {| path := filePath suggestion;
     commentPosition := position suggestion;
     body := jsdocComment suggestion +:+ nl +:+ nl +:+ "```suggestion" +:+ nl
             +:+ jsdocComment suggestion +:+ nl
             +:+ lineContent suggestion +:+ nl +:+ "```" |}.

Definition submitPRReview (suggestions : list Suggestion) : M unit :=
  if (length suggestions =? 0)%nat then
    emit (ConsoleLog "No suggestions to submit")
  else
    tryCatch
      (let comments := map commentOf suggestions in
       sendReview h comments ;;
       emit (ConsoleLog ("Successfully submitted " +:+ pretty (length comments)
                         +:+ " JSDoc suggestions")))
      (fun error => emit (ConsoleErrorWith "Error submitting PR review:" error)).

(** [stats.totalSuggestions++] *)
Definition countSuggestion : M unit :=
  s <- getStats ;;
  setStats {| totalFiles := totalFiles s; totalFunctions := totalFunctions s;
              totalSuggestions := S (totalSuggestions s);
              suggestedFiles := suggestedFiles s |}.

(** [stats.suggestedFiles.push({ path, suggestionsCount })] *)
Definition pushSuggestedFile (file : string) (suggestionsCount : nat) : M unit :=
  s <- getStats ;;
  setStats {| totalFiles := totalFiles s; totalFunctions := totalFunctions s;
              totalSuggestions := totalSuggestions s;
              suggestedFiles := (suggestedFiles s ++ [(file, suggestionsCount)])%list |}.

(** [stats.totalFiles = n] *)
Definition setTotalFiles (n : nat) : M unit :=
  s <- getStats ;;
  setStats {| totalFiles := n; totalFunctions := totalFunctions s;
              totalSuggestions := totalSuggestions s;
              suggestedFiles := suggestedFiles s |}.

(** [for (const func of functions)], from the suggestions pushed so far. *)
Fixpoint forFunctions (file : string) (diffPositions : gmap Z nat)
    (functions : list SyntaxScanner.CallableUnit) (suggestions : list Suggestion)
    : M (list Suggestion) :=
  match functions with
  | [] => ret suggestions
  | func :: rest =>
      emit (ConsoleLog ("Generating JSDoc for " +:+ SyntaxScanner.type func +:+ " "
                        +:+ SyntaxScanner.name func)) ;;
      jsdoc <- generateJSDocComment (SyntaxScanner.name func)
                 (SyntaxScanner.content func) file ;;
      suggestions' <-
        match jsdoc with
        | Some comment =>
            if truthy comment then
              match diffPositions !! Z.of_nat (SyntaxScanner.startLine func) with
              | Some pos =>
                  countSuggestion ;;
                  ret (suggestions
                       ++ [{| filePath := file; position := pos;
                              jsdocComment := comment;
                              lineContent := SyntaxScanner.lineContent func;
                              functionName := SyntaxScanner.name func |}])%list
              | None =>
                  emit (ConsoleLog
                          ("Could not find position for line "
                           +:+ pretty (SyntaxScanner.startLine func)
                           +:+ " in " +:+ file)) ;;
                  ret suggestions
              end
            else ret suggestions
        | None => ret suggestions
        end ;;
      forFunctions file diffPositions rest suggestions'
  end.

(** The value returned is [None] for [undefined]. *)
Definition processFile (file : string) : M (option nat) :=
  emit (ConsoleLog ("Processing file: " +:+ file)) ;;
  tryCatch
    (functions <- detectFunctions file ;;
     if (length functions =? 0)%nat then
       emit (ConsoleLog ("No functions without JSDoc found in " +:+ file)) ;;
       ret None
     else
       emit (ConsoleLog ("Found " +:+ pretty (length functions)
                         +:+ " functions without JSDoc in " +:+ file)) ;;
       diffPositions <- getDiffPositions file ;;
       suggestions <- forFunctions file diffPositions functions [] ;;
       (if (0 <? length suggestions)%nat then
          submitPRReview suggestions ;;
          pushSuggestedFile file (length suggestions)
        else ret tt) ;;
       ret (Some (length suggestions)))
    (fun error =>
       emit (ConsoleErrorWith ("Error processing file " +:+ file +:+ ":") error) ;;
       ret (Some 0%nat)).

(** [for (const file of changedFiles)] *)
Fixpoint forFiles (changedFiles : list string) : M unit :=
  match changedFiles with
  | [] => ret tt
  | file :: rest =>
      (if truthy (trim file) then processFile (trim file) ;; ret tt else ret tt) ;;
      forFiles rest
  end.

Definition summaryRow (file : string * nat) : string :=
  "| `" +:+ fst file +:+ "` | " +:+ pretty (snd file) +:+ " |".

Definition summaryOf (s : Stats) : string :=
  nl +:+ "## Summary of JSDoc Suggestions" +:+ nl
  +:+ nl
  +:+ "📊 **Statistics**:" +:+ nl
  +:+ "- Total files processed: " +:+ pretty (totalFiles s) +:+ nl
  +:+ "- Total functions analyzed: " +:+ pretty (totalFunctions s) +:+ nl
  +:+ "- Total JSDoc suggestions: " +:+ pretty (totalSuggestions s) +:+ nl
  +:+ "- Files with suggestions: " +:+ pretty (length (suggestedFiles s)) +:+ nl
  +:+ nl
  +:+ (if (0 <? length (suggestedFiles s))%nat then
         nl +:+ "## Files with JSDoc Suggestions" +:+ nl
         +:+ nl
         +:+ "| File | Suggestions |" +:+ nl
         +:+ "|------|-------------|" +:+ nl
         +:+ join nl (map summaryRow (suggestedFiles s)) +:+ nl
       else EmptyString) +:+ nl
  +:+ nl
  +:+ "ℹ️ These JSDoc suggestions were automatically generated using AI. " +:+ nl
  +:+ "You can apply them directly by clicking the " +:+ quote
  +:+ "Commit suggestion" +:+ quote +:+ " button on each review comment." +:+ nl.

Definition main : M unit :=
  tryCatch
    (changedFiles <-
       match envFiles h with
       | Some files =>
           if truthy files then ret (split " " files) else call (globSync h)
       | None => call (globSync h)
       end ;;
     if (length changedFiles =? 0)%nat then
       emit (ConsoleLog "No JS/TS files to process.")
     else
       setTotalFiles (length changedFiles) ;;
       emit (ConsoleLog ("Found " +:+ pretty (length changedFiles)
                         +:+ " files to process")) ;;
       forFiles changedFiles ;;
       s <- getStats ;;
       writeFile h "jsdoc-summary.md" (summaryOf s) ;;
       emit (ConsoleLog "Summary file generated."))
    (fun error =>
       emit (ConsoleErrorWith "Error in main function:" error) ;;
       exit 1).

End Run.

End Orchestrator.

(** ** What the specification promises of the position map *)

Module DiffLocatorSpec.
Import Js DiffLocator.

(** A capture of [\d+]: digits, at least one. *)
Fixpoint allDigits (s : string) : bool :=
  match s with
  | EmptyString => true
  | String c s' => isDigit c && allDigits s'
  end.

Definition isNumber (s : string) : bool := truthy s && allDigits s.

(** The hunk header [@@ -a,b +c,d @@], followed by [rest]. *)
Definition hunkHeader (a b c d : N) (rest : string) : string :=
  "@@ -" +:+ pretty a +:+ "," +:+ pretty b +:+ " +" +:+ pretty c +:+ ","
  +:+ pretty d +:+ " @@" +:+ rest.

(** The hunk header [@@ -a +c @@] of two ranges of one line, followed by
    [rest]. *)
Definition bareHunkHeader (a c : N) (rest : string) : string :=
  "@@ -" +:+ pretty a +:+ " +" +:+ pretty c +:+ " @@" +:+ rest.

(** The keys of the data model, in its words: "the line numbers that
    appear as context or added lines in the diff".  The lines are read
    as a unified diff reads them: nothing counts before the first hunk
    header; in a hunk an added line starts with [+], a context line with
    a space, and both carry the next line number of the new file.
    [next] is that number, or [None] before the first hunk header. *)
Fixpoint newFileLinesFrom (next : option Z) (lines : list string) : gset Z :=
  match lines with
  | [] => ∅
  | line :: rest =>
      if startsWith line "@@" then
        match hunkHeaderMatch line with
        | Some (_, c) => newFileLinesFrom (Some (parseInt c)) rest
        | None => newFileLinesFrom next rest
        end
      else
        match next with
        | None => newFileLinesFrom None rest
        | Some n =>
            if startsWith line "+" || startsWith line " " then
              {[ n ]} ∪ newFileLinesFrom (Some (n + 1)) rest
            else newFileLinesFrom (Some n) rest
        end
  end.

Definition newFileLines (lines : list string) : gset Z :=
  newFileLinesFrom None lines.

End DiffLocatorSpec.

(** ** What a run has asked of the review API *)

Module Published.
Import Orchestrator.

Fixpoint countWhere (keep : bool -> bool)
    (requests : list (list ReviewComment * bool)) : nat :=
  match requests with
  | [] => 0%nat
  | (comments, accepted) :: rest =>
      ((if keep accepted then length comments else 0) + countWhere keep rest)%nat
  end.

(** The suggestions handed to the review API, accepted or not. *)
Definition attempted (w : World) : nat := countWhere (fun _ => true) (reviews w).

(** The suggestions of the requests the review API accepted. *)
Definition published (w : World) : nat := countWhere (fun ok => ok) (reviews w).

(** The suggestions of the requests the review API refused. *)
Definition refused (w : World) : nat := countWhere negb (reviews w).

(** The per-file counts of the summary table. *)
Definition reportedCounts (w : World) : list nat :=
  map snd (suggestedFiles (stats w)).

(** The sizes of the requests sent, in order. *)
Definition requestSizes (w : World) : list nat :=
  map (fun r => length (fst r)) (reviews w).

End Published.

(** ** Inputs used as examples *)

Module Fixtures.
Import Js Orchestrator.

Definition leaf (type : string) (start end_ line : nat)
    (name value : option string) : Ast.node :=
  Ast.mkNode type start end_ line None name value None None None [].

Definition jsdoc : list Ast.comment := [Ast.mkComment Ast.CommentBlock "* doc "].

(** A documented function declaration, with the tree the parser gives
    for it: the comment is attached to the declaration. *)
Definition documentedFunction : string :=
  "/** doc */" +:+ nl +:+ "function f() {}".

Definition documentedFunctionAst : Ast.node :=
  Ast.mkNode "File" 0 26 1 None None None None None None
    [Ast.mkNode "Program" 0 26 1 None None None None None None
       [Ast.mkNode "FunctionDeclaration" 11 26 2 (Some jsdoc) None None
          (Some (leaf "Identifier" 20 21 2 (Some "f") None)) None None
          [leaf "Identifier" 20 21 2 (Some "f") None;
           leaf "BlockStatement" 24 26 2 None None]]].

(** A documented arrow function bound to a name: the comment is attached
    to the declaration statement. *)
Definition documentedArrow : string :=
  "/** doc */" +:+ nl +:+ "const g = () => 1;".

Definition documentedArrowAst : Ast.node :=
  Ast.mkNode "File" 0 29 1 None None None None None None
    [Ast.mkNode "Program" 0 29 1 None None None None None None
       [Ast.mkNode "VariableDeclaration" 11 29 2 (Some jsdoc) None None
          None None None
          [Ast.mkNode "VariableDeclarator" 17 28 2 None None None
             (Some (leaf "Identifier" 17 18 2 (Some "g") None)) None
             (Some (Ast.mkNode "ArrowFunctionExpression" 21 28 2 None None None
                      None None None
                      [leaf "NumericLiteral" 27 28 2 None None]))
             [leaf "Identifier" 17 18 2 (Some "g") None;
              Ast.mkNode "ArrowFunctionExpression" 21 28 2 None None None
                None None None
                [leaf "NumericLiteral" 27 28 2 None None]]]]].

(** A documented method of a class and a documented method of an object
    literal: the comment is attached to the method. *)
Definition documentedClassMethod : Ast.node :=
  Ast.mkNode "ClassMethod" 12 18 3 (Some jsdoc) None None
    None (Some (leaf "Identifier" 12 13 3 (Some "m") None)) None
    [leaf "Identifier" 12 13 3 (Some "m") None;
     leaf "BlockStatement" 16 18 3 None None].

Definition documentedObjectMethod : Ast.node :=
  Ast.mkNode "ObjectMethod" 12 20 3 (Some jsdoc) None None
    None (Some (leaf "StringLiteral" 12 15 3 None (Some "m"))) None
    [leaf "StringLiteral" 12 15 3 None (Some "m");
     leaf "BlockStatement" 18 20 3 None None].

(** The file [math.js] with one undocumented function, and the diff of
    a pull request that adds it. *)
Definition mathSource : string := "function add(a,b) { return a+b; }".

Definition mathAst : Ast.node :=
  Ast.mkNode "File" 0 33 1 None None None None None None
    [Ast.mkNode "Program" 0 33 1 None None None None None None
       [Ast.mkNode "FunctionDeclaration" 0 33 1 None None None
          (Some (leaf "Identifier" 9 12 1 (Some "add") None)) None None
          [leaf "Identifier" 9 12 1 (Some "add") None;
           leaf "Identifier" 13 14 1 (Some "a") None;
           leaf "Identifier" 15 16 1 (Some "b") None;
           leaf "BlockStatement" 18 33 1 None None]]].

Definition mathDiff : string :=
  "diff --git a/math.js b/math.js" +:+ nl +:+ "new file mode 100644" +:+ nl
  +:+ "index 0000000..bf2a1c4" +:+ nl
  +:+ "--- /dev/null" +:+ nl +:+ "+++ b/math.js" +:+ nl
  +:+ "@@ -0,0 +1,1 @@" +:+ nl +:+ "+function add(a,b) { return a+b; }" +:+ nl.

(** A run on [math.js] alone; [accepts] says whether the review API
    accepts the request. *)
Definition mathHost (accepts : bool) : Host :=
  {| envFiles := Some "math.js";
     globSync := fun _ => Ret [];
     readFileSync := fun _ _ => Ret mathSource;
     parse := fun _ => Ret mathAst;
     traverseThrows := fun _ => None;
     pullsGet := fun _ => Ret mathDiff;
     regExp := fun _ _ => Ret None;
     chatCompletion := fun _ _ _ _ => Ret "/** Adds two numbers. */";
     createReview := fun _ _ =>
       if accepts then Ret tt else Throw "Unprocessable Entity";
     writeFileSync := fun _ _ _ => Ret tt |}.

(** A run on two files, the first of which does not parse. *)
Definition brokenHost : Host :=
  {| envFiles := Some "bad.js math.js";
     globSync := fun _ => Ret [];
     readFileSync := fun _ file =>
       if String.eqb file "bad.js" then Ret "function (" else Ret mathSource;
     parse := fun text =>
       if String.eqb text "function (" then Throw "Unexpected token (1:9)"
       else Ret mathAst;
     traverseThrows := fun _ => None;
     pullsGet := fun _ => Ret mathDiff;
     regExp := fun _ _ => Ret None;
     chatCompletion := fun _ _ _ _ => Ret "/** Adds two numbers. */";
     createReview := fun _ _ => Ret tt;
     writeFileSync := fun _ _ _ => Ret tt |}.

End Fixtures.

Import Js DiffLocator DiffLocatorSpec.

(** ** Predicates of the statements below *)

(** [r] does not go on with a digit. *)
Definition stopsDigits (r : string) : Prop :=
  match r with
  | String c _ => isDigit c = false
  | EmptyString => True
  end.

(** [text] holds the line [line], with its line feed. *)
Definition hasLine (text line : string) : Prop :=
  exists before after, text = before +:+ line +:+ nl +:+ after.

Module Effects.
Import Orchestrator Published.

(** The world after one more entry on the console. *)
Definition logged (w : World) (e : LogEntry) : World :=
  {| stats := stats w; console := (console w ++ [e])%list; clock := clock w;
     reviews := reviews w; written := written w; exitCode := exitCode w |}.

(** From [w] to [w'] the run counted [n] more suggestions and touched
    nothing else of the statistics, the requests, the files written and
    the exit code. *)
Definition grows (w w' : World) (n : nat) : Prop :=
  totalFiles (stats w') = totalFiles (stats w)
  /\ totalFunctions (stats w') = totalFunctions (stats w)
  /\ suggestedFiles (stats w') = suggestedFiles (stats w)
  /\ totalSuggestions (stats w') = (totalSuggestions (stats w) + n)%nat
  /\ reviews w' = reviews w
  /\ written w' = written w
  /\ exitCode w' = exitCode w.

(** From [w] to [w'] the run sent the requests [sent]; it counted every
    comment of each of them, accepted or not, and added one row to the
    table for each of them. *)
Definition accounted (w w' : World) : Prop :=
  totalFiles (stats w') = totalFiles (stats w)
  /\ totalFunctions (stats w') = totalFunctions (stats w)
  /\ written w' = written w
  /\ exitCode w' = exitCode w
  /\ exists sent : list (list ReviewComment * bool),
       reviews w' = (reviews w ++ sent)%list
       /\ totalSuggestions (stats w')
          = (totalSuggestions (stats w) + countWhere (fun _ => true) sent)%nat
       /\ map snd (suggestedFiles (stats w'))
          = (map snd (suggestedFiles (stats w))
             ++ map (fun r => length (fst r)) sent)%list.

(** From [w] to [w'], a whole run: the count of functions analyzed is
    the same, every comment of every request sent was counted, and the
    only file that may have been written is the summary of the
    statistics of [w']. *)
Definition settled (w w' : World) : Prop :=
  totalFunctions (stats w') = totalFunctions (stats w)
  /\ (exists sent : list (list ReviewComment * bool),
        reviews w' = (reviews w ++ sent)%list
        /\ totalSuggestions (stats w')
           = (totalSuggestions (stats w) + countWhere (fun _ => true) sent)%nat
        /\ map snd (suggestedFiles (stats w'))
           = (map snd (suggestedFiles (stats w))
              ++ map (fun r => length (fst r)) sent)%list)
  /\ (written w' = written w
      \/ written w'
         = (written w ++ [("jsdoc-summary.md", summaryOf (stats w'))])%list).

(** The counts of the summary are those of the requests sent. *)
Definition balanced (w : World) : Prop :=
  totalSuggestions (stats w) = attempted w
  /\ reportedCounts w = requestSizes w.

End Effects.

(** ** Predicates of the further statements *)

(** *** The lines of a hunk, and the path of a file *)

(** A line that the loop takes for a removed line. *)
Definition removed (line : string) : bool :=
  negb (startsWith line "@@") && startsWith line "-".

(** A line that the loop records in the map: an added line, or a line
    that reaches the last branch and passes its tests. *)
Definition recorded (line : string) : bool :=
  negb (startsWith line "@@") && negb (startsWith line "-")
  && (startsWith line "+"
      || (negb (startsWith line "diff") && negb (startsWith line "index"))).

(** A line of the body of a hunk, as the loop reads it. *)
Definition bodyLine (line : string) : bool := removed line || recorded line.

(** A line of a hunk that is a line of the new file, as a unified diff
    writes it: an added line starts with [+], a context line with a
    space. *)
Definition inNewFile (line : string) : bool :=
  startsWith line "+" || startsWith line " ".

(** A line of the body of a hunk, as a unified diff writes it: an added
    line, a context line, or a removed line, which starts with [-]. *)
Definition hunkLine (line : string) : bool :=
  inNewFile line || startsWith line "-".

(** The hunk header [@@ -a,b +c @@]: the new range is one line and its
    length is left out (a file created with one line has [@@ -0,0 +1 @@]). *)
Definition hunkHeaderOneNewLine (a b c : N) (rest : string) : string :=
  "@@ -" +:+ pretty a +:+ "," +:+ pretty b +:+ " +" +:+ pretty c +:+ " @@" +:+ rest.

(** The hunk header [@@ -a +c,d @@]: the old range is one line and its
    length is left out (a one-line file that is deleted has [@@ -1 +0,0 @@]). *)
Definition hunkHeaderOneOldLine (a c d : N) (rest : string) : string :=
  "@@ -" +:+ pretty a +:+ " +" +:+ pretty c +:+ "," +:+ pretty d +:+ " @@" +:+ rest.

(** A path whose characters all stand for themselves in the file
    pattern, and which holds no line terminator. *)
Definition plainPath (p : string) : bool :=
  forallb (fun c => negb (isSyntaxCharacter c) && negb (isLineTerminator c))
    (list_ascii_of_string p).

(** The text that starts the segment of the file [p]. *)
Definition fileHeader (p : string) : string :=
  "diff --git a/" +:+ p +:+ " b/" +:+ p.

(** A text without carriage returns: its lines are the pieces between
    line feeds. *)
Definition noCarriageReturn (s : string) : bool :=
  forallb (fun c => negb (Ascii.eqb c carriageReturn)) (list_ascii_of_string s).

(** Two states of the loop that differ in the old-file counter only. *)
Definition sameButLeftLine (st st' : WalkState) : Prop :=
  lineMap st' = lineMap st
  /\ currentPosition st' = currentPosition st
  /\ rightLine st' = rightLine st.

(** *** The units of the scanner *)

(** A unit that can be sent on: it has a name, it is a function or a
    method, its text is a piece of the file that starts at its index, and
    its line is the line of the file at its line number. *)
Definition wellFormedUnit (fileContent : string) (u : SyntaxScanner.CallableUnit)
    : Prop :=
  truthy (SyntaxScanner.name u) = true
  /\ (SyntaxScanner.type u = "function" \/ SyntaxScanner.type u = "method")
  /\ (exists e, SyntaxScanner.content u
                = substring fileContent (SyntaxScanner.startIndex u) e)
  /\ SyntaxScanner.lineContent u
     = SyntaxScanner.lineAt fileContent (SyntaxScanner.startLine u).

(** The nodes of a tree, in the order in which [traverse] enters them. *)
Fixpoint nodesOf (node : Ast.node) : list Ast.node :=
  match node with
  | Ast.mkNode _ _ _ _ _ _ _ _ _ _ children =>
      node :: flat_map nodesOf children
  end.

(** A class with a documented method [m] and an undocumented method [n],
    with the tree the parser gives for it. *)
Definition classSource : string :=
  "class A {" +:+ nl +:+ "  /** doc */" +:+ nl +:+ "  m() {}" +:+ nl
  +:+ "  n() { return 1; }" +:+ nl +:+ "}".

Definition undocumentedMethod : Ast.node :=
  Ast.mkNode "ClassMethod" 34 51 4 None None None
    None (Some (Fixtures.leaf "Identifier" 34 35 4 (Some "n") None)) None
    [Fixtures.leaf "Identifier" 34 35 4 (Some "n") None;
     Fixtures.leaf "BlockStatement" 38 51 4 None None].

Definition classAst : Ast.node :=
  Ast.mkNode "File" 0 53 1 None None None None None None
    [Ast.mkNode "Program" 0 53 1 None None None None None None
       [Ast.mkNode "ClassDeclaration" 0 53 1 None None None
          (Some (Fixtures.leaf "Identifier" 6 7 1 (Some "A") None)) None None
          [Fixtures.leaf "Identifier" 6 7 1 (Some "A") None;
           Ast.mkNode "ClassBody" 8 53 1 None None None None None None
             [Ast.mkNode "ClassMethod" 25 31 3 (Some Fixtures.jsdoc) None None
                None (Some (Fixtures.leaf "Identifier" 25 26 3 (Some "m") None))
                None
                [Fixtures.leaf "Identifier" 25 26 3 (Some "m") None;
                 Fixtures.leaf "BlockStatement" 29 31 3 None None];
              undocumentedMethod]]]].

(** *** The run *)

Module Further.
Import Orchestrator.

(** The map that [getDiffPositions] returns for [file] when it is called
    after [t] calls to the outside: the map of the segment, and the empty
    map when the fetch fails, the pattern is refused or the file has no
    segment. *)
Definition fetchedPositions (h : Host) (t : nat) (file : string) : gmap Z nat :=
  match pullsGet h t with
  | Ret diff =>
      match DiffLocator.fileMatch (regExp h) diff file with
      | Ret (Some fileStartIndex) =>
          DiffLocator.lineMap
            (DiffLocator.walk
               (split newline (DiffLocator.fileDiff diff fileStartIndex)))
      | _ => ∅
      end
  | Throw _ => ∅
  end.

(** The comment that the loop keeps from an answer of the completion
    endpoint: the trimmed text when something is left of it. *)
Definition keptComment (answer : outcome string) : option string :=
  match answer with
  | Ret text => if truthy (trim text) then Some (trim text) else None
  | Throw _ => None
  end.

(** A suggestion for [file] that stands on one of [functions]: it has a
    comment, it carries the name and the line of the function, and its
    position is the one the map gives for the line where the function
    starts. *)
Definition anchored (file : string) (positions : gmap Z nat)
    (functions : list SyntaxScanner.CallableUnit) (s : Suggestion) : Prop :=
  filePath s = file
  /\ truthy (jsdocComment s) = true
  /\ exists func,
       In func functions
       /\ functionName s = SyntaxScanner.name func
       /\ lineContent s = SyntaxScanner.lineContent func
       /\ positions !! Z.of_nat (SyntaxScanner.startLine func) = Some (position s).

(** The entry that [processFile] writes when it starts on a file. *)
Definition isAnnouncement (e : LogEntry) : bool :=
  match e with
  | ConsoleLog text => startsWith text "Processing file: "
  | _ => false
  end.

(** The files announced on the console, in order. *)
Definition announcements (w : World) : list LogEntry :=
  List.filter isAnnouncement (console w).

(** A computation that only adds entries to the console, none of which
    announces a file. *)
Definition announcesNothing {A : Type} (m : M A) : Prop :=
  forall w, exists added,
    console (snd (m w)) = (console w ++ added)%list
    /\ Forall (fun e => isAnnouncement e = false) added.

(** A run on [math.js] alone where the completion endpoint refuses every
    request. *)
Definition silentHost : Host :=
  {| envFiles := Some "math.js";
     globSync := fun _ => Ret [];
     readFileSync := fun _ _ => Ret Fixtures.mathSource;
     parse := fun _ => Ret Fixtures.mathAst;
     traverseThrows := fun _ => None;
     pullsGet := fun _ => Ret Fixtures.mathDiff;
     regExp := fun _ _ => Ret None;
     chatCompletion := fun _ _ _ _ => Throw "insufficient_quota";
     createReview := fun _ _ => Ret tt;
     writeFileSync := fun _ _ _ => Ret tt |}.

(** A run on the files listed in [files], each of which reads as
    [math.js]. *)
Definition listedHost (files : string) : Host :=
  {| envFiles := Some files;
     globSync := fun _ => Ret [];
     readFileSync := fun _ _ => Ret Fixtures.mathSource;
     parse := fun _ => Ret Fixtures.mathAst;
     traverseThrows := fun _ => None;
     pullsGet := fun _ => Ret Fixtures.mathDiff;
     regExp := fun _ _ => Ret None;
     chatCompletion := fun _ _ _ _ => Ret "/** Adds two numbers. */";
     createReview := fun _ _ => Ret tt;
     writeFileSync := fun _ _ _ => Ret tt |}.

(** A run on files that all read as the class above; [throws] is the
    error with which [traverse] gives up on the tree, if it does. *)
Definition classHost (throws : option string) : Host :=
  {| envFiles := Some "a.js";
     globSync := fun _ => Ret [];
     readFileSync := fun _ _ => Ret classSource;
     parse := fun _ => Ret classAst;
     traverseThrows := fun _ => throws;
     pullsGet := fun _ => Ret Fixtures.mathDiff;
     regExp := fun _ _ => Ret None;
     chatCompletion := fun _ _ _ _ => Ret "/** Returns one. */";
     createReview := fun _ _ => Ret tt;
     writeFileSync := fun _ _ _ => Ret tt |}.

(** The diff of a pull request that adds [math.js] and changes [f.js]. *)
Definition twoFilesDiff : string :=
  Fixtures.mathDiff
  +:+ "diff --git a/f.js b/f.js" +:+ nl +:+ "index 83db48f..bf2a1c4 100644" +:+ nl
  +:+ "--- a/f.js" +:+ nl +:+ "+++ b/f.js" +:+ nl
  +:+ "@@ -10,2 +10,3 @@ function f() {" +:+ nl
  +:+ " a();" +:+ nl +:+ "+b();" +:+ nl +:+ " c();" +:+ nl.

End Further.

(** * Facts *)

(** ** Strings *)

#[local] Arguments String.append !s1 s2 /.

Lemma startsWith_append (p r : string) : startsWith (p +:+ r) p = true.
Proof.
  induction p as [|c p IH]; simpl; [reflexivity|].
  rewrite Ascii.eqb_refl. exact IH.
Qed.

Lemma expect_append (lit r : string) : expect lit (lit +:+ r) = Some r.
Proof.
  induction lit as [|c lit IH]; simpl; [reflexivity|].
  rewrite Ascii.eqb_refl. exact IH.
Qed.

Lemma spanDigits_append (d r : string) :
  allDigits d = true -> stopsDigits r -> spanDigits (d +:+ r) = (d, r).
Proof.
  induction d as [|c d IH]; simpl; intros Hd Hr.
  - destruct r as [|c r]; simpl in *; [reflexivity|]. now rewrite Hr.
  - apply andb_true_iff in Hd as [Hc Hd]. rewrite Hc, (IH Hd Hr). reflexivity.
Qed.

Lemma digits1_append (d r : string) :
  isNumber d = true -> stopsDigits r -> digits1 (d +:+ r) = Some (d, r).
Proof.
  unfold isNumber, digits1. intros Hn Hr.
  apply andb_true_iff in Hn as [Ht Hd].
  rewrite (spanDigits_append d r Hd Hr).
  destruct d; [discriminate|reflexivity].
Qed.

Lemma append_assoc (a b c : string) : (a +:+ b) +:+ c = a +:+ (b +:+ c).
Proof. induction a as [|x a IH]; simpl; [reflexivity|]. now rewrite IH. Qed.

(** Two prefixes with different first characters exclude each other. *)
Lemma startsWith_other_first (line : string) (c1 c2 : ascii) (p1 p2 : string) :
  startsWith line (String c1 p1) = true -> c1 <> c2 ->
  startsWith line (String c2 p2) = false.
Proof.
  destruct line as [|d line]; [discriminate|]. cbn [startsWith].
  destruct (Ascii.eqb_spec c1 d) as [<-|]; [|discriminate].
  intros _ Hne. destruct (Ascii.eqb_spec c2 c1) as [->|]; congruence.
Qed.

(** ** Decimal numbers *)

Lemma pretty_N_go_append (x : N) :
  forall s, pretty_N_go x s = pretty_N_go x "" +:+ s.
Proof.
  induction (N.lt_wf_0 x) as [x _ IH]; intros s.
  destruct (N.eq_dec x 0%N) as [->|Hx]; [reflexivity|].
  rewrite (pretty_N_go_step x s), (pretty_N_go_step x "") by lia.
  assert (Hlt : (x `div` 10 < x)%N) by (apply N.div_lt; lia).
  rewrite (IH _ Hlt (String _ s)), (IH _ Hlt (String _ "")).
  rewrite append_assoc. reflexivity.
Qed.

Lemma parseDigits_append (a b : string) :
  forall acc, parseDigits acc (a +:+ b) = parseDigits (parseDigits acc a) b.
Proof. induction a as [|c a IH]; intros acc; simpl; [reflexivity|apply IH]. Qed.

Lemma allDigits_append (a b : string) :
  allDigits (a +:+ b) = allDigits a && allDigits b.
Proof.
  induction a as [|c a IH]; simpl; [reflexivity|].
  now rewrite IH, andb_assoc.
Qed.

Lemma pretty_N_char_digit (d : N) :
  (d < 10)%N ->
  isDigit (pretty_N_char d) = true /\ digitVal (pretty_N_char d) = Z.of_N d.
Proof.
  intros H.
  assert (d = 0 \/ d = 1 \/ d = 2 \/ d = 3 \/ d = 4 \/ d = 5 \/ d = 6 \/ d = 7
          \/ d = 8 \/ d = 9)%N as Hd by lia.
  repeat (destruct Hd as [->|Hd]; [split; reflexivity|]). subst. split; reflexivity.
Qed.

Lemma pretty_N_go_digits (x : N) :
  allDigits (pretty_N_go x "") = true
  /\ parseDigits 0 (pretty_N_go x "") = Z.of_N x
  /\ (x <> 0%N -> truthy (pretty_N_go x "") = true).
Proof.
  induction (N.lt_wf_0 x) as [x _ IH].
  destruct (N.eq_dec x 0%N) as [->|Hx]; [repeat split; congruence|].
  rewrite (pretty_N_go_step x "") by lia.
  rewrite pretty_N_go_append.
  destruct (IH (x `div` 10)%N) as (Hd & Hv & _); [apply N.div_lt; lia|].
  destruct (pretty_N_char_digit (x `mod` 10)%N) as [Hc Hval];
    [apply N.mod_lt; lia|].
  split; [|split].
  - rewrite allDigits_append, Hd. simpl. now rewrite Hc.
  - rewrite parseDigits_append, Hv. simpl. rewrite Hval.
    rewrite (N.div_mod x 10) at 3 by lia. lia.
  - intros _. destruct (pretty_N_go (x `div` 10) ""); reflexivity.
Qed.

(** The decimal text of a number is a capture of [\d+], and [parseInt]
    reads the number back. *)
Lemma parseInt_pretty (n : N) :
  isNumber (pretty n) = true /\ parseInt (pretty n) = Z.of_N n.
Proof.
  unfold pretty, pretty_N. destruct (decide (n = 0%N)) as [->|Hn].
  - split; reflexivity.
  - destruct (pretty_N_go_digits n) as (Hd & Hv & Ht).
    unfold isNumber, parseInt. rewrite Hd, (Ht Hn), Hv. split; reflexivity.
Qed.

(** ** The hunk header pattern *)

Lemma hunkHeaderMatch_here (s : string) (m : string * string) :
  hunkHeaderAt s = Some m -> hunkHeaderMatch s = Some m.
Proof. intros H. destruct s; cbn [hunkHeaderMatch]; now rewrite H. Qed.

Lemma hunkHeaderAt_full (a b c d rest : string) :
  isNumber a = true -> isNumber b = true ->
  isNumber c = true -> isNumber d = true ->
  hunkHeaderAt ("@@ -" +:+ a +:+ "," +:+ b +:+ " +" +:+ c +:+ "," +:+ d
                +:+ " @@" +:+ rest) = Some (a, c).
Proof.
  intros Ha Hb Hc Hd. unfold hunkHeaderAt.
  rewrite expect_append. cbn [mbind option_bind].
  rewrite (digits1_append a _ Ha) by reflexivity. cbn [mbind option_bind].
  rewrite expect_append. cbn [mbind option_bind].
  rewrite (digits1_append b _ Hb) by reflexivity. cbn [mbind option_bind].
  rewrite expect_append. cbn [mbind option_bind].
  rewrite (digits1_append c _ Hc) by reflexivity. cbn [mbind option_bind].
  rewrite expect_append. cbn [mbind option_bind].
  rewrite (digits1_append d _ Hd) by reflexivity. cbn [mbind option_bind].
  rewrite expect_append. reflexivity.
Qed.

Lemma hunkHeaderMatch_cons (c : ascii) (s : string) :
  hunkHeaderMatch (String c s)
  = match hunkHeaderAt (String c s) with
    | Some m => Some m
    | None => hunkHeaderMatch s
    end.
Proof. reflexivity. Qed.

(** A position that does not start with [@] is passed over. *)
Lemma hunkHeaderMatch_skip (c : ascii) (s : string) :
  Ascii.eqb "@" c = false ->
  hunkHeaderMatch (String c s) = hunkHeaderMatch s.
Proof.
  intros Hc. rewrite hunkHeaderMatch_cons. unfold hunkHeaderAt.
  cbn [expect]. now rewrite Hc.
Qed.

Lemma isDigit_not_at (c : ascii) : isDigit c = true -> Ascii.eqb "@" c = false.
Proof.
  destruct c as [[] [] [] [] [] [] [] []]; vm_compute; congruence.
Qed.

Lemma hunkHeaderMatch_digits (d s : string) :
  allDigits d = true -> hunkHeaderMatch (d +:+ s) = hunkHeaderMatch s.
Proof.
  induction d as [|c d IH]; intros Hd; [reflexivity|].
  simpl in Hd. apply andb_true_iff in Hd as [Hc Hd].
  change (String c d +:+ s) with (String c (d +:+ s)).
  rewrite hunkHeaderMatch_skip by now apply isDigit_not_at.
  now apply IH.
Qed.

Lemma isNumber_allDigits (d : string) : isNumber d = true -> allDigits d = true.
Proof. unfold isNumber. intros H. now apply andb_true_iff in H as [_ H]. Qed.

(** In a header without the two lengths the pattern finds what it finds
    from the closing [@@] on, and nothing before. *)
Lemma hunkHeaderMatch_bare_rest (a c rest : string) :
  isNumber a = true -> isNumber c = true ->
  hunkHeaderMatch ("@@ -" +:+ a +:+ " +" +:+ c +:+ " @@" +:+ rest)
  = hunkHeaderMatch ("@@" +:+ rest).
Proof.
  intros Ha Hc.
  assert (Hat : hunkHeaderAt ("@@ -" +:+ a +:+ " +" +:+ c +:+ " @@" +:+ rest) = None).
  { unfold hunkHeaderAt. rewrite expect_append. cbn [mbind option_bind].
    rewrite (digits1_append a _ Ha) by reflexivity. reflexivity. }
  change ("@@ -" +:+ a +:+ " +" +:+ c +:+ " @@" +:+ rest)
    with (String "@" (String "@" (String " " (String "-"
            (a +:+ String " " (String "+" (c +:+ String " " ("@@" +:+ rest)))))))) in *.
  rewrite hunkHeaderMatch_cons, Hat.
  assert (Hat2 : forall s, hunkHeaderAt (String "@" (String " " s)) = None) by reflexivity.
  rewrite hunkHeaderMatch_cons, Hat2.
  rewrite !hunkHeaderMatch_skip by reflexivity.
  rewrite hunkHeaderMatch_digits by now apply isNumber_allDigits.
  rewrite !hunkHeaderMatch_skip by reflexivity.
  rewrite hunkHeaderMatch_digits by now apply isNumber_allDigits.
  rewrite hunkHeaderMatch_skip by reflexivity.
  reflexivity.
Qed.

(** ** The walk over the lines of a segment *)

Lemma classify_position (st : WalkState) (line : string) :
  currentPosition (classify st line) = currentPosition st.
Proof.
  unfold classify.
  repeat match goal with
         | |- context [if ?b then _ else _] => destruct b
         | |- context [match ?o with Some _ => _ | None => _ end] => destruct o
         | |- context [let '(_, _) := ?p in _] => destruct p
         end; reflexivity.
Qed.

Lemma step_position (st : WalkState) (line : string) :
  currentPosition (step st line) = S (currentPosition st).
Proof. unfold step. simpl. now rewrite classify_position. Qed.

Lemma walkFrom_cons (st : WalkState) (line : string) (lines : list string) :
  walkFrom st (line :: lines) = walkFrom (step st line) lines.
Proof. reflexivity. Qed.

Lemma walkFrom_app (st : WalkState) (l1 l2 : list string) :
  walkFrom st (l1 ++ l2) = walkFrom (walkFrom st l1) l2.
Proof. apply fold_left_app. Qed.

Lemma walkFrom_position (st : WalkState) (lines : list string) :
  currentPosition (walkFrom st lines) = (currentPosition st + length lines)%nat.
Proof.
  revert st. induction lines as [|line lines IH]; intros st.
  - simpl. lia.
  - rewrite walkFrom_cons, IH, step_position. simpl. lia.
Qed.

Lemma walk_position (lines : list string) :
  currentPosition (walk lines) = length lines.
Proof. unfold walk. now rewrite walkFrom_position. Qed.

(** A removed line: [leftLine] alone moves, and nothing is recorded. *)
Lemma step_removed (st : WalkState) (line : string) :
  startsWith line "@@" = false -> startsWith line "-" = true ->
  step st line
  = {| lineMap := lineMap st; currentPosition := S (currentPosition st);
       leftLine := leftLine st + 1; rightLine := rightLine st |}.
Proof. intros H1 H2. unfold step, classify. now rewrite H1, H2. Qed.

(** An added line: [rightLine] alone moves, and its new value is recorded. *)
Lemma step_added (st : WalkState) (line : string) :
  startsWith line "+" = true ->
  step st line
  = {| lineMap := <[rightLine st + 1 := currentPosition st]> (lineMap st);
       currentPosition := S (currentPosition st);
       leftLine := leftLine st; rightLine := rightLine st + 1 |}.
Proof.
  intros H. unfold step, classify.
  destruct line as [|c line]; [discriminate|].
  cbn [startsWith] in H. revert H.
  destruct (Ascii.eqb_spec "+" c) as [<-|]; [|discriminate].
  reflexivity.
Qed.

(** Any other line that is not one of the four file headers: both
    counters move, and the new [rightLine] is recorded. *)
Lemma step_context (st : WalkState) (line : string) :
  startsWith line "@@" = false -> startsWith line "-" = false ->
  startsWith line "+" = false ->
  startsWith line "diff" = false -> startsWith line "index" = false ->
  step st line
  = {| lineMap := <[rightLine st + 1 := currentPosition st]> (lineMap st);
       currentPosition := S (currentPosition st);
       leftLine := leftLine st + 1; rightLine := rightLine st + 1 |}.
Proof.
  intros H1 H2 H3 H4 H5. unfold step, classify. rewrite H1, H2, H3, H4, H5.
  assert (H6 : startsWith line "---" = false).
  { destruct line as [|c line]; [reflexivity|]. cbn [startsWith] in *.
    destruct (Ascii.eqb "-" c); [discriminate|reflexivity]. }
  assert (H7 : startsWith line "+++" = false).
  { destruct line as [|c line]; [reflexivity|]. cbn [startsWith] in *.
    destruct (Ascii.eqb "+" c); [discriminate|reflexivity]. }
  now rewrite H6, H7.
Qed.

(** A [diff] or [index] line: only the position moves. *)
Lemma step_diff_or_index (st : WalkState) (line : string) :
  startsWith line "diff" = true \/ startsWith line "index" = true ->
  step st line
  = {| lineMap := lineMap st; currentPosition := S (currentPosition st);
       leftLine := leftLine st; rightLine := rightLine st |}.
Proof.
  intros H. unfold step, classify.
  destruct H as [H|H];
    rewrite (startsWith_other_first _ _ "@" _ "@" H) by discriminate;
    rewrite (startsWith_other_first _ _ "-" _ "" H) by discriminate;
    rewrite (startsWith_other_first _ _ "+" _ "" H) by discriminate;
    rewrite H; [|rewrite andb_false_r]; reflexivity.
Qed.

(** A hunk header with both lengths resets the two counters. *)
Lemma step_hunk_header (st : WalkState) (a b c d rest : string) :
  isNumber a = true -> isNumber b = true ->
  isNumber c = true -> isNumber d = true ->
  step st ("@@ -" +:+ a +:+ "," +:+ b +:+ " +" +:+ c +:+ "," +:+ d
           +:+ " @@" +:+ rest)
  = {| lineMap := lineMap st; currentPosition := S (currentPosition st);
       leftLine := parseInt a - 1; rightLine := parseInt c - 1 |}.
Proof.
  intros Ha Hb Hc Hd. unfold step, classify.
  rewrite (hunkHeaderMatch_here _ _ (hunkHeaderAt_full a b c d rest Ha Hb Hc Hd)).
  reflexivity.
Qed.

(** C3: a hunk header [@@ -a,b +c,d @@] sets [leftLine] to a-1 and
    [rightLine] to c-1; the position counter is 0 before the first line of
    the segment and every line, the hunk header too, adds exactly one to
    it, so that the line at index i of the segment is read at position i. *)
Theorem hunk_header_resets_counters_and_every_line_counts
    (st : WalkState) (a b c d : N) (rest : string)
    (before : list string) (line : string) :
  step st (hunkHeader a b c d rest)
  = {| lineMap := lineMap st; currentPosition := S (currentPosition st);
       leftLine := Z.of_N a - 1; rightLine := Z.of_N c - 1 |}
  /\ currentPosition (walk []) = 0%nat
  /\ currentPosition (step st line) = S (currentPosition st)
  /\ currentPosition (walk before) = length before.
Proof.
  destruct (parseInt_pretty a) as [Ha Va]. destruct (parseInt_pretty b) as [Hb _].
  destruct (parseInt_pretty c) as [Hc Vc]. destruct (parseInt_pretty d) as [Hd _].
  split.
  - unfold hunkHeader. rewrite (step_hunk_header st _ _ _ _ rest Ha Hb Hc Hd).
    now rewrite Va, Vc.
  - split; [reflexivity|]. split; [apply step_position|apply walk_position].
Qed.

(** ** The file headers of a segment *)

(** C1 (the code departs from the claim): the walk tests [-] and [+]
    before it tests the four file headers, so a [---] line goes the way of
    a removed line and moves [leftLine], and a [+++] line goes the way of
    an added line, moves [rightLine] and is recorded in the map; after the
    four header lines of a usual segment the counters stand at 1 and the
    map holds line 1 at the position of the [+++] line. *)
Theorem file_header_markers_move_the_counters (st : WalkState) (rest : string) :
  step st ("---" +:+ rest)
  = {| lineMap := lineMap st; currentPosition := S (currentPosition st);
       leftLine := leftLine st + 1; rightLine := rightLine st |}
  /\ step st ("+++" +:+ rest)
     = {| lineMap := <[rightLine st + 1 := currentPosition st]> (lineMap st);
          currentPosition := S (currentPosition st);
          leftLine := leftLine st; rightLine := rightLine st + 1 |}
  /\ walk ["diff --git a/f.js b/f.js"; "index 83db48f..bf2a1c4 100644";
           "--- a/f.js"; "+++ b/f.js"]
     = {| lineMap := {[ 1 := 3%nat ]}; currentPosition := 4;
          leftLine := 1; rightLine := 1 |}.
Proof.
  split; [|split].
  - now apply step_removed.
  - now apply step_added.
  - vm_compute. reflexivity.
Qed.

(** A removed line is never recorded: the map is the one before it. *)
Lemma removed_line_is_not_recorded (st : WalkState) (line : string) :
  startsWith line "@@" = false -> startsWith line "-" = true ->
  lineMap (step st line) = lineMap st.
Proof. intros H1 H2. now rewrite step_removed. Qed.

(** C2 (the code departs from the claim): on the diff of a file whose only
    hunk starts at line 10, the map also holds line 1, recorded at the
    [+++] header, and line 13, recorded at the empty piece that follows the
    last line feed; the context and added lines of the segment are lines
    10, 11 and 12. *)
Theorem keys_outside_the_hunk_are_recorded
    (host : string -> string -> outcome (option nat)) :
  let diff :=
    "diff --git a/f.js b/f.js" +:+ nl +:+ "index 83db48f..bf2a1c4 100644" +:+ nl
    +:+ "--- a/f.js" +:+ nl +:+ "+++ b/f.js" +:+ nl
    +:+ "@@ -10,2 +10,3 @@ function f() {" +:+ nl
    +:+ " a();" +:+ nl +:+ "+b();" +:+ nl +:+ " c();" +:+ nl in
  positionsOfDiff host diff "f.js"
  = Ret (<[1 := 3%nat]> (<[10 := 5%nat]> (<[11 := 6%nat]> (<[12 := 7%nat]>
           (<[13 := 8%nat]> ∅)))))
  /\ newFileLines (split newline (fileDiff diff 0)) = {[ 10; 11; 12 ]}
  /\ (1 ∉ newFileLines (split newline (fileDiff diff 0)))
  /\ (13 ∉ newFileLines (split newline (fileDiff diff 0))).
Proof.
  intros diff.
  assert (Hkeys : newFileLines (split newline (fileDiff diff 0)) = {[ 10; 11; 12 ]})
    by (vm_compute; reflexivity).
  split; [vm_compute; reflexivity|]. split; [exact Hkeys|].
  rewrite Hkeys, !elem_of_union, !elem_of_singleton.
  split; intros [[?|?]|?]; discriminate.
Qed.

(** ** A single hunk *)

(** The hunk of the claim, walked from any state. *)
Lemma walkFrom_single_hunk (st : WalkState) (r c1 c2 a : string) :
  walkFrom st ["@@ -1,3 +1,4 @@"; "-" +:+ r; " " +:+ c1; " " +:+ c2; "+" +:+ a]
  = {| lineMap := <[3 := (currentPosition st + 4)%nat]>
                    (<[2 := (currentPosition st + 3)%nat]>
                       (<[1 := (currentPosition st + 2)%nat]> (lineMap st)));
       currentPosition := (currentPosition st + 5)%nat;
       leftLine := 3; rightLine := 3 |}.
Proof.
  assert (Hheader : forall s, step s "@@ -1,3 +1,4 @@"
                    = {| lineMap := lineMap s; currentPosition := S (currentPosition s);
                         leftLine := 0; rightLine := 0 |})
    by (intros s; exact (step_hunk_header s "1" "3" "1" "4" ""
                           eq_refl eq_refl eq_refl eq_refl)).
  rewrite walkFrom_cons, Hheader.
  rewrite walkFrom_cons, step_removed; [|reflexivity..].
  rewrite walkFrom_cons, step_context; [|reflexivity..].
  rewrite walkFrom_cons, step_context; [|reflexivity..].
  rewrite walkFrom_cons, step_added; [|reflexivity..].
  cbn [walkFrom fold_left lineMap currentPosition leftLine rightLine].
  replace (currentPosition st + 5)%nat with (S (S (S (S (S (currentPosition st)))))) by lia.
  replace (currentPosition st + 4)%nat with (S (S (S (S (currentPosition st))))) by lia.
  replace (currentPosition st + 3)%nat with (S (S (S (currentPosition st)))) by lia.
  replace (currentPosition st + 2)%nat with (S (S (currentPosition st))) by lia.
  reflexivity.
Qed.

(** The hunk of the claim after k leading lines, whatever they are. *)
Lemma walk_single_hunk_after_leading_lines
    (leading : list string) (r c1 c2 a : string) :
  let k := length leading in
  let hunk := ["@@ -1,3 +1,4 @@"; "-" +:+ r; " " +:+ c1; " " +:+ c2; "+" +:+ a] in
  let st := walk (leading ++ hunk) in
  currentPosition (walk leading) = k
  /\ currentPosition st = (k + 5)%nat
  /\ lineMap st !! 1 = Some (k + 2)%nat
  /\ lineMap st !! 2 = Some (k + 3)%nat
  /\ lineMap st !! 3 = Some (k + 4)%nat
  /\ leftLine st = 3 /\ rightLine st = 3.
Proof.
  intros k hunk st. subst st hunk. unfold walk.
  rewrite walkFrom_app, walkFrom_single_hunk. fold (walk leading).
  rewrite (walk_position leading). fold k.
  cbn [lineMap currentPosition leftLine rightLine].
  repeat split.
  - rewrite lookup_insert_ne by discriminate.
    rewrite lookup_insert_ne by discriminate.
    now rewrite lookup_insert_eq.
  - rewrite lookup_insert_ne by discriminate.
    now rewrite lookup_insert_eq.
  - now rewrite lookup_insert_eq.
Qed.

(** *** The segment of a file starts with its [diff --git] line *)

Lemma searchLineStart_found (f : string -> bool) (s : string) :
  forall (b : bool) (i0 i : nat),
    searchLineStart f b s i0 = Some i ->
    (i0 <= i)%nat /\ f (dropStr (i - i0) s) = true.
Proof.
  induction s as [|c s IH]; intros b i0 i; cbn [searchLineStart].
  - destruct (b && f "") eqn:E; [|discriminate].
    intros [= <-]. apply andb_true_iff in E as [_ E].
    rewrite Nat.sub_diag. split; [lia|exact E].
  - destruct (b && f (String c s)) eqn:E.
    + intros [= <-]. apply andb_true_iff in E as [_ E].
      rewrite Nat.sub_diag. split; [lia|exact E].
    + intros H. apply IH in H as [Hle Hf]. split; [lia|].
      replace (i - i0)%nat with (S (i - S i0)) by lia. exact Hf.
Qed.

Lemma matchAtoms_literal (p : string) (rest : list atom) :
  forall s, matchAtoms (literal p ++ rest) s = true -> exists s', s = p +:+ s'.
Proof.
  induction p as [|c p IH]; intros s H.
  - exists s. reflexivity.
  - destruct s as [|d s]; [discriminate|].
    change (literal (String c p) ++ rest)%list with (Lit c :: (literal p ++ rest))%list in H.
    cbn [matchAtoms] in H. apply andb_true_iff in H as [Hc H].
    apply Ascii.eqb_eq in Hc as <-.
    destruct (IH s H) as (s' & ->). exists s'. reflexivity.
Qed.

Lemma length_dropStr (n : nat) (s : string) :
  String.length (dropStr n s) = (String.length s - n)%nat.
Proof.
  revert s. induction n as [|n IH]; intros [|c s]; simpl; try reflexivity.
  apply IH.
Qed.

Lemma length_append (a b : string) :
  String.length (a +:+ b) = (String.length a + String.length b)%nat.
Proof. induction a as [|c a IH]; simpl; [reflexivity|]. now rewrite IH. Qed.

Lemma takeStr_prefix (p : string) :
  forall (n : nat) (s : string),
    (String.length p <= n)%nat -> startsWith (takeStr n (p +:+ s)) p = true.
Proof.
  induction p as [|c p IH]; intros n s Hn; [reflexivity|].
  destruct n as [|n]; [simpl in Hn; lia|].
  simpl. rewrite Ascii.eqb_refl. apply IH. simpl in Hn. lia.
Qed.

Lemma dropStr_S (n : nat) (s : string) : dropStr (S n) s = dropStr 1 (dropStr n s).
Proof.
  revert s. induction n as [|n IH]; intros [|c s]; try reflexivity.
  change (dropStr (S (S n)) (String c s)) with (dropStr (S n) s).
  rewrite IH. reflexivity.
Qed.

Lemma fileDiff_starts_with_its_header (diff filePath : string) (pat : list atom) (i : nat) :
  filePattern filePath = Some pat ->
  searchLineStart (matchAtoms pat) true diff 0 = Some i ->
  startsWith (fileDiff diff i) "diff --git a/" = true.
Proof.
  intros Hpat Hfound.
  assert (Hlit : exists rest, pat = (literal "diff --git a/" ++ rest)%list).
  { unfold filePattern in Hpat. destruct (pathAtoms filePath) as [p|]; [|discriminate].
    injection Hpat as <-. eauto. }
  destruct Hlit as (rest & ->).
  apply searchLineStart_found in Hfound as [_ Hm]. rewrite Nat.sub_0_r in Hm.
  apply matchAtoms_literal in Hm as (s' & Hs').
  unfold fileDiff, substringFrom.
  replace (i + 1)%nat with (S i) by lia.
  assert (Hlen : (i + 13 <= String.length diff)%nat).
  { pose proof (length_dropStr i diff) as L. rewrite Hs', length_append in L.
    simpl in L. lia. }
  assert (Hnext : dropStr (S i) diff = "iff --git a/" +:+ s').
  { rewrite dropStr_S, Hs'. reflexivity. }
  rewrite Hnext.
  assert (Hsearch :
            searchLineStart (fun s : string => startsWith s "diff --git") true
              ("iff --git a/" +:+ s') 0
            = searchLineStart (fun s : string => startsWith s "diff --git") false s' 12)
    by reflexivity.
  rewrite Hsearch.
  destruct (searchLineStart (fun s : string => startsWith s "diff --git") false s' 12)
    as [index|] eqn:Hidx.
  - apply searchLineStart_found in Hidx as [Hle _].
    unfold substring. replace (i <=? S i + index)%nat with true
      by (symmetry; apply Nat.leb_le; lia).
    rewrite Hs'. apply takeStr_prefix. simpl. lia.
  - unfold substring. replace (i <=? String.length diff)%nat with true
      by (symmetry; apply Nat.leb_le; lia).
    rewrite Hs'. apply takeStr_prefix. simpl. lia.
Qed.

(** A prefix without a line feed is a prefix of the first line. *)
Lemma split_first_line (p : string) :
  forallb (fun c => negb (Ascii.eqb c newline)) (list_ascii_of_string p) = true ->
  forall s, startsWith s p = true ->
  exists line lines, split newline s = line :: lines /\ startsWith line p = true.
Proof.
  induction p as [|c p IH]; intros Hp s Hs.
  - destruct (split newline s) as [|line lines] eqn:E.
    + destruct s as [|d s]; simpl in E; [discriminate|].
      destruct (Ascii.eqb d newline); [discriminate|].
      destruct (split newline s); discriminate.
    + eauto.
  - destruct s as [|d s]; [discriminate|].
    cbn [startsWith] in Hs. revert Hs.
    destruct (Ascii.eqb_spec c d) as [<-|]; [|discriminate]. intros Hs.
    cbn [list_ascii_of_string forallb] in Hp. apply andb_true_iff in Hp as [Hc Hp].
    destruct (IH Hp s Hs) as (line & lines & E & Hl).
    cbn [split]. apply negb_true_iff in Hc. rewrite Hc, E.
    exists (String c line), lines. split; [reflexivity|].
    cbn [startsWith]. now rewrite Ascii.eqb_refl.
Qed.

(** The first line of the segment is its [diff --git] line: the hunk
    header is never at position 0. *)
Lemma segment_starts_with_its_diff_line
    (host : string -> string -> outcome (option nat))
    (diff filePath : string) (pat : list atom) (i : nat) :
  filePattern filePath = Some pat ->
  fileMatch host diff filePath = Ret (Some i) ->
  exists line lines,
    split newline (fileDiff diff i) = line :: lines
    /\ startsWith line "diff --git a/" = true
    /\ startsWith line "@@" = false.
Proof.
  intros Hpat Hmatch. unfold fileMatch in Hmatch. rewrite Hpat in Hmatch.
  injection Hmatch as Hfound.
  pose proof (fileDiff_starts_with_its_header diff filePath pat i Hpat Hfound) as H.
  destruct (split_first_line "diff --git a/" eq_refl _ H) as (line & lines & E & Hl).
  exists line, lines. split; [exact E|]. split; [exact Hl|].
  apply (startsWith_other_first line "d" "@" _ "@" Hl). discriminate.
Qed.


(** ** A path that is not in the diff *)

(** C5 (the code departs from the claim): the [.] of the path is a
    wildcard of the file pattern.  The diff below has no line for [a.js],
    only one for the file [a_js], and the map returned for [a.js] is the
    map of that other file. *)
Theorem dot_of_the_path_matches_another_file
    (host : string -> string -> outcome (option nat)) :
  let diff :=
    "diff --git a/a_js b/a_js" +:+ nl +:+ "index 83db48f..bf2a1c4 100644" +:+ nl
    +:+ "--- a/a_js" +:+ nl +:+ "+++ b/a_js" +:+ nl
    +:+ "@@ -1,1 +1,2 @@" +:+ nl +:+ " x" +:+ nl +:+ "+y" +:+ nl in
  forallb (fun line => negb (startsWith line "diff --git a/a.js b/a.js"))
    (split newline diff) = true
  /\ fileMatch host diff "a.js" = Ret (Some 0%nat)
  /\ positionsOfDiff host diff "a.js"
     = Ret (<[1 := 5%nat]> (<[2 := 6%nat]> (<[3 := 7%nat]> ∅)))
  /\ positionsOfDiff host diff "a.js" <> Ret ∅.
Proof.
  intros diff.
  split; [vm_compute; reflexivity|]. split; [vm_compute; reflexivity|].
  assert (H : positionsOfDiff host diff "a.js"
              = Ret (<[1 := 5%nat]> (<[2 := 6%nat]> (<[3 := 7%nat]> ∅))))
    by (vm_compute; reflexivity).
  split; [exact H|]. rewrite H. intros E.
  apply (f_equal (fun o : outcome (gmap Z nat) =>
                    match o with Ret m => m !! 1 | Throw _ => None end)) in E.
  vm_compute in E. discriminate.
Qed.

(** ** The visitors of the scanner *)

(** A class method or an object method that carries a documentation
    comment is not emitted. *)
Lemma documented_method_is_skipped (fileContent : string) (node : Ast.node) :
  SyntaxScanner.someJSDoc (Ast.leadingComments node) = true ->
  SyntaxScanner.ClassMethod fileContent node = []
  /\ SyntaxScanner.ObjectMethod fileContent node = [].
Proof.
  intros H. unfold SyntaxScanner.ClassMethod, SyntaxScanner.ObjectMethod.
  rewrite H. split.
  - now destruct (SyntaxScanner.truthyName (Ast.key node)).
  - destruct (SyntaxScanner.truthyName (Ast.key node)); [reflexivity|].
    now destruct (SyntaxScanner.stringLiteralValue (Ast.key node)).
Qed.

(** The visitor of function declarations reads the comments of the parent
    and not those of the declaration. *)
Lemma function_declaration_reads_parent_comments
    (fileContent nm : string) (node parent : Ast.node) :
  SyntaxScanner.truthyName (Ast.id node) = Some nm ->
  SyntaxScanner.FunctionDeclaration fileContent node (Some parent)
  = if SyntaxScanner.someJSDoc (Ast.leadingComments parent) then []
    else [SyntaxScanner.unitOf fileContent node nm "function"].
Proof.
  intros H. unfold SyntaxScanner.FunctionDeclaration. rewrite H.
  now destruct (SyntaxScanner.someJSDoc (Ast.leadingComments parent)).
Qed.

(** The visitor of declarators emits every named function, whatever
    comments the tree carries. *)
Lemma variable_declarator_reads_no_comments
    (fileContent nm : string) (node : Ast.node) (parent : option Ast.node) :
  SyntaxScanner.truthyName (Ast.id node) = Some nm ->
  SyntaxScanner.isFunctionInit (Ast.init node) = true ->
  SyntaxScanner.VariableDeclarator fileContent node parent
  = [SyntaxScanner.unitOf fileContent node nm "function"].
Proof.
  intros H1 H2. unfold SyntaxScanner.VariableDeclarator. rewrite H1, H2.
  now destruct parent.
Qed.

(** C6 (the code departs from the claim): a function declaration and an
    arrow function bound to a name, each right after a documentation
    comment, are both emitted; a class method and an object method in the
    same position are not. *)
Theorem documented_functions_are_emitted :
  SyntaxScanner.traverse Fixtures.documentedFunction Fixtures.documentedFunctionAst
  = [ {| SyntaxScanner.name := "f"; SyntaxScanner.startIndex := 11;
         SyntaxScanner.content := "function f() {}";
         SyntaxScanner.type := "function"; SyntaxScanner.startLine := 2;
         SyntaxScanner.lineContent := "function f() {}" |} ]
  /\ SyntaxScanner.traverse Fixtures.documentedArrow Fixtures.documentedArrowAst
     = [ {| SyntaxScanner.name := "g"; SyntaxScanner.startIndex := 17;
            SyntaxScanner.content := "g = () => 1";
            SyntaxScanner.type := "function"; SyntaxScanner.startLine := 2;
            SyntaxScanner.lineContent := "const g = () => 1;" |} ]
  /\ SyntaxScanner.traverse "" Fixtures.documentedClassMethod = []
  /\ SyntaxScanner.traverse "" Fixtures.documentedObjectMethod = [].
Proof. repeat split; vm_compute; reflexivity. Qed.

(** ** The run *)

Import Orchestrator Published Effects.
#[local] Open Scope run_scope.

Lemma bind_ret {A B : Type} (m : M A) (k : A -> M B) (w w' : World) (a : A) :
  m w = (Ret a, w') -> bind m k w = k a w'.
Proof. intros E. unfold bind. now rewrite E. Qed.

Lemma tryCatch_ret {A : Type} (body : M A) (handler : string -> M A)
    (w w' : World) (a : A) :
  body w = (Ret a, w') -> tryCatch body handler w = (Ret a, w').
Proof. intros E. unfold tryCatch. now rewrite E. Qed.

Lemma emit_logged (e : LogEntry) (w : World) : emit e w = (Ret tt, logged w e).
Proof. reflexivity. Qed.

Lemma grows_refl (w : World) : grows w w 0.
Proof. unfold grows. repeat split; lia. Qed.

Lemma grows_trans (w1 w2 w3 : World) (n m : nat) :
  grows w1 w2 n -> grows w2 w3 m -> grows w1 w3 (n + m).
Proof.
  unfold grows. intros (a1 & a2 & a3 & a4 & a5 & a6 & a7)
                       (b1 & b2 & b3 & b4 & b5 & b6 & b7).
  repeat split; try congruence. lia.
Qed.

Lemma grows_logged (w : World) (e : LogEntry) : grows w (logged w e) 0.
Proof. unfold grows, logged. simpl. repeat split; lia. Qed.

Lemma grows_tick (w : World) : grows w (tick w) 0.
Proof. unfold grows, tick. simpl. repeat split; lia. Qed.

(** A goal [grows w w' 0] where [w'] is [w] after ticks and console entries. *)
Ltac quiet := unfold grows, logged, tick; simpl; repeat split; lia.

(** A goal that a computation written out on [w] returns quietly. *)
Ltac returns_quietly :=
  rewrite ?emit_logged; eexists _, _; split; [reflexivity|quiet].

Lemma accounted_refl (w : World) : accounted w w.
Proof.
  unfold accounted. repeat split. exists []. simpl.
  rewrite !app_nil_r. repeat split; lia.
Qed.

Lemma countWhere_app (keep : bool -> bool)
    (l1 l2 : list (list ReviewComment * bool)) :
  countWhere keep (l1 ++ l2) = (countWhere keep l1 + countWhere keep l2)%nat.
Proof.
  induction l1 as [|[cs ok] l1 IH]; simpl; [reflexivity|]. rewrite IH. lia.
Qed.

Lemma accounted_trans (w1 w2 w3 : World) :
  accounted w1 w2 -> accounted w2 w3 -> accounted w1 w3.
Proof.
  unfold accounted.
  intros (a1 & a2 & a3 & a4 & s1 & a5 & a6 & a7)
         (b1 & b2 & b3 & b4 & s2 & b5 & b6 & b7).
  repeat split; try congruence.
  exists (s1 ++ s2)%list. repeat split.
  - rewrite b5, a5. now rewrite <- app_assoc.
  - rewrite b6, a6, countWhere_app. lia.
  - rewrite b7, a7, map_app. now rewrite <- app_assoc.
Qed.

Lemma grows_0_accounted (w w' : World) : grows w w' 0 -> accounted w w'.
Proof.
  unfold grows, accounted. intros (a1 & a2 & a3 & a4 & a5 & a6 & a7).
  repeat split; try assumption. exists []. simpl.
  rewrite !app_nil_r, a3. repeat split; [assumption|lia].
Qed.

Section RunFacts.
Variable h : Host.

(** The scan of a file always returns, and only writes on the console. *)
Lemma detectFunctions_returns (file : string) (w : World) :
  exists functions w',
    detectFunctions h file w = (Ret functions, w') /\ grows w w' 0.
Proof.
  unfold detectFunctions, tryCatch, bind, call, pure, ret.
  destruct (readFileSync h (clock w) file) as [content|message].
  - destruct (parse h content) as [ast|message].
    + destruct (traverseThrows h ast) as [message|].
      * returns_quietly.
      * returns_quietly.
    + returns_quietly.
  - returns_quietly.
Qed.

Lemma generateJSDocComment_returns (name content file : string) (w : World) :
  exists comment w',
    generateJSDocComment h name content file w = (Ret comment, w')
    /\ grows w w' 0.
Proof.
  unfold generateJSDocComment, tryCatch, bind, call, ret.
  destruct (chatCompletion h (clock w) name content file) as [text|error].
  - returns_quietly.
  - returns_quietly.
Qed.

Lemma getDiffPositions_returns (file : string) (w : World) :
  exists positions w',
    getDiffPositions h file w = (Ret positions, w') /\ grows w w' 0.
Proof.
  unfold getDiffPositions, tryCatch, bind, call, pure, ret.
  destruct (pullsGet h (clock w)) as [diff|error].
  - destruct (fileMatch (regExp h) diff file) as [[index|]|error].
    + returns_quietly.
    + returns_quietly.
    + returns_quietly.
  - returns_quietly.
Qed.

(** The value of [getDiffPositions] when the diff is fetched and the file
    pattern is accepted: the map of [positionsOfDiff]. *)
Lemma getDiffPositions_value (file diff : string) (positions : gmap Z nat)
    (w : World) :
  pullsGet h (clock w) = Ret diff ->
  positionsOfDiff (regExp h) diff file = Ret positions ->
  exists w', getDiffPositions h file w = (Ret positions, w').
Proof.
  intros Hget Hpos.
  unfold getDiffPositions, tryCatch, bind, call, pure, ret.
  rewrite Hget. unfold positionsOfDiff in Hpos.
  destruct (fileMatch (regExp h) diff file) as [[index|]|error];
    [| |discriminate]; injection Hpos as <-; eauto.
Qed.

(** A request is sent for the suggestions, all of them, and the outcome
    of the request does not reach the caller. *)
Lemma submitPRReview_returns (suggestions : list Suggestion) (w : World) :
  suggestions <> [] ->
  exists accepted w',
    submitPRReview h suggestions w = (Ret tt, w')
    /\ stats w' = stats w
    /\ reviews w' = (reviews w ++ [(map commentOf suggestions, accepted)])%list
    /\ written w' = written w
    /\ exitCode w' = exitCode w.
Proof.
  intros Hne. unfold submitPRReview.
  destruct suggestions as [|s suggestions]; [congruence|].
  cbn [length Nat.eqb]. unfold tryCatch, bind, sendReview.
  destruct (createReview h (clock w) (map commentOf (s :: suggestions)))
    as [[]|error]; rewrite emit_logged;
    eexists _, _; (split; [reflexivity|]); simpl; auto.
Qed.

Lemma countSuggestion_counts (w : World) :
  exists w', countSuggestion w = (Ret tt, w') /\ grows w w' 1.
Proof. eexists. split; [reflexivity|]. unfold grows. simpl. repeat split; lia. Qed.

(** The loop over the functions always returns; it counts one suggestion
    for each suggestion it adds, and sends nothing. *)
Lemma forFunctions_returns (file : string) (positions : gmap Z nat)
    (functions : list SyntaxScanner.CallableUnit) :
  forall (suggestions : list Suggestion) (w : World),
  exists out w' n,
    forFunctions h file positions functions suggestions w = (Ret out, w')
    /\ grows w w' n
    /\ length out = (length suggestions + n)%nat.
Proof.
  induction functions as [|func rest IH]; intros suggestions w.
  - exists suggestions, w, 0%nat. split; [reflexivity|].
    split; [apply grows_refl|lia].
  - cbn [forFunctions].
    erewrite bind_ret by apply emit_logged.
    destruct (generateJSDocComment_returns (SyntaxScanner.name func)
                (SyntaxScanner.content func) file
                (logged w (ConsoleLog
                   ("Generating JSDoc for " +:+ SyntaxScanner.type func +:+ " "
                    +:+ SyntaxScanner.name func))))
      as (jsdoc & w1 & E1 & G1).
    erewrite bind_ret by exact E1.
    assert (G01 : grows w w1 0).
    { apply (grows_trans _ _ _ 0 0 (grows_logged _ _) G1). }
    assert (Hinner : exists out1 w2 k,
               (match jsdoc with
                | Some comment =>
                    if truthy comment then
                      match positions !! Z.of_nat (SyntaxScanner.startLine func) with
                      | Some pos =>
                          countSuggestion ;;
                          ret (suggestions
                               ++ [{| filePath := file; position := pos;
                                      jsdocComment := comment;
                                      lineContent := SyntaxScanner.lineContent func;
                                      functionName := SyntaxScanner.name func |}])%list
                      | None =>
                          emit (ConsoleLog
                                  ("Could not find position for line "
                                   +:+ pretty (SyntaxScanner.startLine func)
                                   +:+ " in " +:+ file)) ;;
                          ret suggestions
                      end
                    else ret suggestions
                | None => ret suggestions
                end) w1 = (Ret out1, w2)
               /\ grows w1 w2 k /\ length out1 = (length suggestions + k)%nat).
    { destruct jsdoc as [comment|].
      - destruct (truthy comment).
        + destruct (positions !! Z.of_nat (SyntaxScanner.startLine func)) as [pos|].
          * destruct (countSuggestion_counts w1) as (w2 & E2 & G2).
            erewrite bind_ret by exact E2.
            eexists _, w2, 1%nat. split; [reflexivity|]. split; [exact G2|].
            rewrite length_app. simpl. lia.
          * erewrite bind_ret by apply emit_logged.
            eexists _, _, 0%nat. split; [reflexivity|].
            split; [apply grows_logged|lia].
        + exists suggestions, w1, 0%nat. split; [reflexivity|].
          split; [apply grows_refl|lia].
      - exists suggestions, w1, 0%nat. split; [reflexivity|].
        split; [apply grows_refl|lia]. }
    destruct Hinner as (out1 & w2 & k & E2 & G2 & L2).
    erewrite bind_ret by exact E2.
    destruct (IH out1 w2) as (out & w3 & n & E3 & G3 & L3).
    exists out, w3, (k + n)%nat. split; [exact E3|]. split.
    + apply (grows_trans _ _ _ 0 (k + n) G01).
      apply (grows_trans _ _ _ k n G2 G3).
    + lia.
Qed.

(** A file always returns, and leaves the books in order. *)
Lemma processFile_returns (file : string) (w : World) :
  exists r w', processFile h file w = (Ret r, w') /\ accounted w w'.
Proof.
  unfold processFile.
  erewrite bind_ret by apply emit_logged.
  set (w0 := logged w (ConsoleLog ("Processing file: " +:+ file))).
  assert (A0 : accounted w w0) by (apply grows_0_accounted, grows_logged).
  destruct (detectFunctions_returns file w0) as (functions & w1 & E1 & G1).
  assert (A1 : accounted w w1).
  { apply (accounted_trans _ _ _ A0), grows_0_accounted, G1. }
  destruct (length functions =? 0)%nat eqn:Hlen.
  - eexists _, _. split.
    + apply tryCatch_ret. erewrite bind_ret by exact E1. rewrite Hlen.
      erewrite bind_ret by apply emit_logged. reflexivity.
    + apply (accounted_trans _ _ _ A1), grows_0_accounted, grows_logged.
  - set (w2 := logged w1 (ConsoleLog ("Found " +:+ pretty (length functions)
                                      +:+ " functions without JSDoc in " +:+ file))).
    destruct (getDiffPositions_returns file w2) as (positions & w3 & E3 & G3).
    destruct (forFunctions_returns file positions functions [] w3)
      as (suggestions & w4 & n & E4 & G4 & L4).
    simpl in L4.
    assert (G14 : grows w1 w4 n).
    { apply (grows_trans w1 w2 w4 0 n); [apply grows_logged|].
      apply (grows_trans _ _ _ 0 n G3 G4). }
    destruct (0 <? length suggestions)%nat eqn:Hpos.
    + assert (Hne : suggestions <> []).
      { intros ->. simpl in Hpos. discriminate. }
      destruct (submitPRReview_returns suggestions w4 Hne)
        as (ok & w5 & E5 & S5 & R5 & W5 & X5).
      eexists _, _. split.
      * apply tryCatch_ret. erewrite bind_ret by exact E1. rewrite Hlen.
        erewrite bind_ret by apply emit_logged. fold w2.
        erewrite bind_ret by exact E3.
        erewrite bind_ret by exact E4. rewrite Hpos.
        erewrite bind_ret.
        2:{ erewrite bind_ret by exact E5. reflexivity. }
        reflexivity.
      * apply (accounted_trans _ _ _ A1).
        destruct G14 as (g1 & g2 & g3 & g4 & g5 & g6 & g7).
        unfold accounted. simpl. rewrite S5, W5, X5, R5, g5.
        repeat split; try assumption.
        exists [(map commentOf suggestions, ok)]. simpl.
        rewrite length_map, g3, g4, map_app. simpl.
        repeat split; try reflexivity. lia.
    + assert (Hn : n = 0%nat).
      { apply Nat.ltb_ge in Hpos. lia. }
      rewrite Hn in G14. eexists _, _. split.
      * apply tryCatch_ret. erewrite bind_ret by exact E1. rewrite Hlen.
        erewrite bind_ret by apply emit_logged. fold w2.
        erewrite bind_ret by exact E3.
        erewrite bind_ret by exact E4. rewrite Hpos.
        reflexivity.
      * apply (accounted_trans _ _ _ A1), grows_0_accounted, G14.
Qed.

(** The loop over the files always returns, and leaves the books in order. *)
Lemma forFiles_returns (files : list string) :
  forall w : World,
  exists w', forFiles h files w = (Ret tt, w') /\ accounted w w'.
Proof.
  induction files as [|file rest IH]; intros w.
  - exists w. split; [reflexivity|apply accounted_refl].
  - cbn [forFiles].
    destruct (truthy (trim file)).
    + destruct (processFile_returns (trim file) w) as (r & w1 & E1 & A1).
      destruct (IH w1) as (w2 & E2 & A2).
      exists w2. split.
      * erewrite bind_ret.
        2:{ erewrite bind_ret by exact E1. reflexivity. }
        exact E2.
      * exact (accounted_trans _ _ _ A1 A2).
    + destruct (IH w) as (w2 & E2 & A2).
      exists w2. split; [|exact A2].
      erewrite bind_ret by reflexivity. exact E2.
Qed.

(** A world that differs from [w'] in the console, the clock, the exit
    code and the number of files only is settled as [w'] is. *)
Lemma settled_of_accounted (w w1 w2 w' : World) :
  totalFunctions (stats w1) = totalFunctions (stats w) ->
  totalSuggestions (stats w1) = totalSuggestions (stats w) ->
  suggestedFiles (stats w1) = suggestedFiles (stats w) ->
  reviews w1 = reviews w -> written w1 = written w ->
  accounted w1 w2 ->
  totalFunctions (stats w') = totalFunctions (stats w2) ->
  totalSuggestions (stats w') = totalSuggestions (stats w2) ->
  suggestedFiles (stats w') = suggestedFiles (stats w2) ->
  reviews w' = reviews w2 ->
  (written w' = written w2
   \/ written w' = (written w2 ++ [("jsdoc-summary.md", summaryOf (stats w'))])%list) ->
  settled w w'.
Proof.
  intros a1 a2 a3 a4 a5 (b1 & b2 & b3 & b4 & sent & b5 & b6 & b7) c1 c2 c3 c4 c5.
  unfold settled. split; [congruence|]. split.
  - exists sent. rewrite c4, b5, a4, c2, b6, a2, c3, b7, a3. auto.
  - destruct c5 as [c5|c5]; rewrite c5, b3, a5; auto.
Qed.

(** The list of files: read from the environment or asked of the file
    system, which may fail. *)
Lemma changedFiles_cases (w : World) :
  let m := match envFiles h with
           | Some files =>
               if truthy files then ret (split " " files) else call (globSync h)
           | None => call (globSync h)
           end in
  exists w1, grows w w1 0
    /\ ((exists files, m w = (Ret files, w1)) \/ (exists e, m w = (Throw e, w1))).
Proof.
  intros m. subst m.
  assert (Hcall : exists w1, grows w w1 0
            /\ ((exists files, call (globSync h) w = (Ret files, w1))
                \/ (exists e, call (globSync h) w = (Throw e, w1)))).
  { unfold call. exists (tick w). split; [quiet|].
    destruct (globSync h (clock w)); eauto. }
  destruct (envFiles h) as [files|]; [|exact Hcall].
  destruct (truthy files); [|exact Hcall].
  exists w. split; [apply grows_refl|]. left. eexists. reflexivity.
Qed.

(** The run always returns, and leaves the books settled. *)
Lemma main_returns (w : World) :
  exists w', main h w = (Ret tt, w') /\ settled w w'.
Proof.
  unfold main, tryCatch.
  destruct (changedFiles_cases w) as (w1 & G1 & [[files E1]|[e E1]]).
  - erewrite bind_ret by exact E1.
    destruct G1 as (g1 & g2 & g3 & g4 & g5 & g6 & g7).
    rewrite Nat.add_0_r in g4.
    destruct (length files =? 0)%nat.
    + rewrite emit_logged. eexists. split; [reflexivity|].
      apply (settled_of_accounted w w1 w1); simpl; auto using accounted_refl.
    + unfold setTotalFiles at 1.
      erewrite bind_ret.
      2:{ erewrite bind_ret by reflexivity. reflexivity. }
      erewrite bind_ret by apply emit_logged.
      match goal with
      | |- context [bind (forFiles h files) _ ?w2] =>
          destruct (forFiles_returns files w2) as (w3 & E3 & A3)
      end.
      erewrite bind_ret by exact E3.
      erewrite bind_ret by reflexivity.
      unfold bind, writeFile.
      destruct (writeFileSync h (clock w3) "jsdoc-summary.md" (summaryOf (stats w3)))
        as [[]|e].
      * rewrite emit_logged. eexists. split; [reflexivity|].
        eapply (settled_of_accounted w _ w3); [..|exact A3| | | | |];
          simpl; auto.
      * unfold exit. rewrite emit_logged. eexists. split; [reflexivity|].
        eapply (settled_of_accounted w _ w3); [..|exact A3| | | | |];
          simpl; auto.
  - unfold bind at 1. rewrite E1.
    unfold bind, exit. rewrite emit_logged. eexists. split; [reflexivity|].
    destruct G1 as (g1 & g2 & g3 & g4 & g5 & g6 & g7).
    rewrite Nat.add_0_r in g4.
    apply (settled_of_accounted w w1 w1); simpl; auto using accounted_refl.
Qed.

End RunFacts.

(** ** The summary *)

Lemma summaryOf_functions_line (s : Stats) :
  hasLine (summaryOf s) ("- Total functions analyzed: " +:+ pretty (totalFunctions s)).
Proof.
  exists (nl +:+ "## Summary of JSDoc Suggestions" +:+ nl +:+ nl
          +:+ "📊 **Statistics**:" +:+ nl
          +:+ "- Total files processed: " +:+ pretty (totalFiles s) +:+ nl).
  eexists. unfold summaryOf. rewrite !append_assoc. reflexivity.
Qed.

Lemma summaryOf_suggestions_line (s : Stats) :
  hasLine (summaryOf s) ("- Total JSDoc suggestions: " +:+ pretty (totalSuggestions s)).
Proof.
  exists (nl +:+ "## Summary of JSDoc Suggestions" +:+ nl +:+ nl
          +:+ "📊 **Statistics**:" +:+ nl
          +:+ "- Total files processed: " +:+ pretty (totalFiles s) +:+ nl
          +:+ "- Total functions analyzed: " +:+ pretty (totalFunctions s) +:+ nl).
  eexists. unfold summaryOf. rewrite !append_assoc. reflexivity.
Qed.

Lemma countWhere_split (requests : list (list ReviewComment * bool)) :
  countWhere (fun _ => true) requests
  = (countWhere (fun ok => ok) requests + countWhere negb requests)%nat.
Proof.
  induction requests as [|[cs ok] requests IH]; simpl; [reflexivity|].
  rewrite IH. destruct ok; simpl; lia.
Qed.

(** A run that starts with empty books ends with balanced books. *)
Lemma settled_balanced (w : World) :
  settled initialWorld w ->
  balanced w
  /\ totalFunctions (stats w) = 0%nat
  /\ (written w = [] \/ written w = [("jsdoc-summary.md", summaryOf (stats w))]).
Proof.
  intros (Hf & (sent & Hr & Ht & Hs) & Hw). simpl in *.
  unfold balanced, attempted, reportedCounts, requestSizes.
  rewrite Hr, Ht, Hs. auto.
Qed.

(** C7 (as stated): when the review API refuses the request of a file, no
    suggestion is published, and the summary still counts the suggestion
    of that file, in the total and in the table. *)
Lemma refused_request_is_still_counted :
  let w := snd (main (Fixtures.mathHost false) initialWorld) in
  published w = 0%nat
  /\ stats w = {| totalFiles := 1; totalFunctions := 0; totalSuggestions := 1;
                  suggestedFiles := [("math.js", 1%nat)] |}
  /\ written w = [("jsdoc-summary.md", summaryOf (stats w))]
  /\ hasLine (summaryOf (stats w)) "- Total JSDoc suggestions: 1"
  /\ totalSuggestions (stats w) <> published w.
Proof.
  intros w.
  assert (Hs : stats w = {| totalFiles := 1; totalFunctions := 0; totalSuggestions := 1;
                            suggestedFiles := [("math.js", 1%nat)] |})
    by (vm_compute; reflexivity).
  assert (Hp : published w = 0%nat) by (vm_compute; reflexivity).
  split; [exact Hp|]. split; [exact Hs|]. split; [vm_compute; reflexivity|].
  split.
  - rewrite Hs. apply (summaryOf_suggestions_line
                         {| totalFiles := 1; totalFunctions := 0; totalSuggestions := 1;
                            suggestedFiles := [("math.js", 1%nat)] |}).
  - rewrite Hs, Hp. simpl. discriminate.
Qed.

(** C7 (as amended): the counts of the summary are those of the
    suggestions handed to the review API, whether the API accepted them or
    not: the total is the number of comments of all the requests sent, that
    is the published ones plus the refused ones, the table has one count
    for each request, the size of that request, and the summary that is
    written is the summary of these statistics. *)
Theorem summary_counts_the_suggestions_sent (h : Host) :
  let w := snd (main h initialWorld) in
  totalSuggestions (stats w) = attempted w
  /\ attempted w = (published w + refused w)%nat
  /\ reportedCounts w = requestSizes w
  /\ (written w = [] \/ written w = [("jsdoc-summary.md", summaryOf (stats w))]).
Proof.
  intros w. subst w.
  destruct (main_returns h initialWorld) as (w & E & S). rewrite E. simpl.
  destruct (settled_balanced w S) as ((B1 & B2) & _ & W).
  split; [exact B1|]. split; [apply countWhere_split|]. split; assumption.
Qed.

(** C8: when the text of a file does not parse, the scan returns the empty
    sequence after it has written the cause on the console; the file is
    done with no statistics changed, nothing thrown, and the loop goes on
    with the files that remain. *)
Theorem parse_failure_is_isolated
    (h : Host) (raw content message : string) (rest : list string) (w : World) :
  truthy (trim raw) = true ->
  readFileSync h (clock w) (trim raw) = Ret content ->
  parse h content = Throw message ->
  let file := trim raw in
  let cause :=
    ConsoleError ("Error detecting functions in " +:+ file +:+ ": " +:+ message) in
  let after :=
    logged (logged (tick (logged w (ConsoleLog ("Processing file: " +:+ file)))) cause)
           (ConsoleLog ("No functions without JSDoc found in " +:+ file)) in
  detectFunctions h file w = (Ret [], logged (tick w) cause)
  /\ processFile h file w = (Ret None, after)
  /\ stats after = stats w
  /\ forFiles h (raw :: rest) w = forFiles h rest after
  /\ exists w', forFiles h (raw :: rest) w = (Ret tt, w').
Proof.
  intros Htruthy Hread Hparse file cause after.
  assert (Hdetect : forall w0, clock w0 = clock w ->
            detectFunctions h file w0 = (Ret [], logged (tick w0) cause)).
  { intros w0 Hclock. unfold detectFunctions, tryCatch, bind, call, pure.
    fold file in Hread. rewrite Hclock, Hread, Hparse. reflexivity. }
  assert (Hfile : processFile h file w = (Ret None, after)).
  { unfold processFile. erewrite bind_ret by apply emit_logged.
    apply tryCatch_ret. erewrite bind_ret by (apply Hdetect; reflexivity).
    cbn [length Nat.eqb]. erewrite bind_ret by apply emit_logged. reflexivity. }
  assert (Hloop : forFiles h (raw :: rest) w = forFiles h rest after).
  { cbn [forFiles]. rewrite Htruthy. fold file.
    erewrite bind_ret.
    2:{ erewrite bind_ret by exact Hfile. reflexivity. }
    reflexivity. }
  split; [now apply Hdetect|]. split; [exact Hfile|]. split; [reflexivity|].
  split; [exact Hloop|].
  rewrite Hloop. destruct (forFiles_returns h rest after) as (w' & E & _). eauto.
Qed.

Lemma parse_failure_is_isolated_witness :
  let cause :=
    ConsoleError "Error detecting functions in bad.js: Unexpected token (1:9)" in
  let after :=
    logged (logged (tick (logged initialWorld (ConsoleLog "Processing file: bad.js")))
                   cause)
           (ConsoleLog "No functions without JSDoc found in bad.js") in
  detectFunctions Fixtures.brokenHost "bad.js" initialWorld
  = (Ret [], logged (tick initialWorld) cause)
  /\ processFile Fixtures.brokenHost "bad.js" initialWorld = (Ret None, after)
  /\ stats after = stats initialWorld
  /\ forFiles Fixtures.brokenHost [" bad.js "; "math.js"] initialWorld
     = forFiles Fixtures.brokenHost ["math.js"] after
  /\ exists w', forFiles Fixtures.brokenHost [" bad.js "; "math.js"] initialWorld
                = (Ret tt, w').
Proof.
  exact (parse_failure_is_isolated Fixtures.brokenHost " bad.js " "function ("
           "Unexpected token (1:9)" ["math.js"] initialWorld
           eq_refl eq_refl eq_refl).
Defined.

(** C9: no operation of a run changes [totalFunctions]: a file leaves it
    as it was, and so does the whole run; a run that starts with the
    statistics at zero writes [Total functions analyzed: 0] in its summary,
    and it does so on a run that found a function and published a
    suggestion for it. *)
Theorem total_functions_is_never_incremented (h : Host) (file : string) (w : World) :
  totalFunctions (stats (snd (processFile h file w))) = totalFunctions (stats w)
  /\ totalFunctions (stats (snd (main h w))) = totalFunctions (stats w)
  /\ (written (snd (main h initialWorld)) = []
      \/ exists text,
           written (snd (main h initialWorld)) = [("jsdoc-summary.md", text)]
           /\ hasLine text "- Total functions analyzed: 0")
  /\ (let w1 := snd (main (Fixtures.mathHost true) initialWorld) in
      totalSuggestions (stats w1) = 1%nat
      /\ published w1 = 1%nat
      /\ totalFunctions (stats w1) = 0%nat
      /\ exists text,
           written w1 = [("jsdoc-summary.md", text)]
           /\ hasLine text "- Total functions analyzed: 0").
Proof.
  split; [|split; [|split]].
  - destruct (processFile_returns h file w) as (r & w' & E & A). rewrite E.
    now destruct A as (_ & A & _).
  - destruct (main_returns h w) as (w' & E & S). rewrite E.
    now destruct S as (S & _).
  - destruct (main_returns h initialWorld) as (w' & E & S). rewrite E. simpl.
    destruct (settled_balanced w' S) as (_ & F & [W|W]); [now left|right].
    exists (summaryOf (stats w')). split; [exact W|].
    pose proof (summaryOf_functions_line (stats w')) as L.
    rewrite F in L. exact L.
  - intros w1.
    split; [vm_compute; reflexivity|]. split; [vm_compute; reflexivity|].
    assert (F : totalFunctions (stats w1) = 0%nat) by (vm_compute; reflexivity).
    split; [exact F|].
    exists (summaryOf (stats w1)). split; [vm_compute; reflexivity|].
    pose proof (summaryOf_functions_line (stats w1)) as L.
    rewrite F in L. exact L.
Qed.

(** * Further facts *)

Import Further.

(** ** The body of a hunk *)

Lemma step_of_recorded (st : WalkState) (line : string) :
  recorded line = true ->
  lineMap (step st line) = <[rightLine st + 1 := currentPosition st]> (lineMap st)
  /\ currentPosition (step st line) = S (currentPosition st)
  /\ rightLine (step st line) = rightLine st + 1.
Proof.
  unfold recorded. intros H.
  apply andb_true_iff in H as [H H3]. apply andb_true_iff in H as [H1 H2].
  apply negb_true_iff in H1, H2.
  destruct (startsWith line "+") eqn:Hplus.
  - now rewrite step_added.
  - simpl in H3. apply andb_true_iff in H3 as [H4 H5].
    apply negb_true_iff in H4, H5. now rewrite step_context.
Qed.

Lemma step_of_removed (st : WalkState) (line : string) :
  removed line = true ->
  lineMap (step st line) = lineMap st
  /\ currentPosition (step st line) = S (currentPosition st)
  /\ rightLine (step st line) = rightLine st.
Proof.
  unfold removed. intros H. apply andb_true_iff in H as [H1 H2].
  apply negb_true_iff in H1. now rewrite step_removed.
Qed.

(** In the body of a hunk the new-file counter never goes back, and a key
    it has passed is not written again. *)
Lemma body_keeps_passed_keys (body : list string) :
  Forall (fun l => bodyLine l = true) body ->
  forall (st : WalkState) (k : Z),
    rightLine st <= rightLine (walkFrom st body)
    /\ (k <= rightLine st -> lineMap (walkFrom st body) !! k = lineMap st !! k).
Proof.
  induction 1 as [|line body Hline _ IH]; intros st k; [split; [cbn; lia|reflexivity]|].
  rewrite walkFrom_cons.
  destruct (IH (step st line) k) as [Hle Hkeep].
  unfold bodyLine in Hline. apply orb_true_iff in Hline as [Hr|Hr].
  - destruct (step_of_removed st line Hr) as (Hm & _ & Hright).
    rewrite Hright in *. split; [exact Hle|]. intros Hk.
    now rewrite Hkeep, Hm.
  - destruct (step_of_recorded st line Hr) as (Hm & _ & Hright).
    rewrite Hright in *. split; [lia|]. intros Hk.
    rewrite Hkeep, Hm by lia. apply lookup_insert_ne. lia.
Qed.

Lemma body_line_numbers (body : list string) :
  Forall (fun l => bodyLine l = true) body ->
  forall (st : WalkState) (j : nat) (line : string),
    body !! j = Some line -> recorded line = true ->
    lineMap (walkFrom st body)
      !! (rightLine st + 1 + Z.of_nat (length (List.filter recorded (take j body))))
    = Some (currentPosition st + j)%nat.
Proof.
  induction 1 as [|l body Hl Hbody IH]; intros st j line Hj Hrec; [discriminate|].
  rewrite walkFrom_cons. destruct j as [|j].
  - injection Hj as ->. cbn [take List.filter length].
    destruct (step_of_recorded st line Hrec) as (Hm & _ & Hright).
    destruct (body_keeps_passed_keys body Hbody (step st line)
                (rightLine st + 1)) as [_ Hkeep].
    replace (rightLine st + 1 + Z.of_nat 0) with (rightLine st + 1) by lia.
    rewrite Hkeep, Hm by lia.
    rewrite lookup_insert_eq. f_equal. lia.
  - cbn [lookup] in Hj. change ((l :: body) !! S j) with (body !! j) in Hj.
    specialize (IH (step st l) j line Hj Hrec).
    cbn [take List.filter].
    unfold bodyLine in Hl. destruct (recorded l) eqn:Hr.
    + destruct (step_of_recorded st l Hr) as (_ & Hpos & Hright).
      rewrite Hpos, Hright in IH.
      match goal with
      | |- lineMap _ !! ?k = _ =>
          replace k with (rightLine st + 1 + 1
                          + Z.of_nat (length (List.filter recorded (take j body))))
            by (cbn [length]; lia)
      end.
      rewrite IH. f_equal. lia.
    + rewrite orb_false_r in Hl.
      destruct (step_of_removed st l Hl) as (_ & Hpos & Hright).
      rewrite Hpos, Hright in IH. rewrite IH. f_equal. lia.
Qed.

(** C10: a hunk header [@@ -a +c @@], without the two lengths, is not
    matched by the header pattern: the line takes its position and the two
    counters keep the values they had.  The lines of the hunk that follow
    are numbered from the stale counter: the line of index j in the body,
    when it is one the loop records, is stored under the stale new-file
    counter plus one plus the number of recorded lines before it, at the
    position of the header plus one plus j.  When a text stands after the
    closing [@@], the pattern finds in the line what it finds from that
    [@@] on, and nothing in the header itself. *)
Theorem bare_hunk_header_keeps_stale_counters (st : WalkState) (a c : N) :
  hunkHeaderMatch (bareHunkHeader a c "") = None
  /\ step st (bareHunkHeader a c "")
     = {| lineMap := lineMap st; currentPosition := S (currentPosition st);
          leftLine := leftLine st; rightLine := rightLine st |}
  /\ (forall (body : list string) (j : nat) (line : string),
        Forall (fun l => bodyLine l = true) body ->
        body !! j = Some line -> recorded line = true ->
        lineMap (walkFrom st (bareHunkHeader a c "" :: body))
          !! (rightLine st + 1
              + Z.of_nat (length (List.filter recorded (take j body))))
        = Some (currentPosition st + 1 + j)%nat)
  /\ (forall rest : string,
        hunkHeaderMatch (bareHunkHeader a c rest) = hunkHeaderMatch ("@@" +:+ rest)).
Proof.
  destruct (parseInt_pretty a) as [Ha _]. destruct (parseInt_pretty c) as [Hc _].
  assert (Hrest : forall rest : string,
             hunkHeaderMatch (bareHunkHeader a c rest)
             = hunkHeaderMatch ("@@" +:+ rest))
    by (intros rest; exact (hunkHeaderMatch_bare_rest _ _ rest Ha Hc)).
  assert (Hnone : hunkHeaderMatch (bareHunkHeader a c "") = None)
    by (rewrite Hrest; reflexivity).
  assert (Hstart : startsWith (bareHunkHeader a c "") "@@" = true) by reflexivity.
  assert (Hstep : step st (bareHunkHeader a c "")
                  = {| lineMap := lineMap st; currentPosition := S (currentPosition st);
                       leftLine := leftLine st; rightLine := rightLine st |}).
  { unfold step, classify. rewrite Hstart, Hnone. reflexivity. }
  split; [exact Hnone|]. split; [exact Hstep|]. split; [|exact Hrest].
  intros body j line Hbody Hj Hrec.
  rewrite walkFrom_cons, Hstep.
  pose proof (body_line_numbers body Hbody
                {| lineMap := lineMap st; currentPosition := S (currentPosition st);
                   leftLine := leftLine st; rightLine := rightLine st |}
                j line Hj Hrec) as H.
  cbn [rightLine currentPosition] in H. rewrite H. f_equal. lia.
Qed.

Lemma bare_hunk_header_keeps_stale_counters_witness :
  hunkHeaderMatch "@@ -7 +9 @@" = None
  /\ step {| lineMap := ∅; currentPosition := 5; leftLine := 3; rightLine := 4 |}
          "@@ -7 +9 @@"
     = {| lineMap := ∅; currentPosition := 6; leftLine := 3; rightLine := 4 |}
  /\ lineMap (walkFrom {| lineMap := ∅; currentPosition := 5; leftLine := 3;
                          rightLine := 4 |}
                ["@@ -7 +9 @@"; "+x"; "-y"; " z"]) !! 6
     = Some 8%nat.
Proof.
  destruct (bare_hunk_header_keeps_stale_counters
              {| lineMap := ∅; currentPosition := 5; leftLine := 3; rightLine := 4 |}
              7 9) as (Hnone & Hstep & Hbody & _).
  split; [exact Hnone|]. split; [exact Hstep|].
  apply (Hbody ["+x"; "-y"; " z"] 2%nat " z").
  - repeat constructor.
  - reflexivity.
  - reflexivity.
Defined.

(** A line of a hunk of a unified diff is a line the loop takes for what
    it is: an added or a context line is recorded, a removed line is not. *)
Lemma hunkLine_bodyLine (line : string) :
  hunkLine line = true ->
  bodyLine line = true /\ recorded line = inNewFile line.
Proof.
  unfold hunkLine, bodyLine, removed, recorded, inNewFile. intros H.
  destruct (startsWith line "+") eqn:Hplus.
  { rewrite (startsWith_other_first line "+" "@" _ "@" Hplus) by discriminate.
    rewrite (startsWith_other_first line "+" "-" _ "" Hplus) by discriminate.
    split; reflexivity. }
  destruct (startsWith line " ") eqn:Hspace.
  { rewrite (startsWith_other_first line " " "@" _ "@" Hspace) by discriminate.
    rewrite (startsWith_other_first line " " "-" _ "" Hspace) by discriminate.
    rewrite (startsWith_other_first line " " "d" _ "iff" Hspace) by discriminate.
    rewrite (startsWith_other_first line " " "i" _ "ndex" Hspace) by discriminate.
    split; reflexivity. }
  cbn [orb] in H.
  rewrite (startsWith_other_first line "-" "@" _ "@" H) by discriminate.
  rewrite H. split; reflexivity.
Qed.

Lemma hunkLines_bodyLines (body : list string) :
  Forall (fun l => hunkLine l = true) body ->
  Forall (fun l => bodyLine l = true) body
  /\ forall j, List.filter recorded (take j body) = List.filter inNewFile (take j body).
Proof.
  induction 1 as [|l body Hl _ [IH1 IH2]]; [split; [constructor|now intros [|j]]|].
  destruct (hunkLine_bodyLine l Hl) as [Hb Hr].
  split; [now constructor|].
  intros [|j]; [reflexivity|]. cbn [take List.filter]. now rewrite Hr, IH2.
Qed.

(** X1: in the body of a hunk [@@ -a,b +c,d @@] whose lines are those of
    a unified diff (an added line starts with [+], a context line with a
    space, a removed line with [-]), an added or context line is stored
    under its number in the new file, c plus the number of added and
    context lines before it in the body, at the position of the header
    plus one plus its index in the body: every line of the body, removed
    lines too, takes one position, and only added and context lines take a
    number. *)
Theorem hunk_lines_get_their_new_file_numbers
    (st : WalkState) (a b c d : N) (text : string)
    (body : list string) (j : nat) (line : string) :
  Forall (fun l => hunkLine l = true) body ->
  body !! j = Some line -> inNewFile line = true ->
  lineMap (walkFrom st (hunkHeader a b c d text :: body))
    !! (Z.of_N c + Z.of_nat (length (List.filter inNewFile (take j body))))
  = Some (currentPosition st + 1 + j)%nat.
Proof.
  intros Hhunk Hj Hnew.
  destruct (hunkLines_bodyLines body Hhunk) as [Hbody Hsame].
  assert (Hrec : recorded line = true).
  { apply list_elem_of_lookup_2, (proj1 (Forall_forall _ _) Hhunk) in Hj.
    destruct (hunkLine_bodyLine line Hj) as [_ ->]. exact Hnew. }
  rewrite walkFrom_cons.
  pose proof (body_line_numbers body Hbody (step st (hunkHeader a b c d text))
                j line Hj Hrec) as H.
  destruct (parseInt_pretty a) as [Ha _]. destruct (parseInt_pretty b) as [Hb _].
  destruct (parseInt_pretty c) as [Hc Vc]. destruct (parseInt_pretty d) as [Hd _].
  unfold hunkHeader in *.
  rewrite (step_hunk_header st _ _ _ _ text Ha Hb Hc Hd) in *.
  rewrite Vc in *. cbn [rightLine currentPosition] in H.
  replace (Z.of_N c - 1 + 1) with (Z.of_N c) in H by lia.
  rewrite <- Hsame, H. f_equal. lia.
Qed.

Lemma hunk_lines_get_their_new_file_numbers_witness :
  lineMap (walkFrom initial
             ["@@ -10,2 +10,3 @@ function f() {"; " a();"; "-old();"; "+b();"; " c();"])
    !! 11
  = Some 3%nat.
Proof.
  apply (hunk_lines_get_their_new_file_numbers initial 10 2 10 3 " function f() {"
           [" a();"; "-old();"; "+b();"; " c();"] 2 "+b();").
  - repeat constructor.
  - reflexivity.
  - reflexivity.
Defined.

(** A line that starts with a backslash goes the way of a context line. *)
Lemma marker_is_recorded (marker : string) :
  startsWith marker "\" = true -> recorded marker = true.
Proof.
  intros H. unfold recorded.
  rewrite (startsWith_other_first marker "\" "@" _ "@" H) by discriminate.
  rewrite (startsWith_other_first marker "\" "-" _ "" H) by discriminate.
  rewrite (startsWith_other_first marker "\" "+" _ "" H) by discriminate.
  rewrite (startsWith_other_first marker "\" "d" _ "iff" H) by discriminate.
  rewrite (startsWith_other_first marker "\" "i" _ "ndex" H) by discriminate.
  reflexivity.
Qed.

Lemma filter_take_app (f : string -> bool) (pre post : list string) (x : string) (j : nat) :
  List.filter f (take (length pre + 1 + j) (pre ++ x :: post)%list)
  = (List.filter f pre ++ List.filter f [x] ++ List.filter f (take j post))%list.
Proof.
  induction pre as [|p pre IH]; cbn [length Nat.add app take List.filter].
  - destruct (f x); reflexivity.
  - rewrite IH. destruct (f p); reflexivity.
Qed.

(** X22: the line [\ No newline at end of file] of a diff, which is not a
    line of either file, goes the way of a context line: it is counted as
    a line of the new file.  In the body of a hunk [@@ -a,b +c,d @@] of
    added, context and removed lines, an added or context line that comes
    after such a line is stored one above its number in the new file,
    which is c plus the number of added and context lines before it. *)
Theorem no_newline_marker_shifts_the_lines_after_it
    (st : WalkState) (a b c d : N) (text marker : string)
    (pre post : list string) (j : nat) (line : string) :
  Forall (fun l => hunkLine l = true) pre ->
  Forall (fun l => hunkLine l = true) post ->
  startsWith marker "\" = true ->
  post !! j = Some line -> inNewFile line = true ->
  lineMap (walkFrom st (hunkHeader a b c d text :: pre ++ marker :: post)%list)
    !! (Z.of_N c + Z.of_nat (length (List.filter inNewFile pre)
                              + length (List.filter inNewFile (take j post))) + 1)
  = Some (currentPosition st + 1 + (length pre + 1 + j))%nat.
Proof.
  intros Hpre Hpost Hmarker Hj Hnew.
  destruct (hunkLines_bodyLines pre Hpre) as [Bpre Spre].
  destruct (hunkLines_bodyLines post Hpost) as [Bpost Spost].
  pose proof (marker_is_recorded marker Hmarker) as Hm.
  assert (Hrec : recorded line = true).
  { apply list_elem_of_lookup_2, (proj1 (Forall_forall _ _) Hpost) in Hj.
    destruct (hunkLine_bodyLine line Hj) as [_ ->]. exact Hnew. }
  assert (Hbody : Forall (fun l => bodyLine l = true) (pre ++ marker :: post)%list).
  { apply Forall_app. split; [exact Bpre|]. constructor; [|exact Bpost].
    unfold bodyLine. rewrite Hm. apply orb_true_r. }
  assert (Hat : (pre ++ marker :: post)%list !! (length pre + 1 + j)%nat = Some line).
  { rewrite lookup_app_r by lia.
    replace (length pre + 1 + j - length pre)%nat with (S j) by lia. exact Hj. }
  rewrite walkFrom_cons.
  pose proof (body_line_numbers _ Hbody (step st (hunkHeader a b c d text))
                _ line Hat Hrec) as H.
  destruct (parseInt_pretty a) as [Ha _]. destruct (parseInt_pretty b) as [Hb _].
  destruct (parseInt_pretty c) as [Hc Vc]. destruct (parseInt_pretty d) as [Hd _].
  unfold hunkHeader in *.
  rewrite (step_hunk_header st _ _ _ _ text Ha Hb Hc Hd) in *.
  rewrite Vc in *. cbn [rightLine currentPosition] in H.
  rewrite filter_take_app in H. cbn [List.filter] in H. rewrite Hm in H.
  rewrite !length_app in H. cbn [length] in H.
  specialize (Spre (length pre)). rewrite firstn_all in Spre.
  rewrite Spre, Spost in H.
  match goal with
  | |- _ !! ?k = _ =>
      match type of H with
      | _ !! ?k' = _ => replace k with k' by lia
      end
  end.
  rewrite H. f_equal. lia.
Qed.

Lemma no_newline_marker_shifts_the_lines_after_it_witness :
  lineMap (walkFrom initial
             ["@@ -1,1 +1,1 @@"; "-x"; "\ No newline at end of file"; "+y"])
    !! 2
  = Some 3%nat.
Proof.
  apply (no_newline_marker_shifts_the_lines_after_it initial 1 1 1 1 ""
           "\ No newline at end of file" ["-x"] ["+y"] 0 "+y").
  - repeat constructor.
  - repeat constructor.
  - reflexivity.
  - reflexivity.
  - reflexivity.
Defined.

(** A turn of the loop writes the map exactly when the line is a recorded
    one. *)
Lemma step_writes_recorded_lines (st : WalkState) (line : string) :
  lineMap (step st line)
  = if recorded line
    then <[rightLine st + 1 := currentPosition st]> (lineMap st)
    else lineMap st.
Proof.
  destruct (recorded line) eqn:Hrec.
  - now destruct (step_of_recorded st line Hrec).
  - unfold recorded in Hrec. unfold step, classify.
    destruct (startsWith line "@@"); [now destruct (hunkHeaderMatch line) as [[? ?]|]|].
    destruct (startsWith line "-"); [reflexivity|].
    destruct (startsWith line "+"); [discriminate|].
    cbn [negb andb orb] in Hrec. rewrite Hrec. reflexivity.
Qed.

Lemma walkFrom_positions_point_at_recorded_lines (lines : list string) :
  forall (before : list string) (st : WalkState),
    currentPosition st = length before ->
    map_Forall (fun (_ : Z) (p : nat) => exists line : string,
                  before !! p = Some line /\ recorded line = true) (lineMap st) ->
    map_Forall (fun (_ : Z) (p : nat) => exists line : string,
                  (before ++ lines)%list !! p = Some line /\ recorded line = true)
      (lineMap (walkFrom st lines)).
Proof.
  induction lines as [|l lines IH]; intros before st Hpos Hmap.
  - rewrite app_nil_r. exact Hmap.
  - rewrite walkFrom_cons.
    replace (before ++ l :: lines)%list with ((before ++ [l]) ++ lines)%list
      by (now rewrite <- app_assoc).
    apply IH.
    + rewrite step_position, Hpos, length_app. simpl. lia.
    + rewrite step_writes_recorded_lines.
      assert (Hold : map_Forall (fun (_ : Z) (p : nat) => exists line : string,
                        (before ++ [l])%list !! p = Some line /\ recorded line = true)
                       (lineMap st)).
      { intros k p Hk. destruct (Hmap k p Hk) as (line & Hline & Hrec).
        exists line. split; [|exact Hrec]. now apply lookup_app_l_Some. }
      destruct (recorded l) eqn:Hl; [|exact Hold].
      apply map_Forall_insert_2; [|exact Hold].
      exists l. split; [|exact Hl].
      rewrite Hpos. rewrite lookup_app_r by lia.
      now rewrite Nat.sub_diag.
Qed.

(** X2: every position of the map is the index of a line of the segment,
    and that line is one the loop records: never a hunk header, never a
    removed line, never a [diff] or [index] line. *)
Theorem positions_point_at_recorded_lines (lines : list string) :
  map_Forall (fun (_ : Z) (p : nat) => exists line : string,
                lines !! p = Some line /\ recorded line = true)
    (lineMap (walk lines)).
Proof.
  apply (walkFrom_positions_point_at_recorded_lines lines [] initial).
  - reflexivity.
  - apply map_Forall_empty.
Qed.


Lemma hunkHeaderMatch_one_new_line (a b c rest : string) :
  isNumber a = true -> isNumber b = true -> isNumber c = true ->
  hunkHeaderMatch ("@@" +:+ rest) = None ->
  hunkHeaderMatch ("@@ -" +:+ a +:+ "," +:+ b +:+ " +" +:+ c +:+ " @@" +:+ rest) = None.
Proof.
  intros Ha Hb Hc Hrest.
  assert (Hat : hunkHeaderAt ("@@ -" +:+ a +:+ "," +:+ b +:+ " +" +:+ c +:+ " @@" +:+ rest)
                = None).
  { unfold hunkHeaderAt. rewrite expect_append. cbn [mbind option_bind].
    rewrite (digits1_append a _ Ha) by reflexivity. cbn [mbind option_bind].
    rewrite expect_append. cbn [mbind option_bind].
    rewrite (digits1_append b _ Hb) by reflexivity. cbn [mbind option_bind].
    rewrite expect_append. cbn [mbind option_bind].
    rewrite (digits1_append c _ Hc) by reflexivity. reflexivity. }
  change ("@@ -" +:+ a +:+ "," +:+ b +:+ " +" +:+ c +:+ " @@" +:+ rest)
    with (String "@" (String "@" (String " " (String "-"
            (a +:+ String "," (b +:+ String " " (String "+"
               (c +:+ String " " ("@@" +:+ rest)))))))))
    in *.
  rewrite hunkHeaderMatch_cons, Hat.
  assert (Hat2 : forall s, hunkHeaderAt (String "@" (String " " s)) = None) by reflexivity.
  rewrite hunkHeaderMatch_cons, Hat2.
  rewrite !hunkHeaderMatch_skip by reflexivity.
  rewrite hunkHeaderMatch_digits by now apply isNumber_allDigits.
  rewrite hunkHeaderMatch_skip by reflexivity.
  rewrite hunkHeaderMatch_digits by now apply isNumber_allDigits.
  rewrite !hunkHeaderMatch_skip by reflexivity.
  rewrite hunkHeaderMatch_digits by now apply isNumber_allDigits.
  rewrite hunkHeaderMatch_skip by reflexivity.
  exact Hrest.
Qed.

Lemma hunkHeaderMatch_one_old_line (a c d rest : string) :
  isNumber a = true -> isNumber c = true -> isNumber d = true ->
  hunkHeaderMatch ("@@" +:+ rest) = None ->
  hunkHeaderMatch ("@@ -" +:+ a +:+ " +" +:+ c +:+ "," +:+ d +:+ " @@" +:+ rest) = None.
Proof.
  intros Ha Hc Hd Hrest.
  assert (Hat : hunkHeaderAt ("@@ -" +:+ a +:+ " +" +:+ c +:+ "," +:+ d +:+ " @@" +:+ rest)
                = None).
  { unfold hunkHeaderAt. rewrite expect_append. cbn [mbind option_bind].
    rewrite (digits1_append a _ Ha) by reflexivity. reflexivity. }
  change ("@@ -" +:+ a +:+ " +" +:+ c +:+ "," +:+ d +:+ " @@" +:+ rest)
    with (String "@" (String "@" (String " " (String "-"
            (a +:+ String " " (String "+"
               (c +:+ String "," (d +:+ String " " ("@@" +:+ rest)))))))))
    in *.
  rewrite hunkHeaderMatch_cons, Hat.
  assert (Hat2 : forall s, hunkHeaderAt (String "@" (String " " s)) = None) by reflexivity.
  rewrite hunkHeaderMatch_cons, Hat2.
  rewrite !hunkHeaderMatch_skip by reflexivity.
  rewrite hunkHeaderMatch_digits by now apply isNumber_allDigits.
  rewrite !hunkHeaderMatch_skip by reflexivity.
  rewrite hunkHeaderMatch_digits by now apply isNumber_allDigits.
  rewrite hunkHeaderMatch_skip by reflexivity.
  rewrite hunkHeaderMatch_digits by now apply isNumber_allDigits.
  rewrite hunkHeaderMatch_skip by reflexivity.
  exact Hrest.
Qed.

Lemma step_unmatched_header (st : WalkState) (line : string) :
  startsWith line "@@" = true -> hunkHeaderMatch line = None ->
  step st line
  = {| lineMap := lineMap st; currentPosition := S (currentPosition st);
       leftLine := leftLine st; rightLine := rightLine st |}.
Proof. intros H1 H2. unfold step, classify. now rewrite H1, H2. Qed.

(** X3: a hunk header that leaves out one of the two lengths, as git
    writes it for a range of one line ([@@ -0,0 +1 @@], [@@ -1 +0,0 @@]),
    is not matched by the header pattern either: the line takes its
    position and the two counters keep the values they had. *)
Theorem one_line_ranges_keep_stale_counters
    (st : WalkState) (a b c d : N) (rest : string) :
  hunkHeaderMatch ("@@" +:+ rest) = None ->
  step st (hunkHeaderOneNewLine a b c rest)
  = {| lineMap := lineMap st; currentPosition := S (currentPosition st);
       leftLine := leftLine st; rightLine := rightLine st |}
  /\ step st (hunkHeaderOneOldLine a c d rest)
     = {| lineMap := lineMap st; currentPosition := S (currentPosition st);
          leftLine := leftLine st; rightLine := rightLine st |}.
Proof.
  intros Hrest.
  destruct (parseInt_pretty a) as [Ha _]. destruct (parseInt_pretty b) as [Hb _].
  destruct (parseInt_pretty c) as [Hc _]. destruct (parseInt_pretty d) as [Hd _].
  split; apply step_unmatched_header; try reflexivity.
  - now apply hunkHeaderMatch_one_new_line.
  - now apply hunkHeaderMatch_one_old_line.
Qed.

Lemma one_line_ranges_keep_stale_counters_witness :
  step {| lineMap := ∅; currentPosition := 5; leftLine := 7; rightLine := 9 |}
       "@@ -0,0 +1 @@"
  = {| lineMap := ∅; currentPosition := 6; leftLine := 7; rightLine := 9 |}
  /\ step {| lineMap := ∅; currentPosition := 5; leftLine := 7; rightLine := 9 |}
          "@@ -0 +1,0 @@"
     = {| lineMap := ∅; currentPosition := 6; leftLine := 7; rightLine := 9 |}.
Proof.
  exact (one_line_ranges_keep_stale_counters
           {| lineMap := ∅; currentPosition := 5; leftLine := 7; rightLine := 9 |}
           0 0 1 0 "" eq_refl).
Defined.


(** ** A path of plain characters *)

Lemma literal_append (a b : string) :
  literal (a +:+ b) = (literal a ++ literal b)%list.
Proof.
  unfold literal. induction a as [|c a IH]; simpl; [reflexivity|].
  now rewrite IH.
Qed.

Lemma pathAtoms_plain (p : string) :
  plainPath p = true -> pathAtoms p = Some (literal p).
Proof.
  unfold plainPath, literal. induction p as [|c p IH]; [reflexivity|].
  cbn [list_ascii_of_string forallb pathAtoms map].
  intros H. apply andb_true_iff in H as [Hc Hp].
  apply andb_true_iff in Hc as [Hc _]. apply negb_true_iff in Hc.
  rewrite (IH Hp). cbn [mbind option_bind]. rewrite Hc.
  destruct (Ascii.eqb_spec c ".") as [->|]; [discriminate|reflexivity].
Qed.

Lemma filePattern_plain (p : string) :
  plainPath p = true -> filePattern p = Some (literal (fileHeader p)).
Proof.
  intros H. unfold filePattern, fileHeader. rewrite (pathAtoms_plain p H).
  cbn [mbind option_bind]. now rewrite !literal_append.
Qed.

Lemma matchAtoms_literal_startsWith (p : string) :
  forall s, matchAtoms (literal p) s = startsWith s p.
Proof.
  induction p as [|c p IH]; intros s; [reflexivity|].
  change (literal (String c p)) with (Lit c :: literal p).
  destruct s as [|d s]; [reflexivity|].
  cbn [matchAtoms startsWith]. rewrite IH.
  now destruct (Ascii.eqb c d).
Qed.

(** A text without line feed starts [s] exactly when it starts the first
    line of [s]. *)
Lemma startsWith_first_line (h : string) :
  forallb (fun c => negb (Ascii.eqb c newline)) (list_ascii_of_string h) = true ->
  forall s, startsWith s h = startsWith (hd "" (split newline s)) h.
Proof.
  induction h as [|c h IH]; intros Hh s; [reflexivity|].
  cbn [list_ascii_of_string forallb] in Hh. apply andb_true_iff in Hh as [Hc Hh].
  apply negb_true_iff in Hc.
  destruct s as [|d s]; [reflexivity|].
  cbn [split startsWith]. destruct (Ascii.eqb_spec d newline) as [->|Hd].
  - cbn [hd startsWith]. now rewrite Hc.
  - rewrite (IH Hh s).
    destruct (split newline s) as [|l0 ls]; cbn [hd startsWith]; [|reflexivity].
    destruct (Ascii.eqb c d); [|reflexivity]. now destruct h.
Qed.

Lemma split_cons (sep : ascii) (s : string) :
  exists piece pieces, split sep s = piece :: pieces.
Proof.
  destruct s as [|c s]; cbn [split]; [eauto|].
  destruct (Ascii.eqb c sep); [eauto|].
  destruct (split sep s); eauto.
Qed.

(** The search at line starts finds nothing exactly when no line starts
    with the text looked for. *)
Lemma searchLineStart_none (h : string) (c0 : ascii) (h0 : string) :
  h = String c0 h0 ->
  forallb (fun c => negb (Ascii.eqb c newline)) (list_ascii_of_string h) = true ->
  forall (s : string) (b : bool) (i : nat),
    noCarriageReturn s = true ->
    (searchLineStart (fun t => startsWith t h) b s i = None
     <-> (b = true -> startsWith (hd "" (split newline s)) h = false)
         /\ Forall (fun l => startsWith l h = false) (tl (split newline s))).
Proof.
  intros Hne Hh. induction s as [|d s IH]; intros b i Hcr.
  - cbn [searchLineStart split hd tl]. subst h. cbn [startsWith].
    rewrite andb_false_r. split; [intros _; split; [reflexivity|constructor]|reflexivity].
  - unfold noCarriageReturn in Hcr. cbn [list_ascii_of_string forallb] in Hcr.
    apply andb_true_iff in Hcr as [Hd Hcr]. apply negb_true_iff in Hd.
    cbn [searchLineStart]. rewrite (startsWith_first_line h Hh (String d s)).
    specialize (IH (isLineTerminator d) (S i) Hcr).
    destruct (split_cons newline s) as (l0 & ls & Es).
    cbn [split]. rewrite Es in *. cbn [hd tl] in IH.
    destruct (Ascii.eqb_spec d newline) as [->|Hnl].
    + cbn [hd tl]. subst h. cbn [startsWith]. rewrite andb_false_r.
      change (isLineTerminator newline) with true in IH.
      rewrite IH. split.
      * intros [H1 H2]. split; [reflexivity|]. constructor; auto.
      * intros [_ H]. inversion H; subst. split; auto.
    + cbn [hd tl].
      assert (Hterm : isLineTerminator d = false).
      { unfold isLineTerminator. rewrite Hd.
        destruct (Ascii.eqb_spec d newline); [contradiction|reflexivity]. }
      rewrite Hterm in *.
      destruct b; cbn [andb].
      * destruct (startsWith (String d l0) h) eqn:Hs; cbv iota.
        -- split; [discriminate|]. intros [H _]. specialize (H eq_refl). discriminate.
        -- rewrite IH. split; intros [_ H]; split; auto; intros; congruence.
      * rewrite IH. split; intros [_ H]; split; auto; intros; congruence.
Qed.

Lemma fileHeader_no_line_feed (p : string) :
  plainPath p = true ->
  forallb (fun c => negb (Ascii.eqb c newline)) (list_ascii_of_string (fileHeader p))
  = true.
Proof.
  intros Hp.
  assert (Hpath : forallb (fun c => negb (Ascii.eqb c newline)) (list_ascii_of_string p)
                  = true).
  { unfold plainPath in Hp. revert Hp. generalize (list_ascii_of_string p).
    intros l. induction l as [|c l IH]; [reflexivity|]. cbn [forallb].
    intros H. apply andb_true_iff in H as [Hc Hl]. rewrite (IH Hl), andb_true_r.
    apply andb_true_iff in Hc as [_ Hc]. unfold isLineTerminator in Hc.
    apply negb_true_iff, orb_false_iff in Hc as [Hc _]. now rewrite Hc. }
  assert (Happ : forall a b,
             list_ascii_of_string (a +:+ b)
             = (list_ascii_of_string a ++ list_ascii_of_string b)%list).
  { intros a b. induction a as [|c a IH]; simpl; [reflexivity|]. now rewrite IH. }
  unfold fileHeader. rewrite !Happ, !forallb_app, Hpath. reflexivity.
Qed.

(** X4: for a path of plain characters (no [.], no operator of the
    pattern language) and a diff without carriage returns, the file is not
    found exactly when no line of the diff starts with
    [diff --git a/<path> b/<path>], and the map is then the empty one. *)
Theorem plain_path_is_found_when_a_line_starts_with_its_header
    (host : string -> string -> outcome (option nat)) (diff filePath : string) :
  plainPath filePath = true -> noCarriageReturn diff = true ->
  (fileMatch host diff filePath = Ret None
   <-> Forall (fun line => startsWith line (fileHeader filePath) = false)
         (split newline diff))
  /\ (Forall (fun line => startsWith line (fileHeader filePath) = false)
        (split newline diff)
      -> positionsOfDiff host diff filePath = Ret ∅).
Proof.
  intros Hp Hcr.
  assert (Hiff : fileMatch host diff filePath = Ret None
                 <-> Forall (fun line => startsWith line (fileHeader filePath) = false)
                       (split newline diff)).
  { unfold fileMatch. rewrite (filePattern_plain filePath Hp).
    assert (Hsearch : searchLineStart (matchAtoms (literal (fileHeader filePath)))
                        true diff 0
                      = searchLineStart (fun t => startsWith t (fileHeader filePath))
                          true diff 0).
    { generalize 0%nat, true. induction diff as [|c s IH]; intros i b;
        cbn [searchLineStart]; rewrite matchAtoms_literal_startsWith; [reflexivity|].
      unfold noCarriageReturn in Hcr. cbn [list_ascii_of_string forallb] in Hcr.
      apply andb_true_iff in Hcr as [_ Hcr]. now rewrite (IH Hcr). }
    rewrite Hsearch.
    pose proof (searchLineStart_none (fileHeader filePath) "d"
                  ("iff --git a/" +:+ filePath +:+ " b/" +:+ filePath) eq_refl
                  (fileHeader_no_line_feed filePath Hp) diff true 0%nat Hcr) as H.
    destruct (split_cons newline diff) as (l0 & ls & Es). rewrite Es in *.
    cbn [hd tl] in H. split.
    - intros E. assert (E' : searchLineStart
                               (fun t => startsWith t (fileHeader filePath)) true diff 0
                             = None) by congruence.
      apply H in E' as [H1 H2]. constructor; auto.
    - intros F. inversion F; subst. f_equal. apply H. split; auto. }
  split; [exact Hiff|]. intros F. apply Hiff in F.
  unfold positionsOfDiff. now rewrite F.
Qed.

Lemma plain_path_is_found_when_a_line_starts_with_its_header_witness :
  (fileMatch (fun _ _ => Ret None) Fixtures.mathDiff "Makefile" = Ret None
   <-> Forall (fun line => startsWith line (fileHeader "Makefile") = false)
         (split newline Fixtures.mathDiff))
  /\ (Forall (fun line => startsWith line (fileHeader "Makefile") = false)
        (split newline Fixtures.mathDiff)
      -> positionsOfDiff (fun _ _ => Ret None) Fixtures.mathDiff "Makefile" = Ret ∅).
Proof.
  apply (plain_path_is_found_when_a_line_starts_with_its_header
           (fun _ _ => Ret None) Fixtures.mathDiff "Makefile"); reflexivity.
Defined.


(** ** The end of the segment *)

Lemma startsWith_takeStr (h : string) :
  forall (n : nat) (s : string),
    startsWith (takeStr n s) h = true -> startsWith s h = true.
Proof.
  induction h as [|c h IH]; intros n s H; [reflexivity|].
  destruct n as [|n]; destruct s as [|d s]; try discriminate.
  cbn [takeStr startsWith] in *.
  destruct (Ascii.eqb c d); [|discriminate]. now apply (IH n).
Qed.

Lemma takeStr_length (s : string) : takeStr (String.length s) s = s.
Proof. induction s as [|c s IH]; simpl; [reflexivity|]. now rewrite IH. Qed.

(** What comes before the first line start where [h] is found: none of
    its lines starts with [h], the first one apart when it does not begin
    at a line start. *)
Lemma lines_before_the_match (h : string) (c0 : ascii) (h0 : string) :
  h = String c0 h0 ->
  forallb (fun c => negb (Ascii.eqb c newline)) (list_ascii_of_string h) = true ->
  forall (s : string) (b : bool) (i0 : nat),
    let cut := match searchLineStart (fun t => startsWith t h) b s i0 with
               | Some idx => takeStr (idx - i0) s
               | None => s
               end in
    (b = true -> startsWith (hd "" (split newline cut)) h = false)
    /\ Forall (fun l => startsWith l h = false) (tl (split newline cut))
    /\ (startsWith cut h = true -> startsWith s h = true).
Proof.
  intros Hne Hh. induction s as [|d s IH]; intros b i0 cut.
  - subst cut. cbn [searchLineStart]. subst h. cbn [startsWith].
    rewrite andb_false_r. cbn. repeat split; auto; discriminate.
  - subst cut. cbn [searchLineStart].
    destruct (b && startsWith (String d s) h) eqn:Hb.
    + rewrite Nat.sub_diag. subst h. cbn. repeat split; auto; discriminate.
    + specialize (IH (isLineTerminator d) (S i0)). cbv zeta in IH.
      set (cut' := match searchLineStart (fun t => startsWith t h)
                           (isLineTerminator d) s (S i0) with
                   | Some idx => takeStr (idx - S i0) s
                   | None => s
                   end) in *.
      assert (Hcut : match searchLineStart (fun t => startsWith t h)
                             (isLineTerminator d) s (S i0) with
                     | Some idx => takeStr (idx - i0) (String d s)
                     | None => String d s
                     end = String d cut').
      { subst cut'.
        destruct (searchLineStart (fun t => startsWith t h) (isLineTerminator d) s (S i0))
          as [idx|] eqn:E; [|reflexivity].
        apply searchLineStart_found in E as [Hle _].
        replace (idx - i0)%nat with (S (idx - S i0)) by lia. reflexivity. }
      rewrite Hcut. destruct IH as (IH1 & IH2 & IH3).
      assert (Hpre : startsWith (String d cut') h = true ->
                     startsWith (String d s) h = true).
      { subst h. cbn [startsWith]. destruct (Ascii.eqb c0 d); [|discriminate].
        destruct h0 as [|c1 h1]; [reflexivity|].
        intros H. clear -H. subst cut'.
        destruct (searchLineStart _ _ s (S i0)); [|exact H].
        now apply startsWith_takeStr in H. }
      split; [|split; [|exact Hpre]].
      * intros ->. cbn [andb] in Hb.
        rewrite <- (startsWith_first_line h Hh (String d cut')).
        destruct (startsWith (String d cut') h) eqn:E; [|reflexivity].
        rewrite (Hpre eq_refl) in Hb. discriminate.
      * destruct (split_cons newline cut') as (l0 & ls & Es).
        cbn [split]. rewrite Es in *. cbn [hd tl] in *.
        destruct (Ascii.eqb_spec d newline) as [->|Hd]; [|exact IH2].
        cbn [tl]. constructor; [|exact IH2]. now apply IH1.
Qed.

(** X5: the segment of a file holds that file alone: its first line is
    the [diff --git] line of the file and no later line of the segment
    starts with [diff --git]. *)
Theorem segment_holds_one_file
    (host : string -> string -> outcome (option nat))
    (diff filePath : string) (pat : list atom) (i : nat) :
  filePattern filePath = Some pat ->
  fileMatch host diff filePath = Ret (Some i) ->
  exists first rest,
    split newline (fileDiff diff i) = first :: rest
    /\ startsWith first "diff --git a/" = true
    /\ Forall (fun line => startsWith line "diff --git" = false) rest.
Proof.
  intros Hpat Hmatch.
  destruct (segment_starts_with_its_diff_line host diff filePath pat i Hpat Hmatch)
    as (first & rest & Esplit & Hfirst & _).
  exists first, rest. split; [exact Esplit|]. split; [exact Hfirst|].
  unfold fileMatch in Hmatch. rewrite Hpat in Hmatch. injection Hmatch as Hfound.
  assert (Hlit : exists more, pat = (literal "diff --git a/" ++ more)%list).
  { unfold filePattern in Hpat. destruct (pathAtoms filePath) as [p|]; [|discriminate].
    injection Hpat as <-. eauto. }
  destruct Hlit as (more & ->).
  apply searchLineStart_found in Hfound as [_ Hm]. rewrite Nat.sub_0_r in Hm.
  apply matchAtoms_literal in Hm as (s' & Hs').
  set (s1 := "iff --git a/" +:+ s') in *.
  assert (Hs : dropStr i diff = String "d" s1) by exact Hs'.
  assert (Hnext : dropStr (S i) diff = s1) by (rewrite dropStr_S, Hs; reflexivity).
  assert (Hlen : (String.length diff - i = S (String.length s1))%nat).
  { rewrite <- length_dropStr, Hs. reflexivity. }
  pose proof (lines_before_the_match "diff --git" "d" "iff --git" eq_refl eq_refl
                s1 true 0%nat) as Hcut.
  cbv zeta in Hcut.
  assert (Hseg : fileDiff diff i
                 = String "d"
                     match searchLineStart (fun t => startsWith t "diff --git") true s1 0
                     with
                     | Some idx => takeStr (idx - 0) s1
                     | None => s1
                     end).
  { unfold fileDiff, substringFrom, substring.
    replace (i + 1)%nat with (S i) by lia. rewrite Hnext.
    destruct (searchLineStart (fun t => startsWith t "diff --git") true s1 0) as [idx|].
    - replace (i <=? S i + idx)%nat with true by (symmetry; apply Nat.leb_le; lia).
      replace (S i + idx - i)%nat with (S idx) by lia.
      rewrite Hs, Nat.sub_0_r. reflexivity.
    - replace (i <=? String.length diff)%nat with true
        by (symmetry; apply Nat.leb_le; lia).
      rewrite Hlen, Hs. cbn [takeStr]. now rewrite takeStr_length. }
  rewrite Hseg in Esplit. destruct Hcut as (_ & Htail & _).
  destruct (split_cons newline
              match searchLineStart (fun t => startsWith t "diff --git") true s1 0 with
              | Some idx => takeStr (idx - 0) s1
              | None => s1
              end) as (l0 & ls & Es).
  rewrite Es in Htail. cbn [split] in Esplit. rewrite Es in Esplit.
  change (Ascii.eqb "d" newline) with false in Esplit. cbv iota in Esplit.
  injection Esplit as _ <-. exact Htail.
Qed.

Lemma segment_holds_one_file_witness :
  exists first rest,
    split newline (fileDiff twoFilesDiff 0) = first :: rest
    /\ startsWith first "diff --git a/" = true
    /\ Forall (fun line => startsWith line "diff --git" = false) rest.
Proof.
  eapply (segment_holds_one_file (fun _ _ => Ret None) twoFilesDiff "math.js" _ 0).
  - vm_compute. reflexivity.
  - vm_compute. reflexivity.
Defined.


(** ** The units of the scanner *)

Lemma truthyName_truthy (n : option Ast.node) (nm : string) :
  SyntaxScanner.truthyName n = Some nm -> truthy nm = true.
Proof.
  unfold SyntaxScanner.truthyName. destruct n as [i|]; [|discriminate].
  destruct (Ast.name i) as [s|]; [|discriminate].
  destruct (truthy s) eqn:E; [|discriminate]. now intros [= <-].
Qed.

Lemma stringLiteralValue_truthy (n : option Ast.node) (nm : string) :
  SyntaxScanner.stringLiteralValue n = Some nm -> truthy nm = true.
Proof.
  unfold SyntaxScanner.stringLiteralValue. destruct n as [k|]; [|discriminate].
  destruct (String.eqb (Ast.type k) "StringLiteral"); [|discriminate].
  destruct (Ast.value k) as [s|]; [|discriminate].
  destruct (truthy s) eqn:E; [|discriminate]. now intros [= <-].
Qed.

Lemma unitOf_wellFormed (fileContent : string) (n : Ast.node) (nm kind : string) :
  truthy nm = true -> kind = "function" \/ kind = "method" ->
  wellFormedUnit fileContent (SyntaxScanner.unitOf fileContent n nm kind).
Proof. intros H1 H2. unfold wellFormedUnit. simpl. eauto. Qed.

Lemma one_or_none {A : Type} (P : A -> Prop) (b : bool) (x : A) :
  P x ->
  Forall P (if b then [x] else []) /\ (length (if b then [x] else []) <= 1)%nat.
Proof. intros H. destruct b; split; simpl; auto. Qed.

(** What a visitor emits when it enters a node: nothing, or one unit. *)
Lemma enter_wellFormed (fileContent : string) (node : Ast.node)
    (parent : option Ast.node) :
  Forall (wellFormedUnit fileContent) (SyntaxScanner.enter fileContent node parent)
  /\ (length (SyntaxScanner.enter fileContent node parent) <= 1)%nat.
Proof.
  assert (Hnone : Forall (wellFormedUnit fileContent) []
                  /\ (length (@nil SyntaxScanner.CallableUnit) <= 1)%nat)
    by (split; [constructor|simpl; lia]).
  unfold SyntaxScanner.enter.
  destruct (String.eqb (Ast.type node) "FunctionDeclaration").
  { unfold SyntaxScanner.FunctionDeclaration.
    destruct (SyntaxScanner.truthyName (Ast.id node)) as [nm|] eqn:E; [|exact Hnone].
    apply one_or_none, unitOf_wellFormed; eauto using truthyName_truthy. }
  destruct (String.eqb (Ast.type node) "VariableDeclarator").
  { unfold SyntaxScanner.VariableDeclarator.
    destruct (SyntaxScanner.truthyName (Ast.id node)) as [nm|] eqn:E; [|exact Hnone].
    destruct (SyntaxScanner.isFunctionInit (Ast.init node)); [|exact Hnone].
    apply one_or_none, unitOf_wellFormed; eauto using truthyName_truthy. }
  destruct (String.eqb (Ast.type node) "ClassMethod").
  { unfold SyntaxScanner.ClassMethod.
    destruct (SyntaxScanner.truthyName (Ast.key node)) as [nm|] eqn:E; [|exact Hnone].
    apply one_or_none, unitOf_wellFormed; eauto using truthyName_truthy. }
  destruct (String.eqb (Ast.type node) "ObjectMethod"); [|exact Hnone].
  unfold SyntaxScanner.ObjectMethod.
  destruct (SyntaxScanner.truthyName (Ast.key node)) as [nm|] eqn:E.
  - apply one_or_none, unitOf_wellFormed; eauto using truthyName_truthy.
  - destruct (SyntaxScanner.stringLiteralValue (Ast.key node)) as [nm|] eqn:E2;
      [|exact Hnone].
    apply one_or_none, unitOf_wellFormed; eauto using stringLiteralValue_truthy.
Qed.

Lemma visit_wellFormed (fileContent : string) :
  forall (node : Ast.node) (parent : option Ast.node),
    Forall (wellFormedUnit fileContent) (SyntaxScanner.visit fileContent parent node).
Proof.
  fix IH 1. intros [t s e l lc nm v id key init children] parent.
  cbn [SyntaxScanner.visit].
  apply Forall_app; split.
  - apply enter_wellFormed.
  - match goal with
    | |- Forall _ (flat_map (SyntaxScanner.visit _ ?p) _) => generalize p
    end.
    intros p. induction children as [|c children IHc]; [constructor|].
    cbn [flat_map]. apply Forall_app. split; [apply IH|exact IHc].
Qed.

(** X6: every unit that the scan emits has a name that is not empty, is
    a function or a method, has for text the piece of the file that starts
    at its index, and has for line the line of the file at its line
    number (the empty text when the file has no such line). *)
Theorem emitted_units_are_well_formed (fileContent : string) (ast : Ast.node) :
  Forall (wellFormedUnit fileContent) (SyntaxScanner.traverse fileContent ast).
Proof. apply visit_wellFormed. Qed.

(** ** Files, requests and the end of the run *)

Section MoreRunFacts.
Variable h : Host.

Lemma anchored_more (file : string) (positions : gmap Z nat)
    (func : SyntaxScanner.CallableUnit) (functions : list SyntaxScanner.CallableUnit)
    (s : Suggestion) :
  anchored file positions functions s -> anchored file positions (func :: functions) s.
Proof.
  intros (H1 & H2 & f & Hin & H3). split; [exact H1|]. split; [exact H2|].
  exists f. split; [now right|exact H3].
Qed.

(** The loop over the functions adds suggestions at the end of those it
    has; each one it adds stands on a function of the list, and they come
    in the order of the list. *)
Lemma forFunctions_adds_anchored (file : string) (positions : gmap Z nat)
    (functions : list SyntaxScanner.CallableUnit) :
  forall (suggestions : list Suggestion) (w : World),
  exists added w',
    forFunctions h file positions functions suggestions w
    = (Ret (suggestions ++ added)%list, w')
    /\ Forall (anchored file positions functions) added
    /\ sublist (map functionName added) (map SyntaxScanner.name functions).
Proof.
  induction functions as [|func rest IH]; intros suggestions w.
  - exists [], w. rewrite app_nil_r. split; [reflexivity|].
    split; constructor.
  - cbn [forFunctions].
    erewrite bind_ret by apply emit_logged.
    match goal with
    | |- context [bind (generateJSDocComment h ?n ?c ?f) _ ?w0] =>
        destruct (generateJSDocComment_returns h n c f w0) as (jsdoc & w1 & E1 & _)
    end.
    erewrite bind_ret by exact E1.
    assert (Hskip : forall w2,
              exists added w',
                forFunctions h file positions rest suggestions w2
                = (Ret (suggestions ++ added)%list, w')
                /\ Forall (anchored file positions (func :: rest)) added
                /\ sublist (map functionName added)
                     (map SyntaxScanner.name (func :: rest))).
    { intros w2. destruct (IH suggestions w2) as (added & w' & E & F & S).
      exists added, w'. split; [exact E|]. split.
      - eapply Forall_impl; [exact F|]. intros s. apply anchored_more.
      - cbn [map]. now apply sublist_cons. }
    destruct jsdoc as [comment|]; [|erewrite bind_ret by reflexivity; apply Hskip].
    destruct (truthy comment) eqn:Htruthy;
      [|erewrite bind_ret by reflexivity; apply Hskip].
    destruct (positions !! Z.of_nat (SyntaxScanner.startLine func)) as [pos|] eqn:Hpos.
    + destruct (countSuggestion_counts w1) as (w2 & E2 & _).
      erewrite bind_ret.
      2:{ erewrite bind_ret by exact E2. reflexivity. }
      match goal with
      | |- context [forFunctions h file positions rest (suggestions ++ [?s0])%list w2] =>
          set (s := s0);
          destruct (IH (suggestions ++ [s])%list w2) as (added & w' & E & F & S)
      end.
      exists (s :: added), w'. split.
      * rewrite E. now rewrite <- app_assoc.
      * split.
        -- constructor.
           ++ split; [reflexivity|]. split; [exact Htruthy|].
              exists func. split; [now left|]. repeat split. exact Hpos.
           ++ eapply Forall_impl; [exact F|]. intros s'. apply anchored_more.
        -- cbn [map]. now apply sublist_skip.
    + erewrite bind_ret.
      2:{ erewrite bind_ret by apply emit_logged. reflexivity. }
      apply Hskip.
Qed.

(** X7: the loop over the functions always returns; every suggestion it
    makes is for the file, has a comment that is not empty, carries the
    name and the line of one of the functions and the position that the
    map gives for the line where that function starts; and the
    suggestions come in the order of the functions. *)
Theorem suggestions_stand_on_the_functions_in_order
    (file : string) (positions : gmap Z nat)
    (functions : list SyntaxScanner.CallableUnit) (w : World) :
  exists suggestions,
    fst (forFunctions h file positions functions [] w) = Ret suggestions
    /\ Forall (anchored file positions functions) suggestions
    /\ sublist (map functionName suggestions) (map SyntaxScanner.name functions).
Proof.
  destruct (forFunctions_adds_anchored file positions functions [] w)
    as (added & w' & E & F & S).
  exists added. rewrite E. auto.
Qed.

(** The steps of [processFile], one after the other. *)
Lemma processFile_steps (file : string) (w : World) :
  exists functions w1,
    detectFunctions h file (logged w (ConsoleLog ("Processing file: " +:+ file)))
    = (Ret functions, w1)
    /\ grows w w1 0
    /\ ((functions = []
         /\ exists w', processFile h file w = (Ret None, w') /\ grows w w' 0)
        \/ (functions <> []
            /\ exists positions w3 suggestions w4 n,
                 getDiffPositions h file
                   (logged w1 (ConsoleLog ("Found " +:+ pretty (length functions)
                                           +:+ " functions without JSDoc in " +:+ file)))
                 = (Ret positions, w3)
                 /\ clock w1 = S (clock w) /\ grows w w3 0
                 /\ forFunctions h file positions functions [] w3
                    = (Ret suggestions, w4)
                 /\ grows w3 w4 n /\ length suggestions = n
                 /\ ((suggestions = []
                      /\ processFile h file w = (Ret (Some 0%nat), w4))
                     \/ (suggestions <> []
                         /\ exists ok w',
                              processFile h file w
                              = (Ret (Some (length suggestions)), w')
                              /\ reviews w'
                                 = (reviews w4
                                    ++ [(map commentOf suggestions, ok)])%list
                              /\ suggestedFiles (stats w')
                                 = (suggestedFiles (stats w4)
                                    ++ [(file, length suggestions)])%list
                              /\ totalSuggestions (stats w')
                                 = totalSuggestions (stats w4)
                              /\ totalFiles (stats w') = totalFiles (stats w4)
                              /\ totalFunctions (stats w')
                                 = totalFunctions (stats w4)
                              /\ written w' = written w4
                              /\ exitCode w' = exitCode w4)))).
Proof.
  set (w0 := logged w (ConsoleLog ("Processing file: " +:+ file))).
  assert (G0 : grows w w0 0) by apply grows_logged.
  destruct (detectFunctions_returns h file w0) as (functions & w1 & E1 & G1).
  assert (G01 : grows w w1 0) by exact (grows_trans _ _ _ 0 0 G0 G1).
  exists functions, w1. split; [exact E1|]. split; [exact G01|].
  unfold processFile. erewrite bind_ret by apply emit_logged. fold w0.
  destruct functions as [|f0 fs].
  - left. split; [reflexivity|]. eexists. split.
    + apply tryCatch_ret. erewrite bind_ret by exact E1. cbn [length Nat.eqb].
      erewrite bind_ret by apply emit_logged. reflexivity.
    + apply (grows_trans _ _ _ 0 0 G01), grows_logged.
  - right. split; [discriminate|].
    set (functions := f0 :: fs) in *.
    set (w2 := logged w1 (ConsoleLog ("Found " +:+ pretty (length functions)
                                      +:+ " functions without JSDoc in " +:+ file))).
    destruct (getDiffPositions_returns h file w2) as (positions & w3 & E3 & G3).
    destruct (forFunctions_returns h file positions functions [] w3)
      as (suggestions & w4 & n & E4 & G4 & L4).
    simpl in L4.
    exists positions, w3, suggestions, w4, n.
    split; [exact E3|].
    split.
    { (* the file was read, and then the functions are not empty *)
      revert E1. unfold detectFunctions, tryCatch, bind, call, pure, ret.
      destruct (readFileSync h (clock w0) file) as [content|message].
      - destruct (parse h content) as [ast|message].
        + destruct (traverseThrows h ast) as [message|].
          * rewrite emit_logged. discriminate.
          * intros [= _ <-]. reflexivity.
        + rewrite emit_logged. discriminate.
      - rewrite emit_logged. discriminate. }
    split.
    { apply (grows_trans _ _ _ 0 0 G01).
      apply (grows_trans w1 w2 w3 0 0); [apply grows_logged|exact G3]. }
    split; [exact E4|]. split; [exact G4|]. split; [exact L4|].
    destruct suggestions as [|s0 ss].
    + left. split; [reflexivity|].
      apply tryCatch_ret. erewrite bind_ret by exact E1.
      change (length functions =? 0)%nat with false. cbv iota.
      erewrite bind_ret by apply emit_logged. fold w2.
      erewrite bind_ret by exact E3. erewrite bind_ret by exact E4.
      reflexivity.
    + right. split; [discriminate|].
      set (suggestions := s0 :: ss) in *.
      assert (Hne : suggestions <> []) by discriminate.
      destruct (submitPRReview_returns h suggestions w4 Hne)
        as (ok & w5 & E5 & S5 & R5 & W5 & X5).
      exists ok. eexists. split.
      * apply tryCatch_ret. erewrite bind_ret by exact E1.
        change (length functions =? 0)%nat with false. cbv iota.
        erewrite bind_ret by apply emit_logged. fold w2.
        erewrite bind_ret by exact E3. erewrite bind_ret by exact E4.
        change (0 <? length suggestions)%nat with true. cbv iota.
        erewrite bind_ret.
        2:{ erewrite bind_ret by exact E5. reflexivity. }
        reflexivity.
      * simpl. rewrite S5, R5, W5, X5. repeat split; reflexivity.
Qed.

(** X8: a file sends at most one request to the review API.  When it
    sends none, the table of the summary gets no row; when it sends one,
    the request has at least one comment, every comment carries the path
    of the file, and the table gets one row, with the file and the number
    of comments of the request. *)
Theorem a_file_sends_at_most_one_request (file : string) (w : World) :
  let w' := snd (processFile h file w) in
  (reviews w' = reviews w
   /\ suggestedFiles (stats w') = suggestedFiles (stats w))
  \/ exists comments ok,
       comments <> []
       /\ Forall (fun c => path c = file) comments
       /\ reviews w' = (reviews w ++ [(comments, ok)])%list
       /\ suggestedFiles (stats w')
          = (suggestedFiles (stats w) ++ [(file, length comments)])%list.
Proof.
  intros w'. subst w'.
  destruct (processFile_steps file w)
    as (functions & w1 & _ & _ & [[_ (w' & E & G)]|[_ Hrun]]).
  - left. rewrite E. destruct G as (_ & _ & g3 & _ & g5 & _). auto.
  - destruct Hrun as (positions & w3 & suggestions & w4 & n & _ & _ & G3 & E4 & G4 & _
                      & [[_ E]|[Hne (ok & w' & E & R & F & _)]]).
    + left. rewrite E. simpl.
      destruct G3 as (_ & _ & a3 & _ & a5 & _).
      destruct G4 as (_ & _ & b3 & _ & b5 & _). split; congruence.
    + right. rewrite E. simpl.
      exists (map commentOf suggestions), ok.
      destruct G3 as (_ & _ & a3 & _ & a5 & _).
      destruct G4 as (_ & _ & b3 & _ & b5 & _).
      split; [destruct suggestions; [congruence|discriminate]|].
      split; [|split].
      * destruct (forFunctions_adds_anchored file positions functions [] w3)
          as (added & w4' & E4' & A & _).
        rewrite E4 in E4'. injection E4' as -> _.
        apply Forall_map. cbn [app]. eapply Forall_impl; [exact A|].
        intros s (Hs & _). exact Hs.
      * rewrite R. congruence.
      * rewrite F, length_map. congruence.
Qed.

Lemma stats_eq (s1 s2 : Stats) :
  totalFiles s1 = totalFiles s2 -> totalFunctions s1 = totalFunctions s2 ->
  totalSuggestions s1 = totalSuggestions s2 ->
  suggestedFiles s1 = suggestedFiles s2 -> s1 = s2.
Proof. destruct s1, s2. simpl. congruence. Qed.

Lemma grows_0_same (w w' : World) :
  grows w w' 0 -> stats w' = stats w /\ reviews w' = reviews w.
Proof.
  intros (g1 & g2 & g3 & g4 & g5 & _). split; [|exact g5].
  apply stats_eq; try assumption. lia.
Qed.

Lemma getDiffPositions_fetches (file : string) (w : World) :
  fst (getDiffPositions h file w) = Ret (fetchedPositions h (clock w) file).
Proof.
  unfold getDiffPositions, fetchedPositions, tryCatch, bind, call, pure, ret.
  destruct (pullsGet h (clock w)) as [diff|error]; [|reflexivity].
  now destruct (fileMatch (regExp h) diff file) as [[index|]|error].
Qed.

(** A file for which the loop over the functions keeps no suggestion
    changes neither the statistics nor the requests. *)
Lemma file_without_suggestions (file : string) (w : World) :
  (forall functions w1 positions w3 suggestions w4,
      detectFunctions h file (logged w (ConsoleLog ("Processing file: " +:+ file)))
      = (Ret functions, w1) ->
      getDiffPositions h file
        (logged w1 (ConsoleLog ("Found " +:+ pretty (length functions)
                                +:+ " functions without JSDoc in " +:+ file)))
      = (Ret positions, w3) ->
      clock w1 = S (clock w) ->
      forFunctions h file positions functions [] w3 = (Ret suggestions, w4) ->
      suggestions = []) ->
  stats (snd (processFile h file w)) = stats w
  /\ reviews (snd (processFile h file w)) = reviews w.
Proof.
  intros Hnone.
  destruct (processFile_steps file w)
    as (functions & w1 & E1 & _ & [[_ (w' & E & G)]|[_ Hrun]]).
  - rewrite E. now apply grows_0_same.
  - destruct Hrun as (positions & w3 & suggestions & w4 & n & E3 & Hclock & G3 & E4 & G4
                      & L4 & [[_ E]|[Hne _]]).
    + rewrite E. simpl.
      rewrite (Hnone _ _ _ _ _ _ E1 E3 Hclock E4) in L4. simpl in L4. subst n.
      apply grows_0_same. exact (grows_trans _ _ _ 0 0 G3 G4).
    + now rewrite (Hnone _ _ _ _ _ _ E1 E3 Hclock E4) in Hne.
Qed.

(** X9: when the map fetched for a file is empty (the fetch failed, the
    file has no segment in the diff, or its segment records nothing), the
    file changes neither the statistics nor the requests sent, whatever
    functions it holds. *)
Theorem file_outside_the_diff_changes_nothing (file : string) (w : World) :
  fetchedPositions h (S (clock w)) file = ∅ ->
  stats (snd (processFile h file w)) = stats w
  /\ reviews (snd (processFile h file w)) = reviews w.
Proof.
  intros Hempty. apply file_without_suggestions.
  intros functions w1 positions w3 suggestions w4 _ E3 Hclock E4.
  pose proof (getDiffPositions_fetches file
                (logged w1 (ConsoleLog ("Found " +:+ pretty (length functions)
                                        +:+ " functions without JSDoc in " +:+ file))))
    as Hf.
  rewrite E3 in Hf. cbn [fst logged clock] in Hf. rewrite Hclock, Hempty in Hf.
  injection Hf as ->.
  destruct (forFunctions_adds_anchored file ∅ functions [] w3)
    as (added & w4' & E4' & A & _).
  rewrite E4 in E4'. injection E4' as -> _. cbn [app].
  destruct added as [|s added]; [reflexivity|].
  inversion A as [|? ? (_ & _ & func & _ & _ & _ & Hlook) _]; subst.
  rewrite lookup_empty in Hlook. discriminate.
Qed.




Lemma forFunctions_keeps_nothing (file : string) (positions : gmap Z nat)
    (functions : list SyntaxScanner.CallableUnit) :
  (forall t name content f, keptComment (chatCompletion h t name content f) = None) ->
  forall (suggestions : list Suggestion) (w : World),
    fst (forFunctions h file positions functions suggestions w) = Ret suggestions.
Proof.
  intros Hnone. induction functions as [|func rest IH]; intros suggestions w.
  - reflexivity.
  - cbn [forFunctions].
    erewrite bind_ret by apply emit_logged.
    match goal with
    | |- context [bind (generateJSDocComment h ?n ?c ?f) _ ?w0] =>
        assert (Hgen : exists jsdoc w1,
                   generateJSDocComment h n c f w0 = (Ret jsdoc, w1)
                   /\ match jsdoc with
                      | Some comment => truthy comment = false
                      | None => True
                      end)
    end.
    { unfold generateJSDocComment, tryCatch, bind, call, ret.
      match goal with
      | |- context [chatCompletion h ?t ?n ?c ?f] =>
          pose proof (Hnone t n c f) as Hk;
          destruct (chatCompletion h t n c f) as [text|error]
      end.
      + eexists _, _. split; [reflexivity|]. unfold keptComment in Hk.
        cbv beta iota.
        destruct (truthy (trim text)) eqn:Ht; [discriminate|reflexivity].
      + rewrite emit_logged. eexists _, _. split; [reflexivity|exact I]. }
    destruct Hgen as (jsdoc & w1 & E1 & Hj).
    erewrite bind_ret by exact E1.
    destruct jsdoc as [comment|].
    + rewrite Hj. unfold bind at 1, ret. cbv beta iota. apply IH.
    + unfold bind at 1, ret. cbv beta iota. apply IH.
Qed.

(** X10: when the completion endpoint fails or answers with blank text
    on every call, a file changes neither the statistics nor the requests
    sent. *)
Theorem no_comment_no_request (file : string) (w : World) :
  (forall t name content f, keptComment (chatCompletion h t name content f) = None) ->
  stats (snd (processFile h file w)) = stats w
  /\ reviews (snd (processFile h file w)) = reviews w.
Proof.
  intros Hnone. apply file_without_suggestions.
  intros functions w1 positions w3 suggestions w4 _ _ _ E4.
  pose proof (forFunctions_keeps_nothing file positions functions Hnone [] w3) as H.
  rewrite E4 in H. now injection H.
Qed.

(** The run, as far as the summary and the exit code go. *)
Lemma main_ends (w : World) :
  exists w',
    main h w = (Ret tt, w')
    /\ ((written w' = written w
         /\ (exitCode w' = exitCode w \/ exitCode w' = Some 1%nat))
        \/ (written w'
            = (written w ++ [("jsdoc-summary.md", summaryOf (stats w'))])%list
            /\ exitCode w' = exitCode w)).
Proof.
  unfold main, tryCatch.
  destruct (changedFiles_cases h w) as (w1 & G1 & [[files E1]|[e E1]]).
  - erewrite bind_ret by exact E1.
    destruct G1 as (_ & _ & _ & _ & _ & g6 & g7).
    destruct (length files =? 0)%nat.
    + rewrite emit_logged. eexists. split; [reflexivity|].
      left. simpl. auto.
    + unfold setTotalFiles at 1.
      erewrite bind_ret.
      2:{ erewrite bind_ret by reflexivity. reflexivity. }
      erewrite bind_ret by apply emit_logged.
      match goal with
      | |- context [bind (forFiles h files) _ ?w2] =>
          destruct (forFiles_returns h files w2) as (w3 & E3 & A3)
      end.
      erewrite bind_ret by exact E3.
      erewrite bind_ret by reflexivity.
      destruct A3 as (_ & _ & a3 & a4 & _). simpl in a3, a4.
      unfold bind, writeFile.
      destruct (writeFileSync h (clock w3) "jsdoc-summary.md" (summaryOf (stats w3)))
        as [[]|e].
      * rewrite emit_logged. eexists. split; [reflexivity|].
        right. simpl. rewrite a3, a4, g6, g7. auto.
      * unfold exit. rewrite emit_logged. eexists. split; [reflexivity|].
        left. simpl. rewrite a3, g6. auto.
  - unfold bind at 1. rewrite E1.
    unfold bind, exit. rewrite emit_logged. eexists. split; [reflexivity|].
    destruct G1 as (_ & _ & _ & _ & _ & g6 & g7).
    left. simpl. auto.
Qed.

(** X11: a run never throws; it ends without an exit code, or with the
    exit code 1 and then without a summary. *)
Theorem failed_run_leaves_no_summary :
  let w' := snd (main h initialWorld) in
  fst (main h initialWorld) = Ret tt
  /\ (exitCode w' = None \/ (exitCode w' = Some 1%nat /\ written w' = [])).
Proof.
  intros w'. subst w'.
  destruct (main_ends initialWorld) as (w' & E & H). rewrite E. simpl.
  split; [reflexivity|].
  destruct H as [[Hw [Hx|Hx]]|[_ Hx]]; simpl in *; auto.
Qed.

(** X12: when the files are listed in the environment and the summary
    can be written, the run writes it and sets no exit code, whatever
    fails for the files; the number of files of the summary is the number
    of pieces between the spaces of the list, blank pieces included, and
    is at least one. *)
Theorem listed_files_always_get_a_summary (files : string) (w : World) :
  envFiles h = Some files -> truthy files = true ->
  (forall t file text, writeFileSync h t file text = Ret tt) ->
  let w' := snd (main h w) in
  fst (main h w) = Ret tt
  /\ exitCode w' = exitCode w
  /\ written w' = (written w ++ [("jsdoc-summary.md", summaryOf (stats w'))])%list
  /\ totalFiles (stats w') = length (split " " files)
  /\ (1 <= totalFiles (stats w'))%nat.
Proof.
  intros Henv Htruthy Hwrite w'. subst w'.
  assert (Hlen : (1 <= length (split " " files))%nat).
  { destruct (split " " files) eqn:E; [|simpl; lia].
    destruct files as [|c s]; simpl in E; [discriminate|].
    destruct (Ascii.eqb c " "); [discriminate|].
    destruct (split " " s); discriminate. }
  assert (Hrun : exists w',
             main h w = (Ret tt, w')
             /\ exitCode w' = exitCode w
             /\ written w'
                = (written w ++ [("jsdoc-summary.md", summaryOf (stats w'))])%list
             /\ totalFiles (stats w') = length (split " " files)).
  { unfold main, tryCatch. rewrite Henv, Htruthy.
    erewrite bind_ret by reflexivity.
    replace (length (split " " files) =? 0)%nat with false
      by (symmetry; apply Nat.eqb_neq; lia).
    unfold setTotalFiles at 1.
    erewrite bind_ret.
    2:{ erewrite bind_ret by reflexivity. reflexivity. }
    erewrite bind_ret by apply emit_logged.
    match goal with
    | |- context [bind (forFiles h ?l) _ ?w2] =>
        destruct (forFiles_returns h l w2) as (w3 & E3 & A3)
    end.
    erewrite bind_ret by exact E3.
    erewrite bind_ret by reflexivity.
    destruct A3 as (a1 & _ & a3 & a4 & _). simpl in a1, a3, a4.
    unfold bind, writeFile. rewrite Hwrite, emit_logged.
    eexists. split; [reflexivity|].
    cbn [logged stats written exitCode]. rewrite a1, a3, a4. auto. }
  destruct Hrun as (w' & E & H1 & H2 & H3). rewrite E.
  cbn [fst snd]. rewrite H3. auto.
Qed.

End MoreRunFacts.

Lemma file_outside_the_diff_changes_nothing_witness :
  stats (snd (processFile (Fixtures.mathHost true) "other.js" initialWorld))
  = stats initialWorld
  /\ reviews (snd (processFile (Fixtures.mathHost true) "other.js" initialWorld))
     = reviews initialWorld.
Proof.
  apply (file_outside_the_diff_changes_nothing (Fixtures.mathHost true) "other.js"
           initialWorld).
  vm_compute. reflexivity.
Defined.

Lemma no_comment_no_request_witness :
  stats (snd (processFile silentHost "math.js" initialWorld)) = stats initialWorld
  /\ reviews (snd (processFile silentHost "math.js" initialWorld))
     = reviews initialWorld.
Proof.
  apply (no_comment_no_request silentHost "math.js" initialWorld).
  intros t name content f. reflexivity.
Defined.

Lemma listed_files_always_get_a_summary_witness :
  let w' := snd (main (listedHost "math.js  math.js") initialWorld) in
  fst (main (listedHost "math.js  math.js") initialWorld) = Ret tt
  /\ exitCode w' = exitCode initialWorld
  /\ written w'
     = (written initialWorld ++ [("jsdoc-summary.md", summaryOf (stats w'))])%list
  /\ totalFiles (stats w') = length (split " " "math.js  math.js")
  /\ (1 <= totalFiles (stats w'))%nat.
Proof.
  apply (listed_files_always_get_a_summary (listedHost "math.js  math.js")
           "math.js  math.js" initialWorld).
  - reflexivity.
  - reflexivity.
  - intros t file text. reflexivity.
Defined.


(** ** What is announced on the console *)

Lemma announcesNothing_ret {A : Type} (a : A) : announcesNothing (ret a).
Proof. intros w. exists []. rewrite app_nil_r. split; [reflexivity|constructor]. Qed.

Lemma announcesNothing_same {A : Type} (m : M A) :
  (forall w, console (snd (m w)) = console w) -> announcesNothing m.
Proof.
  intros H w. exists []. rewrite app_nil_r. split; [apply H|constructor].
Qed.

Lemma announcesNothing_bind {A B : Type} (m : M A) (k : A -> M B) :
  announcesNothing m -> (forall a, announcesNothing (k a)) ->
  announcesNothing (bind m k).
Proof.
  intros Hm Hk w. unfold bind. destruct (Hm w) as (a1 & E1 & F1).
  destruct (m w) as [[a|e] w1]; simpl in E1.
  - destruct (Hk a w1) as (a2 & E2 & F2). exists (a1 ++ a2)%list.
    rewrite E2, E1, <- app_assoc. split; [reflexivity|]. now apply Forall_app.
  - exists a1. simpl. auto.
Qed.

Lemma announcesNothing_tryCatch {A : Type} (body : M A) (handler : string -> M A) :
  announcesNothing body -> (forall e, announcesNothing (handler e)) ->
  announcesNothing (tryCatch body handler).
Proof.
  intros Hm Hk w. unfold tryCatch. destruct (Hm w) as (a1 & E1 & F1).
  destruct (body w) as [[a|e] w1]; simpl in E1.
  - exists a1. simpl. auto.
  - destruct (Hk e w1) as (a2 & E2 & F2). exists (a1 ++ a2)%list.
    rewrite E2, E1, <- app_assoc. split; [reflexivity|]. now apply Forall_app.
Qed.

Lemma announcesNothing_emit (e : LogEntry) :
  isAnnouncement e = false -> announcesNothing (emit e).
Proof. intros H w. exists [e]. split; [reflexivity|]. now constructor. Qed.

Lemma announcesNothing_if {A : Type} (b : bool) (m1 m2 : M A) :
  announcesNothing m1 -> announcesNothing m2 ->
  announcesNothing (if b then m1 else m2).
Proof. now destruct b. Qed.

(** A goal that a computation of the script announces nothing: it is taken
    apart along its binds, and every entry it writes starts with a text
    that is not the one of an announcement. *)
Ltac announces_nothing :=
  repeat first
    [ apply announcesNothing_ret
    | apply announcesNothing_bind; [|intros ?]
    | apply announcesNothing_tryCatch; [|intros ?]
    | apply announcesNothing_emit; reflexivity
    | apply announcesNothing_if
    | apply announcesNothing_same; intros ?; reflexivity ].

Section Announcements.
Variable h : Host.

Lemma detectFunctions_announces_nothing (file : string) :
  announcesNothing (detectFunctions h file).
Proof. unfold detectFunctions. announces_nothing. Qed.

Lemma generateJSDocComment_announces_nothing (name content file : string) :
  announcesNothing (generateJSDocComment h name content file).
Proof. unfold generateJSDocComment. announces_nothing. Qed.

Lemma getDiffPositions_announces_nothing (file : string) :
  announcesNothing (getDiffPositions h file).
Proof.
  unfold getDiffPositions. announces_nothing.
  match goal with |- announcesNothing (match ?x with _ => _ end) => destruct x end;
    announces_nothing.
Qed.

Lemma submitPRReview_announces_nothing (suggestions : list Suggestion) :
  announcesNothing (submitPRReview h suggestions).
Proof. unfold submitPRReview. announces_nothing. Qed.

Lemma forFunctions_announces_nothing (file : string) (positions : gmap Z nat)
    (functions : list SyntaxScanner.CallableUnit) :
  forall suggestions,
    announcesNothing (forFunctions h file positions functions suggestions).
Proof.
  induction functions as [|func rest IH]; intros suggestions.
  - apply announcesNothing_ret.
  - cbn [forFunctions]. apply announcesNothing_bind; [announces_nothing|intros _].
    apply announcesNothing_bind;
      [apply generateJSDocComment_announces_nothing|intros jsdoc].
    apply announcesNothing_bind; [|intros ?; apply IH].
    destruct jsdoc as [comment|]; [|announces_nothing].
    apply announcesNothing_if; [|announces_nothing].
    destruct (positions !! Z.of_nat (SyntaxScanner.startLine func));
      unfold countSuggestion; announces_nothing.
Qed.

(** A file is announced once, before anything else is written for it. *)
Lemma processFile_announces_its_file (file : string) (w : World) :
  announcements (snd (processFile h file w))
  = (announcements w ++ [ConsoleLog ("Processing file: " +:+ file)])%list.
Proof.
  unfold processFile.
  match goal with
  | |- context [bind (emit ?e) (fun _ => ?body)] =>
      assert (Hbody : announcesNothing body)
  end.
  { apply announcesNothing_tryCatch; [|intros ?; announces_nothing].
    apply announcesNothing_bind; [apply detectFunctions_announces_nothing|intros fs].
    apply announcesNothing_if; [announces_nothing|].
    apply announcesNothing_bind; [announces_nothing|intros _].
    apply announcesNothing_bind; [apply getDiffPositions_announces_nothing|intros ps].
    apply announcesNothing_bind; [apply forFunctions_announces_nothing|intros ss].
    apply announcesNothing_bind; [|intros _; announces_nothing].
    apply announcesNothing_if; [|announces_nothing].
    apply announcesNothing_bind; [apply submitPRReview_announces_nothing|intros _].
    unfold pushSuggestedFile. announces_nothing. }
  erewrite bind_ret by apply emit_logged.
  destruct (Hbody (logged w (ConsoleLog ("Processing file: " +:+ file))))
    as (added & E & F).
  unfold announcements. rewrite E. cbn [logged console].
  rewrite !List.filter_app. cbn [List.filter isAnnouncement].
  rewrite startsWith_append.
  replace (List.filter isAnnouncement added) with (@nil LogEntry).
  - now rewrite app_nil_r.
  - symmetry. clear E. induction F as [|e added He _ IH]; [reflexivity|].
    cbn [List.filter]. now rewrite He.
Qed.

(** X13: the loop over the files announces on the console each entry of
    the list that is not blank, trimmed, once and in the order of the
    list, whatever fails for the files before it. *)
Theorem every_listed_file_is_announced_once (files : list string) (w : World) :
  announcements (snd (forFiles h files w))
  = (announcements w
     ++ map (fun file => ConsoleLog ("Processing file: " +:+ file))
          (List.filter truthy (map trim files)))%list.
Proof.
  revert w. induction files as [|file rest IH]; intros w.
  - cbn. now rewrite app_nil_r.
  - cbn [forFiles map List.filter].
    destruct (truthy (trim file)) eqn:Hfile.
    + destruct (processFile_returns h (trim file) w) as (r & w1 & E1 & _).
      erewrite bind_ret.
      2:{ erewrite bind_ret by exact E1. reflexivity. }
      rewrite IH.
      pose proof (processFile_announces_its_file (trim file) w) as Ha.
      rewrite E1 in Ha. cbn [snd] in Ha. rewrite Ha.
      cbn [map]. now rewrite <- app_assoc.
    + erewrite bind_ret by reflexivity. apply IH.
Qed.

End Announcements.

(** ** The counters of the walk *)

Lemma step_sameButLeftLine (st st' : WalkState) (line : string) :
  sameButLeftLine st st' -> sameButLeftLine (step st line) (step st' line).
Proof.
  intros (Hm & Hp & Hr). unfold sameButLeftLine, step, classify.
  destruct (startsWith line "@@").
  { destruct (hunkHeaderMatch line) as [[a c]|]; simpl; auto. }
  destruct (startsWith line "-"); [simpl; auto|].
  destruct (startsWith line "+"); [simpl; rewrite Hm, Hp, Hr; auto|].
  match goal with |- context [if ?b then _ else _] => destruct b end;
    simpl; rewrite ?Hm, ?Hp, ?Hr; auto.
Qed.

(** X14: the counter of old-file lines is written by the loop and never
    read: two walks over the same lines that start from states that
    differ in that counter only end with the same map, the same position
    and the same new-file counter. *)
Theorem old_file_counter_is_never_read (st st' : WalkState) (lines : list string) :
  sameButLeftLine st st' ->
  sameButLeftLine (walkFrom st lines) (walkFrom st' lines).
Proof.
  revert st st'. induction lines as [|line lines IH]; intros st st' H; [exact H|].
  rewrite !walkFrom_cons. now apply IH, step_sameButLeftLine.
Qed.

Lemma old_file_counter_is_never_read_witness :
  sameButLeftLine
    (walkFrom initial ["@@ -10,2 +10,3 @@"; " a();"; "+b();"])
    (walkFrom {| lineMap := ∅; currentPosition := 0; leftLine := 99; rightLine := 0 |}
       ["@@ -10,2 +10,3 @@"; " a();"; "+b();"]).
Proof.
  apply (old_file_counter_is_never_read initial
           {| lineMap := ∅; currentPosition := 0; leftLine := 99; rightLine := 0 |}
           ["@@ -10,2 +10,3 @@"; " a();"; "+b();"]).
  repeat split.
Defined.

(** ** The captures of the header pattern *)

Lemma spanDigits_digits (s : string) :
  allDigits (fst (spanDigits s)) = true.
Proof.
  induction s as [|c s IH]; [reflexivity|]. cbn [spanDigits].
  destruct (isDigit c) eqn:Hc; [|reflexivity].
  destruct (spanDigits s) as [d r]. simpl in *. now rewrite Hc, IH.
Qed.

Lemma digits1_number (s d r : string) :
  digits1 s = Some (d, r) -> isNumber d = true.
Proof.
  unfold digits1. pose proof (spanDigits_digits s) as H.
  destruct (spanDigits s) as [d' r']. simpl in H.
  destruct d' as [|c d']; [discriminate|]. intros [= <- <-].
  unfold isNumber. now rewrite H.
Qed.

Lemma hunkHeaderAt_numbers (s a c : string) :
  hunkHeaderAt s = Some (a, c) -> isNumber a = true /\ isNumber c = true.
Proof.
  unfold hunkHeaderAt. intros H.
  destruct (expect "@@ -" s) as [r0|]; [|discriminate]. cbn [mbind option_bind] in H.
  destruct (digits1 r0) as [[a' r1]|] eqn:Ea; [|discriminate].
  cbn [mbind option_bind] in H.
  destruct (expect "," r1) as [r2|]; [|discriminate]. cbn [mbind option_bind] in H.
  destruct (digits1 r2) as [[b' r3]|]; [|discriminate]. cbn [mbind option_bind] in H.
  destruct (expect " +" r3) as [r4|]; [|discriminate]. cbn [mbind option_bind] in H.
  destruct (digits1 r4) as [[c' r5]|] eqn:Ec; [|discriminate].
  cbn [mbind option_bind] in H.
  destruct (expect "," r5) as [r6|]; [|discriminate]. cbn [mbind option_bind] in H.
  destruct (digits1 r6) as [[d' r7]|]; [|discriminate]. cbn [mbind option_bind] in H.
  destruct (expect " @@" r7) as [r8|]; [|discriminate]. cbn in H.
  revert H. intros [= <- <-].
  split; [exact (digits1_number _ _ _ Ea)|exact (digits1_number _ _ _ Ec)].
Qed.

Lemma hunkHeaderMatch_numbers (s a c : string) :
  hunkHeaderMatch s = Some (a, c) -> isNumber a = true /\ isNumber c = true.
Proof.
  induction s as [|x s IH]; [discriminate|].
  rewrite hunkHeaderMatch_cons.
  destruct (hunkHeaderAt (String x s)) as [[a' c']|] eqn:E; [|exact IH].
  intros H; inversion H; subst. exact (hunkHeaderAt_numbers _ _ _ E).
Qed.

Lemma parseDigits_nonneg (s : string) :
  allDigits s = true -> forall acc, 0 <= acc -> 0 <= parseDigits acc s.
Proof.
  induction s as [|c s IH]; intros Hs acc Hacc; [exact Hacc|].
  cbn [allDigits] in Hs. apply andb_true_iff in Hs as [Hc Hs].
  cbn [parseDigits]. apply IH; [exact Hs|].
  assert (0 <= digitVal c).
  { unfold isDigit in Hc. apply andb_true_iff in Hc as [Hc _].
    apply Nat.leb_le in Hc. unfold digitVal. lia. }
  lia.
Qed.

Lemma step_rightLine_bound (st : WalkState) (line : string) :
  -1 <= rightLine st -> -1 <= rightLine (step st line).
Proof.
  intros H. unfold step, classify.
  destruct (startsWith line "@@").
  { destruct (hunkHeaderMatch line) as [[a c]|] eqn:E; [|exact H].
    destruct (hunkHeaderMatch_numbers _ _ _ E) as [_ Hc].
    pose proof (parseDigits_nonneg c (isNumber_allDigits c Hc) 0 (Z.le_refl 0)).
    cbn [rightLine]. unfold parseInt. lia. }
  destruct (startsWith line "-"); [exact H|].
  destruct (startsWith line "+"); [cbn [rightLine]; lia|].
  match goal with |- context [if ?b then _ else _] => destruct b end;
    cbn [rightLine]; lia.
Qed.

Lemma walkFrom_keys_nonneg (lines : list string) :
  forall st : WalkState,
    -1 <= rightLine st ->
    map_Forall (fun (k : Z) (_ : nat) => 0 <= k) (lineMap st) ->
    -1 <= rightLine (walkFrom st lines)
    /\ map_Forall (fun (k : Z) (_ : nat) => 0 <= k) (lineMap (walkFrom st lines)).
Proof.
  induction lines as [|line lines IH]; intros st Hr Hm; [auto|].
  rewrite walkFrom_cons. apply IH; [now apply step_rightLine_bound|].
  rewrite step_writes_recorded_lines.
  destruct (recorded line); [|exact Hm].
  apply map_Forall_insert_2; [lia|exact Hm].
Qed.

(** X15: whatever the lines of the segment, the new-file counter never
    falls below -1 and the position map has no negative key: a header
    that matches sets the counter from a run of digits, and every other
    line leaves it or adds one to it. *)
Theorem keys_are_never_negative (lines : list string) :
  -1 <= rightLine (walk lines)
  /\ map_Forall (fun (k : Z) (_ : nat) => 0 <= k) (lineMap (walk lines)).
Proof.
  apply walkFrom_keys_nonneg; [cbn; lia|apply map_Forall_empty].
Qed.

(** ** The rows of the summary *)

Lemma append_empty (a : string) : a +:+ "" = a.
Proof. induction a as [|x a IH]; simpl; [reflexivity|]. now rewrite IH. Qed.

Lemma hasLine_prepend (p text line : string) :
  hasLine text line -> hasLine (p +:+ text) line.
Proof.
  intros (before & after & ->). exists (p +:+ before), after.
  now rewrite append_assoc.
Qed.

Lemma hasLine_append (text q line : string) :
  hasLine text line -> hasLine (text +:+ q) line.
Proof.
  intros (before & after & ->). exists before, (after +:+ q).
  now rewrite !append_assoc.
Qed.

Lemma join_has_line (rows : list string) (row : string) :
  In row rows -> hasLine (join nl rows +:+ nl) row.
Proof.
  induction rows as [|r rows IH]; intros Hin; [contradiction|].
  destruct Hin as [->|Hin].
  - destruct rows as [|r2 rows].
    + exists "", "". cbn [join]. now rewrite append_empty.
    + exists "", (join nl (r2 :: rows) +:+ nl).
      change (join nl (row :: r2 :: rows))
        with (row +:+ nl +:+ join nl (r2 :: rows)).
      now rewrite !append_assoc.
  - destruct rows as [|r2 rows]; [contradiction|].
    change (join nl (r :: r2 :: rows)) with (r +:+ nl +:+ join nl (r2 :: rows)).
    rewrite !append_assoc. do 2 apply hasLine_prepend. exact (IH Hin).
Qed.

Ltac skip_to_rows :=
  repeat lazymatch goal with
    | |- hasLine (?p +:+ _) _ =>
        lazymatch p with
        | context [join] => fail
        | _ => apply hasLine_prepend
        end
    end.

(** X16: for every file of the statistics that has suggestions, the
    summary holds the row of the table with the path of the file between
    backquotes and its number of suggestions. *)
Theorem summary_has_a_row_for_each_file (s : Stats) (file : string) (count : nat) :
  In (file, count) (suggestedFiles s) ->
  hasLine (summaryOf s) ("| `" +:+ file +:+ "` | " +:+ pretty count +:+ " |").
Proof.
  intros Hin.
  assert (Hrow : In (summaryRow (file, count)) (map summaryRow (suggestedFiles s)))
    by now apply in_map.
  assert (Hpos : (0 <? length (suggestedFiles s))%nat = true).
  { destruct (suggestedFiles s); [contradiction|reflexivity]. }
  unfold summaryOf. rewrite Hpos.
  skip_to_rows. apply hasLine_append. skip_to_rows.
  exact (join_has_line _ _ Hrow).
Qed.

Lemma summary_has_a_row_for_each_file_witness :
  hasLine
    (summaryOf {| totalFiles := 1; totalFunctions := 0; totalSuggestions := 2;
                  suggestedFiles := [("math.js", 2%nat)] |})
    ("| `" +:+ "math.js" +:+ "` | " +:+ pretty 2%nat +:+ " |").
Proof.
  apply (summary_has_a_row_for_each_file
           {| totalFiles := 1; totalFunctions := 0; totalSuggestions := 2;
              suggestedFiles := [("math.js", 2%nat)] |} "math.js" 2).
  left. reflexivity.
Defined.

(** ** Positions are not shared *)

Lemma step_positions_apart (st : WalkState) (line : string) :
  (forall k p, lineMap st !! k = Some p -> (p < currentPosition st)%nat) ->
  (forall k1 k2 p1 p2, k1 <> k2 -> lineMap st !! k1 = Some p1 ->
                       lineMap st !! k2 = Some p2 -> p1 <> p2) ->
  (forall k p, lineMap (step st line) !! k = Some p ->
               (p < currentPosition (step st line))%nat)
  /\ (forall k1 k2 p1 p2, k1 <> k2 -> lineMap (step st line) !! k1 = Some p1 ->
                          lineMap (step st line) !! k2 = Some p2 -> p1 <> p2).
Proof.
  intros Hlt Hinj. rewrite step_position, step_writes_recorded_lines.
  destruct (recorded line).
  - split.
    + intros k p [[_ <-]|[_ H]]%lookup_insert_Some; [lia|].
      apply Hlt in H. lia.
    + intros k1 k2 p1 p2 Hk [[E1 <-]|[N1 H1]]%lookup_insert_Some
        [[E2 <-]|[N2 H2]]%lookup_insert_Some.
      * congruence.
      * apply Hlt in H2. lia.
      * apply Hlt in H1. lia.
      * exact (Hinj _ _ _ _ Hk H1 H2).
  - split; [|exact Hinj]. intros k p H. apply Hlt in H. lia.
Qed.

Lemma walkFrom_positions_apart (lines : list string) :
  forall st : WalkState,
    (forall k p, lineMap st !! k = Some p -> (p < currentPosition st)%nat) ->
    (forall k1 k2 p1 p2, k1 <> k2 -> lineMap st !! k1 = Some p1 ->
                         lineMap st !! k2 = Some p2 -> p1 <> p2) ->
    forall k1 k2 p1 p2, k1 <> k2 ->
      lineMap (walkFrom st lines) !! k1 = Some p1 ->
      lineMap (walkFrom st lines) !! k2 = Some p2 -> p1 <> p2.
Proof.
  induction lines as [|line lines IH]; intros st Hlt Hinj; [exact Hinj|].
  rewrite walkFrom_cons.
  destruct (step_positions_apart st line Hlt Hinj) as [Hlt' Hinj'].
  exact (IH _ Hlt' Hinj').
Qed.

(** X17: two different line numbers of the position map never have the
    same position: every line of the segment has a position of its own,
    and a line writes at most one key. *)
Theorem distinct_lines_have_distinct_positions (lines : list string)
    (k1 k2 : Z) (p1 p2 : nat) :
  k1 <> k2 ->
  lineMap (walk lines) !! k1 = Some p1 ->
  lineMap (walk lines) !! k2 = Some p2 ->
  p1 <> p2.
Proof.
  apply walkFrom_positions_apart.
  - intros k p H. cbn in H. rewrite lookup_empty in H. discriminate.
  - intros k1' k2' p1' p2' _ H. cbn in H. rewrite lookup_empty in H. discriminate.
Qed.

Lemma distinct_lines_have_distinct_positions_witness :
  (1%nat <> 2%nat).
Proof.
  apply (distinct_lines_have_distinct_positions
           ["@@ -10,2 +10,3 @@"; " a();"; "+b();"] 10 11 1 2).
  - lia.
  - vm_compute; reflexivity.
  - vm_compute; reflexivity.
Defined.

(** ** The total and the table *)

Lemma countWhere_all (requests : list (list ReviewComment * bool)) :
  countWhere (fun _ => true) requests
  = list_sum (map (fun r => length (fst r)) requests).
Proof.
  induction requests as [|[comments ok] rest IH]; [reflexivity|].
  cbn [countWhere map list_sum fst]. now rewrite IH.
Qed.

(** X18: at the end of a run, the total of suggestions of the
    statistics is the sum of the counts of the rows of the table. *)
Theorem total_is_the_sum_of_the_table (h : Host) :
  let w := snd (main h initialWorld) in
  totalSuggestions (stats w) = list_sum (map snd (suggestedFiles (stats w))).
Proof.
  intros w. subst w.
  destruct (main_returns h initialWorld) as (w & E & S). rewrite E. cbn [snd].
  destruct (settled_balanced w S) as ((B1 & B2) & _).
  unfold reportedCounts, requestSizes in B2. rewrite B2, B1.
  apply countWhere_all.
Qed.

Section TableFacts.
Variable h : Host.

Lemma processFile_rows (file : string) (w : World) :
  exists rows,
    suggestedFiles (stats (snd (processFile h file w)))
    = (suggestedFiles (stats w) ++ rows)%list
    /\ (rows = [] \/ exists n, rows = [(file, S n)]).
Proof.
  destruct (processFile_steps h file w)
    as (functions & w1 & _ & _ & [[_ (w' & E & G)]|[_ Hrun]]).
  - exists []. rewrite E, app_nil_r. destruct G as (_ & _ & g3 & _). auto.
  - destruct Hrun as (positions & w3 & suggestions & w4 & n & _ & _ & G3 & E4 & G4 & _
                      & [[_ E]|[Hne (ok & w' & E & R & F & _)]]).
    + exists []. rewrite E, app_nil_r. cbn [snd].
      destruct G3 as (_ & _ & a3 & _). destruct G4 as (_ & _ & b3 & _).
      split; [congruence|auto].
    + exists [(file, length suggestions)]. rewrite E. cbn [snd].
      destruct G3 as (_ & _ & a3 & _). destruct G4 as (_ & _ & b3 & _).
      split; [rewrite F; congruence|].
      right. destruct suggestions as [|s0 ss]; [congruence|].
      exists (length ss). reflexivity.
Qed.

(** X19: the rows that the loop over the files adds to the table are
    rows of entries of the list that are not blank, trimmed, in the order
    of the list and at most one for each entry, and every row counts at
    least one suggestion. *)
Theorem table_rows_follow_the_file_list (files : list string) (w : World) :
  exists rows,
    suggestedFiles (stats (snd (forFiles h files w)))
    = (suggestedFiles (stats w) ++ rows)%list
    /\ sublist (map fst rows) (List.filter truthy (map trim files))
    /\ Forall (fun row => (1 <= snd row)%nat) rows.
Proof.
  revert w. induction files as [|file rest IH]; intros w.
  - exists []. cbn. rewrite app_nil_r. repeat split; constructor.
  - cbn [forFiles map List.filter].
    destruct (truthy (trim file)) eqn:Hfile.
    + destruct (processFile_returns h (trim file) w) as (r & w1 & E1 & _).
      erewrite bind_ret.
      2:{ erewrite bind_ret by exact E1. reflexivity. }
      destruct (processFile_rows (trim file) w) as (rows1 & R1 & Hrows1).
      rewrite E1 in R1. cbn [snd] in R1.
      destruct (IH w1) as (rows & R & Hsub & Hpos).
      exists (rows1 ++ rows)%list. rewrite R, R1, <- app_assoc.
      split; [reflexivity|].
      destruct Hrows1 as [->|[n ->]].
      * split; [now apply sublist_cons|exact Hpos].
      * split; [cbn; now apply sublist_skip|].
        constructor; [cbn; lia|exact Hpos].
    + erewrite bind_ret by reflexivity. apply IH.
Qed.

End TableFacts.

(** ** The methods of a tree *)

Lemma visit_units_come_from_nodes (fileContent : string) (u : SyntaxScanner.CallableUnit) :
  forall (node : Ast.node) (parent : option Ast.node),
    In u (SyntaxScanner.visit fileContent parent node) ->
    exists n p, In n (nodesOf node) /\ In u (SyntaxScanner.enter fileContent n p).
Proof.
  fix IH 1. intros [t s e l lc nm v id key init children] parent.
  cbn [SyntaxScanner.visit nodesOf].
  set (node := Ast.mkNode t s e l lc nm v id key init children).
  intros Hin.
  apply in_app_or in Hin as [Hin|Hin].
  { exists node, parent. split; [now left|exact Hin]. }
  assert (Hc : exists n p, In n (flat_map nodesOf children)
                           /\ In u (SyntaxScanner.enter fileContent n p)).
  { revert Hin. generalize (Some node). clear node. intros q.
    induction children as [|c children IHc]; [contradiction|].
    cbn [flat_map]. intros [Hin|Hin]%in_app_or.
    - destruct (IH _ _ Hin) as (n' & p & Hn & Hu).
      exists n', p. split; [apply in_or_app; now left|exact Hu].
    - destruct (IHc Hin) as (n' & p & Hn & Hu).
      exists n', p. split; [apply in_or_app; now right|exact Hu]. }
  destruct Hc as (n' & p & Hn & Hu).
  exists n', p. split; [right; exact Hn|exact Hu].
Qed.

Lemma visit_enters_every_node (fileContent : string) (n : Ast.node) :
  forall (node : Ast.node) (parent : option Ast.node),
    In n (nodesOf node) ->
    exists p, incl (SyntaxScanner.enter fileContent n p)
                (SyntaxScanner.visit fileContent parent node).
Proof.
  fix IH 1. intros [t s e l lc nm v id key init children] parent.
  cbn [SyntaxScanner.visit nodesOf].
  set (node := Ast.mkNode t s e l lc nm v id key init children).
  intros [Heq|Hin].
  { exists parent. rewrite <- Heq. apply incl_appl, incl_refl. }
  assert (Hc : exists p, incl (SyntaxScanner.enter fileContent n p)
                           (flat_map (SyntaxScanner.visit fileContent (Some node))
                              children)).
  { revert Hin. generalize (Some node). clear node. intros q.
    induction children as [|c children IHc]; [contradiction|].
    cbn [flat_map]. intros [Hin|Hin]%in_app_or.
    - destruct (IH _ q Hin) as (p & Hp). exists p. apply incl_appl. exact Hp.
    - destruct (IHc Hin) as (p & Hp). exists p. apply incl_appr. exact Hp. }
  destruct Hc as (p & Hp). exists p. apply incl_appr. exact Hp.
Qed.

Lemma enter_method (fileContent : string) (n : Ast.node) (p : option Ast.node)
    (u : SyntaxScanner.CallableUnit) :
  In u (SyntaxScanner.enter fileContent n p) ->
  SyntaxScanner.type u = "method" ->
  (Ast.type n = "ClassMethod" \/ Ast.type n = "ObjectMethod")
  /\ SyntaxScanner.someJSDoc (Ast.leadingComments n) = false
  /\ exists nm, u = SyntaxScanner.unitOf fileContent n nm "method".
Proof.
  unfold SyntaxScanner.enter.
  destruct (String.eqb (Ast.type n) "FunctionDeclaration").
  { unfold SyntaxScanner.FunctionDeclaration.
    destruct (SyntaxScanner.truthyName (Ast.id n)); [|contradiction].
    match goal with |- context [if ?b then _ else _] => destruct b end;
      [|contradiction].
    intros [<-|[]]. discriminate. }
  destruct (String.eqb (Ast.type n) "VariableDeclarator").
  { unfold SyntaxScanner.VariableDeclarator.
    destruct (SyntaxScanner.truthyName (Ast.id n)); [|contradiction].
    destruct (SyntaxScanner.isFunctionInit (Ast.init n)); [|contradiction].
    match goal with |- context [if ?b then _ else _] => destruct b end;
      [|contradiction].
    intros [<-|[]]. discriminate. }
  destruct (String.eqb (Ast.type n) "ClassMethod") eqn:Hc.
  { apply String.eqb_eq in Hc. unfold SyntaxScanner.ClassMethod.
    destruct (SyntaxScanner.truthyName (Ast.key n)) as [nm|]; [|contradiction].
    destruct (SyntaxScanner.someJSDoc (Ast.leadingComments n)); [contradiction|].
    intros [<-|[]] _. eauto. }
  destruct (String.eqb (Ast.type n) "ObjectMethod") eqn:Ho; [|contradiction].
  apply String.eqb_eq in Ho. unfold SyntaxScanner.ObjectMethod.
  destruct (match SyntaxScanner.truthyName (Ast.key n) with
            | Some s => Some s
            | None => SyntaxScanner.stringLiteralValue (Ast.key n)
            end) as [nm|]; [|contradiction].
  destruct (SyntaxScanner.someJSDoc (Ast.leadingComments n)); [contradiction|].
  intros [<-|[]] _. eauto.
Qed.

(** X20: a unit of type method that the scan emits comes from a node of
    the tree that is a class method or an object method and carries no
    JSDoc block comment; the unit has the start, the line and the text of
    that node. *)
Theorem method_units_come_from_undocumented_methods (fileContent : string)
    (ast : Ast.node) (u : SyntaxScanner.CallableUnit) :
  In u (SyntaxScanner.traverse fileContent ast) ->
  SyntaxScanner.type u = "method" ->
  exists n,
    In n (nodesOf ast)
    /\ (Ast.type n = "ClassMethod" \/ Ast.type n = "ObjectMethod")
    /\ SyntaxScanner.someJSDoc (Ast.leadingComments n) = false
    /\ SyntaxScanner.startIndex u = Ast.start n
    /\ SyntaxScanner.startLine u = Ast.line n
    /\ SyntaxScanner.content u = substring fileContent (Ast.start n) (Ast.end_ n).
Proof.
  intros Hin Hm.
  destruct (visit_units_come_from_nodes _ _ _ _ Hin) as (n & p & Hn & Hu).
  destruct (enter_method _ _ _ _ Hu Hm) as (Ht & Hdoc & nm & ->).
  exists n. repeat split; assumption.
Qed.

Lemma method_units_come_from_undocumented_methods_witness :
  exists n,
    In n (nodesOf classAst)
    /\ (Ast.type n = "ClassMethod" \/ Ast.type n = "ObjectMethod")
    /\ SyntaxScanner.someJSDoc (Ast.leadingComments n) = false
    /\ 34%nat = Ast.start n
    /\ 4%nat = Ast.line n
    /\ "n() { return 1; }" = substring classSource (Ast.start n) (Ast.end_ n).
Proof.
  apply (method_units_come_from_undocumented_methods classSource classAst
           (SyntaxScanner.unitOf classSource undocumentedMethod "n" "method")).
  - vm_compute. left. reflexivity.
  - reflexivity.
Defined.

(** A method without documentation is among the units of the walk. *)
Lemma undocumented_methods_are_visited (fileContent : string)
    (ast n : Ast.node) (nm : string) :
  In n (nodesOf ast) ->
  Ast.type n = "ClassMethod" \/ Ast.type n = "ObjectMethod" ->
  SyntaxScanner.truthyName (Ast.key n) = Some nm ->
  SyntaxScanner.someJSDoc (Ast.leadingComments n) = false ->
  In (SyntaxScanner.unitOf fileContent n nm "method")
    (SyntaxScanner.traverse fileContent ast).
Proof.
  intros Hn Ht Hname Hdoc.
  destruct (visit_enters_every_node fileContent n ast None Hn) as (p & Hp).
  apply Hp. unfold SyntaxScanner.enter.
  destruct Ht as [Ht|Ht]; rewrite Ht; cbn [String.eqb Ascii.eqb Bool.eqb];
    cbv iota.
  - unfold SyntaxScanner.ClassMethod. rewrite Hname, Hdoc. now left.
  - unfold SyntaxScanner.ObjectMethod. rewrite Hname, Hdoc. now left.
Qed.

(** X21: when the file is read, its text parses and [traverse] does not
    throw on the tree, the scan returns the units of the walk, and among
    them, for every class method or object method of the tree whose key
    has a name and which carries no JSDoc block comment, a unit of type
    method with that name and the start, the line and the text of the
    node, wherever the node is in the tree. *)
Theorem undocumented_methods_are_emitted
    (h : Host) (filePath fileContent : string) (ast n : Ast.node) (nm : string)
    (w : World) :
  readFileSync h (clock w) filePath = Ret fileContent ->
  parse h fileContent = Ret ast ->
  traverseThrows h ast = None ->
  In n (nodesOf ast) ->
  Ast.type n = "ClassMethod" \/ Ast.type n = "ObjectMethod" ->
  SyntaxScanner.truthyName (Ast.key n) = Some nm ->
  SyntaxScanner.someJSDoc (Ast.leadingComments n) = false ->
  detectFunctions h filePath w
  = (Ret (SyntaxScanner.traverse fileContent ast), tick w)
  /\ In (SyntaxScanner.unitOf fileContent n nm "method")
       (SyntaxScanner.traverse fileContent ast).
Proof.
  intros Hread Hparse Hwalk Hn Ht Hname Hdoc. split.
  - unfold detectFunctions, tryCatch, bind, call, pure, ret.
    rewrite Hread, Hparse, Hwalk. reflexivity.
  - now apply undocumented_methods_are_visited.
Qed.

Lemma undocumented_methods_are_emitted_witness :
  detectFunctions (classHost None) "a.js" initialWorld
  = (Ret (SyntaxScanner.traverse classSource classAst), tick initialWorld)
  /\ In (SyntaxScanner.unitOf classSource undocumentedMethod "n" "method")
       (SyntaxScanner.traverse classSource classAst).
Proof.
  apply (undocumented_methods_are_emitted (classHost None) "a.js" classSource
           classAst undocumentedMethod "n" initialWorld).
  - reflexivity.
  - reflexivity.
  - reflexivity.
  - vm_compute. do 8 right. left. reflexivity.
  - left. reflexivity.
  - reflexivity.
  - reflexivity.
Defined.

(** X23: when [traverse] throws on the tree of a file, the units that
    the visitors had pushed are lost: the scan writes the cause on the
    console and returns the empty sequence; the file is done with no
    statistics changed, no request sent and nothing thrown, and the loop
    goes on with the files that remain. *)
Theorem traversal_failure_is_isolated
    (h : Host) (raw content message : string) (ast : Ast.node)
    (rest : list string) (w : World) :
  truthy (trim raw) = true ->
  readFileSync h (clock w) (trim raw) = Ret content ->
  parse h content = Ret ast ->
  traverseThrows h ast = Some message ->
  let file := trim raw in
  let cause :=
    ConsoleError ("Error detecting functions in " +:+ file +:+ ": " +:+ message) in
  let after :=
    logged (logged (tick (logged w (ConsoleLog ("Processing file: " +:+ file)))) cause)
           (ConsoleLog ("No functions without JSDoc found in " +:+ file)) in
  detectFunctions h file w = (Ret [], logged (tick w) cause)
  /\ processFile h file w = (Ret None, after)
  /\ stats after = stats w
  /\ reviews after = reviews w
  /\ forFiles h (raw :: rest) w = forFiles h rest after
  /\ exists w', forFiles h (raw :: rest) w = (Ret tt, w').
Proof.
  intros Htruthy Hread Hparse Hwalk file cause after.
  assert (Hdetect : forall w0, clock w0 = clock w ->
            detectFunctions h file w0 = (Ret [], logged (tick w0) cause)).
  { intros w0 Hclock. unfold detectFunctions, tryCatch, bind, call, pure.
    fold file in Hread. rewrite Hclock, Hread, Hparse, Hwalk. reflexivity. }
  assert (Hfile : processFile h file w = (Ret None, after)).
  { unfold processFile. erewrite bind_ret by apply emit_logged.
    apply tryCatch_ret. erewrite bind_ret by (apply Hdetect; reflexivity).
    cbn [length Nat.eqb]. erewrite bind_ret by apply emit_logged. reflexivity. }
  assert (Hloop : forFiles h (raw :: rest) w = forFiles h rest after).
  { cbn [forFiles]. rewrite Htruthy. fold file.
    erewrite bind_ret.
    2:{ erewrite bind_ret by exact Hfile. reflexivity. }
    reflexivity. }
  split; [now apply Hdetect|]. split; [exact Hfile|].
  split; [reflexivity|]. split; [reflexivity|].
  split; [exact Hloop|].
  rewrite Hloop. destruct (forFiles_returns h rest after) as (w' & E & _). eauto.
Qed.

Lemma traversal_failure_is_isolated_witness :
  let cause :=
    ConsoleError "Error detecting functions in a.js: Duplicate declaration" in
  let after :=
    logged (logged (tick (logged initialWorld (ConsoleLog "Processing file: a.js")))
                   cause)
           (ConsoleLog "No functions without JSDoc found in a.js") in
  detectFunctions (classHost (Some "Duplicate declaration")) "a.js" initialWorld
  = (Ret [], logged (tick initialWorld) cause)
  /\ processFile (classHost (Some "Duplicate declaration")) "a.js" initialWorld
     = (Ret None, after)
  /\ stats after = stats initialWorld
  /\ reviews after = reviews initialWorld
  /\ forFiles (classHost (Some "Duplicate declaration")) [" a.js "; "b.js"]
       initialWorld
     = forFiles (classHost (Some "Duplicate declaration")) ["b.js"] after
  /\ exists w', forFiles (classHost (Some "Duplicate declaration"))
                  [" a.js "; "b.js"] initialWorld
                = (Ret tt, w').
Proof.
  exact (traversal_failure_is_isolated (classHost (Some "Duplicate declaration"))
           " a.js " classSource "Duplicate declaration" classAst ["b.js"]
           initialWorld eq_refl eq_refl eq_refl eq_refl).
Defined.
